(** * StudyAI generator: provider clients, response extraction, document statistics

    A shallow embedding of the Python sources

      - [config/settings.py]      (the price table, validation),
      - [core/ai_providers.py]    (cost computation, provider clients, factory),
      - [core/generator.py]       (prompt construction, JSON extraction, fallbacks),
      - [core/document_parser.py] (parsing, validation, content statistics),

    followed by the properties established about them.

    Conventions of the embedding.

    - A Python [str] is a [string]: a sequence of characters with code points
      below 256.  Text produced by the JSON decoder may hold any code point
      (through [\uXXXX] escapes), so the strings inside Python values
      ([PyVal]) are lists of code points.
    - A Python [int] is a [Z]; a Python [float] is an IEEE 754 binary64 number,
      given by [spec_float] with precision 53 and maximal exponent 1024.
    - A computation that may raise returns a [result]; a method that also
      mutates its object or talks to the outside world is a function from the
      state before to the result and the state after. *)

From Stdlib Require Import ZArith NArith List String Ascii Bool Lia PeanoNat.
From Stdlib Require Import Floats.SpecFloat.
From Stdlib Require Import Numbers.DecimalString.
Import ListNotations.

Local Open Scope string_scope.
Local Open Scope Z_scope.

(* ================================================================== *)
(** * The Python runtime                                                *)
(* ================================================================== *)

Module Py.

(** ** Text *)

(** The double quote and the newline, which the string literals below
    never contain. *)
Definition dq : string := String (ascii_of_nat 34) "".
Definition nl : string := String (ascii_of_nat 10) "".

(** [q s] is [s] between double quotes, [sq s] between single quotes. *)
Definition q (s : string) : string := dq ++ s ++ dq.
Definition sq (s : string) : string := "'" ++ s ++ "'".

(** [lines] joins with newlines: the lines of a triple-quoted literal. *)
Definition lines (l : list string) : string := String.concat nl l.

(** [len(s)] *)
Definition len (s : string) : Z := Z.of_nat (String.length s).

(** [s * n] *)
Fixpoint repeated (n : nat) (s : string) : string :=
  match n with
  | O => EmptyString
  | S n' => s ++ repeated n' s
  end.

(** [str(n)] for an [int]. *)
Definition str_of_int (n : Z) : string := NilZero.string_of_int (Z.to_int n).

(** [s[n:]] *)
Fixpoint drop (n : nat) (s : string) : string :=
  match n, s with
  | O, _ => s
  | S _, EmptyString => EmptyString
  | S n', String _ s' => drop n' s'
  end.

(** [s.startswith(p)] *)
Fixpoint startswith (s p : string) {struct p} : bool :=
  match p with
  | EmptyString => true
  | String a p' =>
      match s with
      | EmptyString => false
      | String b s' => Ascii.eqb a b && startswith s' p'
      end
  end.

(** [s.partition(sep)], for a non-empty [sep]: the text before and the text
    after the leftmost occurrence of [sep], or [None] when there is none. *)
Fixpoint partition (sep s : string) : option (string * string) :=
  if startswith s sep then Some (EmptyString, drop (String.length sep) s)
  else match s with
       | EmptyString => None
       | String c s' =>
           match partition sep s' with
           | Some (before, after) => Some (String c before, after)
           | None => None
           end
       end.

(** [sub in s] *)
Definition contains (sub s : string) : bool :=
  match partition sub s with Some _ => true | None => false end.

(** [s.split(sep)], for a non-empty [sep]: cut at the leftmost occurrence and
    go on after it.  Every cut removes a character at least, so [fuel] the
    length of [s] is never used up ([PyFacts.split_unfold]). *)
Fixpoint split_fuel (fuel : nat) (sep s : string) : list string :=
  match fuel with
  | O => [s]
  | S fuel' =>
      match partition sep s with
      | None => [s]
      | Some (before, after) => before :: split_fuel fuel' sep after
      end
  end.

Definition split (sep s : string) : list string :=
  split_fuel (String.length s) sep s.

(** [str.isspace] on one character: the code points below 256 that Python
    counts as white space. *)
Definition isspace (c : ascii) : bool :=
  let n := nat_of_ascii c in
  ((9 <=? n) && (n <=? 13) || (28 <=? n) && (n <=? 32)
   || (n =? 133) || (n =? 160))%nat.

(** [s.lstrip()], [s.rstrip()], [s.strip()] *)
Fixpoint lstrip (s : string) : string :=
  match s with
  | EmptyString => EmptyString
  | String c s' => if isspace c then lstrip s' else s
  end.

Fixpoint rstrip (s : string) : string :=
  match s with
  | EmptyString => EmptyString
  | String c s' =>
      match rstrip s' with
      | EmptyString => if isspace c then EmptyString else String c EmptyString
      | r => String c r
      end
  end.

Definition strip (s : string) : string := rstrip (lstrip s).

(** [s.split()] with no separator: the maximal runs of characters that are
    not white space.  [cur] is the run being read. *)
Fixpoint split_ws_from (cur : string) (s : string) : list string :=
  match s with
  | EmptyString => match cur with EmptyString => [] | _ => [cur] end
  | String c s' =>
      if isspace c then
        match cur with
        | EmptyString => split_ws_from EmptyString s'
        | _ => cur :: split_ws_from EmptyString s'
        end
      else split_ws_from (cur ++ String c EmptyString) s'
  end.

Definition split_ws (s : string) : list string := split_ws_from EmptyString s.

(** [s.lower()]: the upper-case letters below 256 are A-Z and the
    Latin-1 capitals 192-222 without the multiplication sign 215; each is 32
    below its lower-case form. *)
Definition lower_char (c : ascii) : ascii :=
  let n := nat_of_ascii c in
  if ((65 <=? n) && (n <=? 90)
      || (192 <=? n) && (n <=? 222) && negb (n =? 215))%nat
  then ascii_of_nat (n + 32) else c.

Fixpoint lower (s : string) : string :=
  match s with
  | EmptyString => EmptyString
  | String c s' => String (lower_char c) (lower s')
  end.

(** The code points of a text. *)
Definition unicode : Type := list N.

Definition codes (s : string) : unicode :=
  List.map N_of_ascii (list_ascii_of_string s).

Definition unicode_eqb (a b : unicode) : bool :=
  if list_eq_dec N.eq_dec a b then true else false.

(** ** Floats *)

Definition float : Type := spec_float.

Definition prec : Z := 53.
Definition emax : Z := 1024.

Definition fadd : float -> float -> float := SFadd prec emax.
Definition fsub : float -> float -> float := SFsub prec emax.
Definition fmul : float -> float -> float := SFmul prec emax.

Definition fzero : float := S754_zero false.

(** An integer as an exact, not yet rounded, binary number. *)
Definition exact (z : Z) : spec_float :=
  match z with
  | Z0 => S754_zero false
  | Zpos p => S754_finite false p 0
  | Zneg p => S754_finite true p 0
  end.

(** The float nearest to [a / b], for [b] positive. *)
Definition nearest_quotient (a b : Z) : float := SFdiv prec emax (exact a) (exact b).

(** The float a decimal literal [m]e[e10] denotes: the nearest to
    [m * 10^e10]. *)
Definition decimal (m e10 : Z) : float :=
  if 0 <=? e10 then nearest_quotient (m * 10 ^ e10) 1
  else nearest_quotient m (10 ^ (- e10)).

(** ** Exceptions *)

Inductive exn : Type :=
| KeyError (key : string)
| IndexError (msg : string)
| TypeError (msg : string)
| ValueError (msg : string)
| AttributeError (msg : string)
| ZeroDivisionError (msg : string)
| OverflowError (msg : string)
| RecursionError (msg : string)
| NotImplementedError
| JSONDecodeError (msg : string) (lineno colno pos : nat)
| APIError (msg : string)      (* whatever the client library raises *)
| Exception (msg : string).

(** [str(e)] *)
Definition str_of_exn (e : exn) : string :=
  match e with
  | KeyError key => sq key
  | IndexError msg | TypeError msg | ValueError msg | AttributeError msg
  | ZeroDivisionError msg | OverflowError msg | RecursionError msg
  | APIError msg | Exception msg => msg
  | NotImplementedError => ""
  | JSONDecodeError msg lineno colno pos =>
      msg ++ ": line " ++ str_of_int (Z.of_nat lineno)
          ++ " column " ++ str_of_int (Z.of_nat colno)
          ++ " (char " ++ str_of_int (Z.of_nat pos) ++ ")"
  end.

Inductive result (A : Type) : Type :=
| Ok (a : A)
| Raise (e : exn).
Arguments Ok {A} a.
Arguments Raise {A} e.

Definition bind {A B} (r : result A) (k : A -> result B) : result B :=
  match r with
  | Ok a => k a
  | Raise e => Raise e
  end.

(** [a / b] on two [int]s: the nearest float to the quotient;
    [ZeroDivisionError] for a zero divisor, [OverflowError] when the nearest
    float would be beyond the largest one (the quotient is at least
    [2^1024 - 2^970] in absolute value). *)
Definition int_truediv (a b : Z) : result float :=
  if b =? 0 then Raise (ZeroDivisionError "division by zero")
  else if (2 ^ 1024 - 2 ^ 970) * Z.abs b <=? Z.abs a
       then Raise (OverflowError "integer division result too large for a float")
       else Ok (SFdiv prec emax (exact a) (exact b)).

(** ** Values *)

(** The values the program handles: what [json.loads] returns, and the
    dictionaries the program builds.  A [dict] keeps its keys in insertion
    order; all keys are strings. *)
#[warnings="-register-all"]
Inductive PyVal : Type :=
| VNone
| VBool (b : bool)
| VInt (z : Z)
| VFloat (f : float)
| VStr (s : unicode)
| VList (l : list PyVal)
| VDict (d : list (unicode * PyVal)).

Definition vstr (s : string) : PyVal := VStr (codes s).

(** A dictionary literal [{'k': v, ...}] with distinct keys. *)
Definition pydict (items : list (string * PyVal)) : PyVal :=
  VDict (List.map (fun kv => (codes (fst kv), snd kv)) items).

(** [d.get(k)] on the association list of a dictionary. *)
Fixpoint dict_get {V} (d : list (unicode * V)) (k : unicode) : option V :=
  match d with
  | [] => None
  | (k', v) :: d' => if unicode_eqb k' k then Some v else dict_get d' k
  end.

(** [d[k] = v]: an old key keeps its place, a new one goes last. *)
Fixpoint dict_set {V} (d : list (unicode * V)) (k : unicode) (v : V)
  : list (unicode * V) :=
  match d with
  | [] => [(k, v)]
  | (k', v') :: d' =>
      if unicode_eqb k' k then (k', v) :: d' else (k', v') :: dict_set d' k v
  end.

(** [v.get(k)] for a value that is a dictionary. *)
Definition pyget (v : PyVal) (k : string) : option PyVal :=
  match v with
  | VDict d => dict_get d (codes k)
  | _ => None
  end.

(** [type(v).__name__] *)
Definition type_name (v : PyVal) : string :=
  match v with
  | VNone => "NoneType"
  | VBool _ => "bool"
  | VInt _ => "int"
  | VFloat _ => "float"
  | VStr _ => "str"
  | VList _ => "list"
  | VDict _ => "dict"
  end.

(** [obj[key] = v] with a string [key]: only a dictionary takes it. *)
Definition setitem (obj : PyVal) (key : string) (v : PyVal) : result PyVal :=
  match obj with
  | VDict d => Ok (VDict (dict_set d (codes key) v))
  | VList _ =>
      Raise (TypeError "list indices must be integers or slices, not str")
  | _ =>
      Raise (TypeError (sq (type_name obj)
                          ++ " object does not support item assignment"))
  end.

(** ** Dictionary literals keyed by program strings, and lists *)

(** [d[k]] *)
Fixpoint getitem {V} (d : list (string * V)) (k : string) : result V :=
  match d with
  | [] => Raise (KeyError k)
  | (k', v) :: d' => if String.eqb k' k then Ok v else getitem d' k
  end.

(** [d.get(k, default)] *)
Fixpoint get_default {V} (d : list (string * V)) (k : string) (default : V)
  : V :=
  match d with
  | [] => default
  | (k', v) :: d' => if String.eqb k' k then v else get_default d' k default
  end.

(** [l[i]] for [i] not negative. *)
Definition index {V} (l : list V) (i : nat) : result V :=
  match List.nth_error l i with
  | Some v => Ok v
  | None => Raise (IndexError "list index out of range")
  end.

(** [a or b] for an optional string [a]: [None] and [''] are false. *)
Definition or_else (a : option string) (b : string) : string :=
  match a with
  | None | Some EmptyString => b
  | Some a' => a'
  end.

(** [try: body except KeyError: handler] and the like: [catches] says
    which exceptions the clause takes. *)
Definition try_except {A} (body : result A) (catches : exn -> bool)
  (handler : exn -> result A) : result A :=
  match body with
  | Ok a => Ok a
  | Raise e => if catches e then handler e else Raise e
  end.

Definition is_KeyError (e : exn) : bool :=
  match e with KeyError _ => true | _ => false end.
Definition is_JSONDecodeError (e : exn) : bool :=
  match e with JSONDecodeError _ _ _ _ => true | _ => false end.
(** Every exception of the model derives from [Exception]. *)
Definition is_Exception (e : exn) : bool := true.

(** ** Methods: state and exceptions *)

(** A method run: from the state before to the outcome and the state after.
    What was assigned before an exception stays assigned. *)
Definition M (S A : Type) : Type := S -> result A * S.

Definition ret {S A} (a : A) : M S A := fun st => (Ok a, st).
Definition raise {S A} (e : exn) : M S A := fun st => (Raise e, st).
Definition lift {S A} (r : result A) : M S A := fun st => (r, st).
Definition mbind {S A B} (m : M S A) (k : A -> M S B) : M S B :=
  fun st =>
    match m st with
    | (Ok a, st') => k a st'
    | (Raise e, st') => (Raise e, st')
    end.
Definition modify {S} (f : S -> S) : M S unit := fun st => (Ok tt, f st).

Definition mtry {S A} (body : M S A) (catches : exn -> bool)
  (handler : exn -> M S A) : M S A :=
  fun st =>
    match body st with
    | (Ok a, st') => (Ok a, st')
    | (Raise e, st') => if catches e then handler e st' else (Raise e, st')
    end.

Module Notations.
Declare Scope py_scope.
Delimit Scope py_scope with py.
Notation "'let*' x ':=' c 'in' k" := (bind c (fun x => k))
  (at level 61, x name, c at next level, right associativity) : py_scope.
Notation "x <- c ;; k" := (mbind c (fun x => k))
  (at level 61, c at next level, right associativity) : py_scope.
Notation "c ;; k" := (mbind c (fun _ => k))
  (at level 61, right associativity) : py_scope.
End Notations.

End Py.

(* ================================================================== *)
(** * [json.loads]                                                      *)
(* ================================================================== *)

(** The decoder of the standard library, as the program calls it: strict,
    no hooks, with the scanner the interpreter ships (the accelerated one).
    A scanning function takes the text still to read and returns the value
    read and the text after it; an error keeps the length of the text that
    was left where it arose, from which [loads] computes its position.  The
    interpreter sets the decoder two limits, on the depth of nesting and on
    the digits of an integer literal ([Limits]); what it raises at either
    passes through the decoder as it is.  Running out of memory is left
    out. *)

Module Json.
Import Py.

(** [ScanError]: the text is not JSON, and [loads] raises
    [JSONDecodeError].  [Raised]: an exception of the interpreter. *)
Inductive scan_error : Type :=
| ScanError (msg : string) (remaining : nat)
| Raised (e : exn).

(** What the interpreter allows where [json.loads] is called.
    - [recursion_remaining]: the nested calls that may still be made there
      (the recursion limit less the depth of the stack); the scanner makes
      one for every array and every object it enters.
    - [int_max_str_digits]: [sys.get_int_max_str_digits()], the most digits
      an integer literal may have; [0] for no limit. *)
Class Limits : Type := {
  recursion_remaining : nat;
  int_max_str_digits : nat
}.

(** The defaults: a recursion limit of 1000 with nothing on the stack, and
    4300 digits. *)
Definition default_limits : Limits := {|
  recursion_remaining := 1000;
  int_max_str_digits := 4300
|}.

Definition scan (A : Type) : Type := (scan_error + A)%type.

Definition fail_at {A} (msg : string) (s : string) : scan A :=
  inl (ScanError msg (String.length s)).

Definition code (c : ascii) : nat := nat_of_ascii c.

(** [WHITESPACE]: space, tab, line feed, carriage return. *)
Definition is_ws (c : ascii) : bool :=
  let n := code c in ((n =? 32) || (n =? 9) || (n =? 10) || (n =? 13))%nat.

Fixpoint skip_ws (s : string) : string :=
  match s with
  | EmptyString => EmptyString
  | String c s' => if is_ws c then skip_ws s' else s
  end.

(** *** Strings *)

Definition hexval (c : ascii) : option N :=
  let n := code c in
  if ((48 <=? n) && (n <=? 57))%nat then Some (N.of_nat (n - 48))
  else if ((97 <=? n) && (n <=? 102))%nat then Some (N.of_nat (n - 87))
  else if ((65 <=? n) && (n <=? 70))%nat then Some (N.of_nat (n - 55))
  else None.

Definition hex4 (a b c d : ascii) : option N :=
  match hexval a, hexval b, hexval c, hexval d with
  | Some x, Some y, Some z, Some w =>
      Some (((x * 16 + y) * 16 + z) * 16 + w)%N
  | _, _, _, _ => None
  end.

(** [BACKSLASH]: the one-character escapes. *)
Definition unescape (c : ascii) : option N :=
  let n := code c in
  if (n =? 34)%nat then Some 34%N            (* quote *)
  else if (n =? 92)%nat then Some 92%N       (* backslash *)
  else if (n =? 47)%nat then Some 47%N       (* slash *)
  else if (n =? 98)%nat then Some 8%N        (* b *)
  else if (n =? 102)%nat then Some 12%N      (* f *)
  else if (n =? 110)%nat then Some 10%N      (* n *)
  else if (n =? 114)%nat then Some 13%N      (* r *)
  else if (n =? 116)%nat then Some 9%N       (* t *)
  else None.

Definition is_high_surrogate (u : N) : bool :=
  ((55296 <=? u) && (u <=? 56319))%N.
Definition is_low_surrogate (u : N) : bool :=
  ((56320 <=? u) && (u <=? 57343))%N.
Definition join_surrogates (hi lo : N) : N :=
  (65536 + ((hi - 55296) * 1024 + (lo - 56320)))%N.

(** [scanstring]: [s] starts just after the opening quote, [start] is the
    length of the text from that quote on, [acc] the code points read so
    far, last first.  An escape [\uXXXX] is read when a character at least
    follows its four digits, and a second one is joined to it as a
    surrogate pair under the same condition. *)
Fixpoint scanstring (start : nat) (s : string) (acc : unicode)
  : scan (unicode * string) :=
  match s with
  | EmptyString => inl (ScanError "Unterminated string starting at" start)
  | String c s1 =>
      if (code c =? 34)%nat then inr (List.rev acc, s1)
      else if (code c =? 92)%nat then
        match s1 with
        | EmptyString =>
            inl (ScanError "Unterminated string starting at" start)
        | String e s2 =>
            if (code e =? 117)%nat then
              match s2 with
              | String h1 (String h2 (String h3 (String h4
                  (String _ _ as s3)))) =>
                  match hex4 h1 h2 h3 h4 with
                  | None => fail_at "Invalid \uXXXX escape" s1
                  | Some u =>
                      if is_high_surrogate u then
                        match s3 with
                        | String b1 (String b2 (String l1 (String l2
                            (String l3 (String l4 (String _ _ as s4)))))) =>
                            if ((code b1 =? 92) && (code b2 =? 117))%nat then
                              match hex4 l1 l2 l3 l4 with
                              | None =>
                                  fail_at "Invalid \uXXXX escape" (drop 1 s3)
                              | Some u2 =>
                                  if is_low_surrogate u2
                                  then scanstring start s4
                                         (join_surrogates u u2 :: acc)
                                  else scanstring start s3 (u :: acc)
                              end
                            else scanstring start s3 (u :: acc)
                        | _ => scanstring start s3 (u :: acc)
                        end
                      else scanstring start s3 (u :: acc)
                  end
              | _ => fail_at "Invalid \uXXXX escape" s1
              end
            else
              match unescape e with
              | Some u => scanstring start s2 (u :: acc)
              | None => fail_at "Invalid \escape" s
              end
        end
      else if (code c <=? 31)%nat then fail_at "Invalid control character at" s
      else scanstring start s1 (N_of_ascii c :: acc)
  end.

(** *** Numbers *)

Definition is_digit (c : ascii) : bool :=
  ((48 <=? code c) && (code c <=? 57))%nat.

Definition digit_val (c : ascii) : Z := Z.of_nat (code c - 48).

Fixpoint take_digits (s : string) : list ascii * string :=
  match s with
  | EmptyString => ([], EmptyString)
  | String c s' =>
      if is_digit c
      then let (ds, rest) := take_digits s' in (c :: ds, rest)
      else ([], s)
  end.

Definition int_of_digits (ds : list ascii) : Z :=
  List.fold_left (fun acc d => 10 * acc + digit_val d) ds 0.

(** The three groups of [NUMBER_RE]: an optional minus sign and either a
    single zero or a digit from 1 to 9 with any digits after it; optionally a
    dot and one digit at least; optionally [e] or [E], an optional sign and
    one digit at least. *)
Definition match_integer (s : string) : option (bool * list ascii * string) :=
  let (neg, s1) :=
    match s with
    | String c s' => if (code c =? 45)%nat then (true, s') else (false, s)
    | EmptyString => (false, s)
    end in
  match s1 with
  | EmptyString => None
  | String c s2 =>
      if (code c =? 48)%nat then Some (neg, [c], s2)
      else if is_digit c
           then let (ds, rest) := take_digits s2 in Some (neg, c :: ds, rest)
           else None
  end.

Definition match_frac (s : string) : option (list ascii * string) :=
  match s with
  | String c s1 =>
      if (code c =? 46)%nat then
        match take_digits s1 with
        | ([], _) => None
        | (ds, rest) => Some (ds, rest)
        end
      else None
  | EmptyString => None
  end.

Definition match_exp (s : string) : option (Z * string) :=
  match s with
  | String c s1 =>
      if ((code c =? 101) || (code c =? 69))%nat then
        let (sign, s2) :=
          match s1 with
          | String c' s' =>
              if (code c' =? 45)%nat then (-1, s')
              else if (code c' =? 43)%nat then (1, s')
              else (1, s1)
          | EmptyString => (1, s1)
          end in
        match take_digits s2 with
        | ([], _) => None
        | (ds, rest) => Some (sign * int_of_digits ds, rest)
        end
      else None
  | EmptyString => None
  end.

(** [float(text)] for the text of a number with a fraction or an exponent. *)
Definition float_of_parts (neg : bool) (int_ds frac_ds : list ascii) (e : Z)
  : float :=
  let m := int_of_digits (int_ds ++ frac_ds) in
  if m =? 0 then S754_zero neg
  else decimal (if neg then - m else m) (e - Z.of_nat (List.length frac_ds)).

(** [int(text)] for the text of an integer: refused when it has more
    digits than the interpreter allows (it counts them from 641 on). *)
Definition too_many_digits {lim : Limits} (digits : nat) : bool :=
  ((640 <? digits) && (0 <? int_max_str_digits)
   && (int_max_str_digits <? digits))%nat.

Definition int_conversion_error {lim : Limits} (digits : nat) : exn :=
  ValueError
    ("Exceeds the limit (" ++ str_of_int (Z.of_nat int_max_str_digits)
     ++ " digits) for integer string conversion: value has "
     ++ str_of_int (Z.of_nat digits)
     ++ " digits; use sys.set_int_max_str_digits() to increase the limit").

Definition match_number {lim : Limits} (s : string)
  : option (scan (PyVal * string)) :=
  match match_integer s with
  | None => None
  | Some (neg, int_ds, s1) =>
      let (frac_ds, s2) :=
        match match_frac s1 with
        | Some (ds, rest) => (Some ds, rest)
        | None => (None, s1)
        end in
      let (e, s3) :=
        match match_exp s2 with
        | Some (e, rest) => (Some e, rest)
        | None => (None, s2)
        end in
      match frac_ds, e with
      | None, None =>
          let digits := List.length int_ds in
          if too_many_digits digits
          then Some (inl (Raised (int_conversion_error digits)))
          else
            let n := int_of_digits int_ds in
            Some (inr (VInt (if neg then - n else n), s3))
      | _, _ =>
          Some (inr (VFloat
                       (float_of_parts neg int_ds
                          (match frac_ds with Some ds => ds | None => [] end)
                          (match e with Some e => e | None => 0 end)), s3))
      end
  end.

(** The values that are neither a string, an object nor an array. *)
Definition scan_atom {lim : Limits} (s : string) : scan (PyVal * string) :=
  if startswith s "null" then inr (VNone, drop 4 s)
  else if startswith s "true" then inr (VBool true, drop 4 s)
  else if startswith s "false" then inr (VBool false, drop 5 s)
  else match match_number s with
       | Some r => r
       | None =>
           if startswith s "NaN" then inr (VFloat S754_nan, drop 3 s)
           else if startswith s "Infinity"
                then inr (VFloat (S754_infinity false), drop 8 s)
           else if startswith s "-Infinity"
                then inr (VFloat (S754_infinity true), drop 9 s)
           else fail_at "Expecting value" s
       end.

(** [dict(pairs)] *)
Definition dict_of_pairs (pairs : list (unicode * PyVal))
  : list (unicode * PyVal) :=
  List.fold_left (fun d kv => dict_set d (fst kv) (snd kv)) pairs [].

(** *** Values, arrays, objects *)

Definition recursion_error (what : string) : exn :=
  RecursionError
    ("maximum recursion depth exceeded while decoding a JSON " ++ what
     ++ " from a unicode string").

Section Scanner.
Context {lim : Limits}.

(** [scan_once] reads one value.  [array_items] is the loop of the array
    scanner, entered where a value is expected; [object_items] is the loop
    of the object scanner, entered just after the opening quote of a key.
    [depth] is the number of nested calls still allowed: the scanner of an
    object or of an array is entered by one, and not at all when none is
    left.  Of two calls in a row one at least reads a character, so with
    [fuel] above twice the length of the text the result does not depend on
    it ([JsonFacts.scan_once_fuel]). *)
Fixpoint scan_once (fuel depth : nat) (s : string) {struct fuel}
  : scan (PyVal * string) :=
  match fuel with
  | O => fail_at "Expecting value" s
  | S fuel' =>
      match s with
      | EmptyString => fail_at "Expecting value" s
      | String c s1 =>
          if (code c =? 34)%nat then
            match scanstring (String.length s) s1 [] with
            | inl e => inl e
            | inr (u, rest) => inr (VStr u, rest)
            end
          else if (code c =? 123)%nat then
            match depth with
            | O => inl (Raised (recursion_error "object"))
            | S depth' =>
                match skip_ws s1 with
                | String c' s2 as s1' =>
                    if (code c' =? 125)%nat then inr (VDict [], s2)
                    else if (code c' =? 34)%nat
                    then object_items fuel' depth' s2 []
                    else fail_at
                           "Expecting property name enclosed in double quotes"
                           s1'
                | EmptyString =>
                    fail_at
                      "Expecting property name enclosed in double quotes"
                      EmptyString
                end
            end
          else if (code c =? 91)%nat then
            match depth with
            | O => inl (Raised (recursion_error "array"))
            | S depth' =>
                match skip_ws s1 with
                | String c' s2 as s1' =>
                    if (code c' =? 93)%nat then inr (VList [], s2)
                    else array_items fuel' depth' s1' []
                | EmptyString => array_items fuel' depth' EmptyString []
                end
            end
          else scan_atom s
      end
  end

with array_items (fuel depth : nat) (s : string) (acc : list PyVal)
       {struct fuel} : scan (PyVal * string) :=
  match fuel with
  | O => fail_at "Expecting value" s
  | S fuel' =>
      match scan_once fuel' depth s with
      | inl e => inl e
      | inr (v, rest) =>
          match skip_ws rest with
          | String c s1 as rest' =>
              if (code c =? 93)%nat then inr (VList (List.rev (v :: acc)), s1)
              else if (code c =? 44)%nat
                   then array_items fuel' depth (skip_ws s1) (v :: acc)
                   else fail_at "Expecting ',' delimiter" rest'
          | EmptyString => fail_at "Expecting ',' delimiter" EmptyString
          end
      end
  end

with object_items (fuel depth : nat) (s : string)
       (acc : list (unicode * PyVal)) {struct fuel} : scan (PyVal * string) :=
  match fuel with
  | O => fail_at "Expecting value" s
  | S fuel' =>
      match scanstring (S (String.length s)) s [] with
      | inl e => inl e
      | inr (key, rest) =>
          match skip_ws rest with
          | String c s1 as rest' =>
              if (code c =? 58)%nat then
                match scan_once fuel' depth (skip_ws s1) with
                | inl e => inl e
                | inr (v, rest2) =>
                    match skip_ws rest2 with
                    | String c2 s2 as rest2' =>
                        if (code c2 =? 125)%nat
                        then inr (VDict (dict_of_pairs
                                           (List.rev ((key, v) :: acc))), s2)
                        else if (code c2 =? 44)%nat then
                          match skip_ws s2 with
                          | String c3 s3 as s2' =>
                              if (code c3 =? 34)%nat
                              then object_items fuel' depth s3
                                     ((key, v) :: acc)
                              else fail_at
                                "Expecting property name enclosed in double quotes"
                                s2'
                          | EmptyString =>
                              fail_at
                                "Expecting property name enclosed in double quotes"
                                EmptyString
                          end
                        else fail_at "Expecting ',' delimiter" rest2'
                    | EmptyString =>
                        fail_at "Expecting ',' delimiter" EmptyString
                    end
                end
              else fail_at "Expecting ':' delimiter" rest'
          | EmptyString => fail_at "Expecting ':' delimiter" EmptyString
          end
      end
  end.

End Scanner.

(** *** [JSONDecodeError(msg, doc, pos)] *)

(** The number of line feeds in the first [pos] characters, and the number
    of characters after the last of them. *)
Fixpoint line_col (doc : string) (pos : nat) (line col : nat) : nat * nat :=
  match pos, doc with
  | O, _ => (line, col)
  | S _, EmptyString => (line, col)
  | S pos', String c doc' =>
      if (code c =? 10)%nat then line_col doc' pos' (S line) 1%nat
      else line_col doc' pos' line (S col)
  end.

Definition decode_error (msg doc : string) (pos : nat) : exn :=
  let (line, col) := line_col doc pos 1%nat 1%nat in
  JSONDecodeError msg line col pos.

(** [json.loads(doc)]: one value between optional white space, and nothing
    after it. *)
Definition loads {lim : Limits} (doc : string) : result PyVal :=
  let position (remaining : nat) : nat := (String.length doc - remaining)%nat in
  match scan_once (S (2 * String.length doc)) recursion_remaining
          (skip_ws doc) with
  | inl (ScanError msg remaining) =>
      Raise (decode_error msg doc (position remaining))
  | inl (Raised e) => Raise e
  | inr (v, rest) =>
      match skip_ws rest with
      | EmptyString => Ok v
      | rest' =>
          Raise (decode_error "Extra data" doc
                   (position (String.length rest')))
      end
  end.

(** The exceptions of the interpreter's two limits: [RecursionError] for
    an object or an array nested too deep, [ValueError] for an integer
    literal of too many digits. *)
Definition from_a_limit {lim : Limits} (e : exn) : Prop :=
  e = recursion_error "object" \/
  e = recursion_error "array" \/
  (exists digits,
     too_many_digits digits = true /\ e = int_conversion_error digits).

End Json.

(* ================================================================== *)
(** * [config/settings.py]                                              *)
(* ================================================================== *)

Module Settings.
Import Py.

(** The settings read from the process environment when the module is
    imported. *)
Class Config : Type := {
  OPENAI_API_KEY : string;
  GROQ_API_KEY : string;
  OPENAI_MODEL : string;
  GROQ_MODEL : string;
  MAX_TOKENS : Z;
  TEMPERATURE : float
}.

(** Their values when the environment sets none of them. *)
Definition default_config : Config := {|
  OPENAI_API_KEY := "";
  GROQ_API_KEY := "";
  OPENAI_MODEL := "gpt-3.5-turbo";
  GROQ_MODEL := "llama-3.1-70b-versatile";
  MAX_TOKENS := 2000;
  TEMPERATURE := decimal 7 (-1)
|}.

(** Pricing (per 1M tokens) *)
Definition PRICING : list (string * list (string * list (string * float))) :=
  [ ("openai",
      [ ("gpt-3.5-turbo", [("input", decimal 50 (-2)); ("output", decimal 150 (-2))]);
        ("gpt-4",         [("input", decimal 3000 (-2)); ("output", decimal 6000 (-2))]);
        ("gpt-4-turbo",   [("input", decimal 1000 (-2)); ("output", decimal 3000 (-2))]) ]);
    ("groq",
      [ ("llama-3.1-70b-versatile", [("input", decimal 59 (-2)); ("output", decimal 79 (-2))]);
        ("llama-3.1-8b-instant",    [("input", decimal 5 (-2)); ("output", decimal 8 (-2))]);
        ("mixtral-8x7b-32768",      [("input", decimal 24 (-2)); ("output", decimal 24 (-2))]) ]) ].

End Settings.

(* ================================================================== *)
(** * [core/ai_providers.py]                                            *)
(* ================================================================== *)

Module AIProviders.
Import Py Py.Notations Settings.
Local Open Scope py_scope.

(** ** The client libraries and the clock *)

Inductive Client : Type :=
| OpenAI (api_key : string)
| Groq (api_key : string).

Record Message : Type := {
  role : string;
  content : string
}.

(** The arguments of [client.chat.completions.create]. *)
Record ChatRequest : Type := {
  req_model : string;
  req_messages : list Message;
  req_max_tokens : Z;
  req_temperature : float
}.

Record Usage : Type := {
  prompt_tokens : Z;
  completion_tokens : Z;
  total_tokens : Z
}.

Record Choice : Type := {
  message_content : string;
  finish_reason : string
}.

Record ChatCompletion : Type := {
  usage : Usage;
  choices : list Choice
}.

(** The world outside the program: a clock and the two remote services.
    Reading the clock and calling a service both move the world on; a call
    answers or raises. *)
Class Runtime : Type := {
  World : Type;
  time_time : World -> float * World;
  chat_completions_create :
    Client -> ChatRequest -> World -> result ChatCompletion * World
}.

(** ** [class AIProvider] and its subclasses *)

Inductive ProviderClass : Type :=
| AIProviderClass
| OpenAIProviderClass
| GroqProviderClass.

(** A provider object.  The base class has no client. *)
Record AIProvider : Type := {
  class : ProviderClass;
  provider_name : string;
  model : string;
  response_time : PyVal;
  token_usage : Z;
  cost : PyVal;
  client : option Client
}.

Definition set_response_time (v : PyVal) (p : AIProvider) : AIProvider :=
  {| class := class p; provider_name := provider_name p; model := model p;
     response_time := v; token_usage := token_usage p; cost := cost p;
     client := client p |}.
Definition set_token_usage (n : Z) (p : AIProvider) : AIProvider :=
  {| class := class p; provider_name := provider_name p; model := model p;
     response_time := response_time p; token_usage := n; cost := cost p;
     client := client p |}.
Definition set_cost (v : PyVal) (p : AIProvider) : AIProvider :=
  {| class := class p; provider_name := provider_name p; model := model p;
     response_time := response_time p; token_usage := token_usage p;
     cost := v; client := client p |}.

(** [AIProvider.__init__] *)
Definition AIProvider_init (provider_name model : string) : AIProvider :=
  {| class := AIProviderClass; provider_name := provider_name; model := model;
     response_time := VInt 0; token_usage := 0; cost := VInt 0;
     client := None |}.

(** [AIProvider.calculate_cost] *)
Definition calculate_cost (self : AIProvider) (input_tokens output_tokens : Z)
  : result float :=
  try_except
    (let* models := getitem PRICING (provider_name self) in
     let* pricing := getitem models (model self) in
     let* input_millions := int_truediv input_tokens 1000000 in
     let* input_price := getitem pricing "input" in
     let input_cost := fmul input_millions input_price in
     let* output_millions := int_truediv output_tokens 1000000 in
     let* output_price := getitem pricing "output" in
     let output_cost := fmul output_millions output_price in
     Ok (fadd input_cost output_cost))
    is_KeyError
    (fun _ => Ok fzero).

Section Methods.
Context {cfg : Config} {rt : Runtime}.

(** The state a method runs in: its object and the world. *)
Record State : Type := {
  self : AIProvider;
  world : World
}.

Definition on_self (f : AIProvider -> AIProvider) : M State unit :=
  modify (fun st => {| self := f (self st); world := world st |}).

Definition get_self : M State AIProvider :=
  fun st => (Ok (self st), st).

(** [time.time()] *)
Definition now : M State float :=
  fun st =>
    let (t, w) := time_time (world st) in
    (Ok t, {| self := self st; world := w |}).

(** [self.client.chat.completions.create(...)] *)
Definition create (c : Client) (req : ChatRequest) : M State ChatCompletion :=
  fun st =>
    let (r, w) := chat_completions_create c req (world st) in
    (r, {| self := self st; world := w |}).

(** [OpenAIProvider.__init__] *)
Definition OpenAIProvider_init (model : string) : AIProvider :=
  {| class := OpenAIProviderClass; provider_name := "openai"; model := model;
     response_time := VInt 0; token_usage := 0; cost := VInt 0;
     client := Some (OpenAI OPENAI_API_KEY) |}.

(** [GroqProvider.__init__] *)
Definition GroqProvider_init (model : string) : AIProvider :=
  {| class := GroqProviderClass; provider_name := "groq"; model := model;
     response_time := VInt 0; token_usage := 0; cost := VInt 0;
     client := Some (Groq GROQ_API_KEY) |}.

(** The first statements of both [generate] methods: the messages to send. *)
Definition build_messages (prompt : string) (system_prompt : option string)
  : list Message :=
  let messages : list Message := [] in
  let messages :=
    match system_prompt with
    | Some (String _ _ as text) =>
        (messages ++ [{| role := "system"; content := text |}])%list
    | _ => messages
    end in
  (messages ++ [{| role := "user"; content := prompt |}])%list.

(** [OpenAIProvider.generate] *)
Definition OpenAIProvider_generate (prompt : string)
  (system_prompt : option string) : M State (string * PyVal) :=
  let messages := build_messages prompt system_prompt in
  start_time <- now ;;
  mtry
    (me <- get_self ;;
     client <- lift (match client me with
                     | Some c => Ok c
                     | None => Raise (AttributeError
                         "'AIProvider' object has no attribute 'client'")
                     end) ;;
     response <- create client {| req_model := model me;
                                  req_messages := messages;
                                  req_max_tokens := MAX_TOKENS;
                                  req_temperature := TEMPERATURE |} ;;
     t <- now ;;
     on_self (set_response_time (VFloat (fsub t start_time))) ;;
     (* Extract metrics *)
     let usage := usage response in
     on_self (set_token_usage (total_tokens usage)) ;;
     me <- get_self ;;
     c <- lift (calculate_cost me (prompt_tokens usage)
                  (completion_tokens usage)) ;;
     on_self (set_cost (VFloat c)) ;;
     first <- lift (index (choices response) 0) ;;
     let content := message_content first in
     me <- get_self ;;
     first <- lift (index (choices response) 0) ;;
     let metrics :=
       pydict [ ("provider", vstr (provider_name me));
                ("model", vstr (model me));
                ("response_time", response_time me);
                ("token_usage", VInt (token_usage me));
                ("input_tokens", VInt (prompt_tokens usage));
                ("output_tokens", VInt (completion_tokens usage));
                ("cost", cost me);
                ("finish_reason", vstr (finish_reason first)) ] in
     ret (content, metrics))
    is_Exception
    (fun e => raise (Exception ("OpenAI API error: " ++ str_of_exn e))).

(** [GroqProvider.generate] *)
Definition GroqProvider_generate (prompt : string)
  (system_prompt : option string) : M State (string * PyVal) :=
  let messages := build_messages prompt system_prompt in
  start_time <- now ;;
  mtry
    (me <- get_self ;;
     client <- lift (match client me with
                     | Some c => Ok c
                     | None => Raise (AttributeError
                         "'AIProvider' object has no attribute 'client'")
                     end) ;;
     response <- create client {| req_model := model me;
                                  req_messages := messages;
                                  req_max_tokens := MAX_TOKENS;
                                  req_temperature := TEMPERATURE |} ;;
     t <- now ;;
     on_self (set_response_time (VFloat (fsub t start_time))) ;;
     (* Extract metrics *)
     let usage := usage response in
     on_self (set_token_usage (total_tokens usage)) ;;
     me <- get_self ;;
     c <- lift (calculate_cost me (prompt_tokens usage)
                  (completion_tokens usage)) ;;
     on_self (set_cost (VFloat c)) ;;
     first <- lift (index (choices response) 0) ;;
     let content := message_content first in
     me <- get_self ;;
     first <- lift (index (choices response) 0) ;;
     let metrics :=
       pydict [ ("provider", vstr (provider_name me));
                ("model", vstr (model me));
                ("response_time", response_time me);
                ("token_usage", VInt (token_usage me));
                ("input_tokens", VInt (prompt_tokens usage));
                ("output_tokens", VInt (completion_tokens usage));
                ("cost", cost me);
                ("finish_reason", vstr (finish_reason first)) ] in
     ret (content, metrics))
    is_Exception
    (fun e => raise (Exception ("Groq API error: " ++ str_of_exn e))).

(** [provider.generate(prompt, system_prompt)]: the method of the object's
    class; the base class leaves it unimplemented. *)
Definition generate (prompt : string) (system_prompt : option string)
  : M State (string * PyVal) :=
  me <- get_self ;;
  match class me with
  | AIProviderClass => raise NotImplementedError
  | OpenAIProviderClass => OpenAIProvider_generate prompt system_prompt
  | GroqProviderClass => GroqProvider_generate prompt system_prompt
  end.

(** [get_provider] *)
Definition get_provider (provider_name : string) (model : option string)
  : result AIProvider :=
  if String.eqb (lower provider_name) "openai"
  then Ok (OpenAIProvider_init (or_else model OPENAI_MODEL))
  else if String.eqb (lower provider_name) "groq"
  then Ok (GroqProvider_init (or_else model GROQ_MODEL))
  else Raise (ValueError ("Unknown provider: " ++ provider_name)).

End Methods.

End AIProviders.

(* ================================================================== *)
(** * [core/generator.py]                                               *)
(* ================================================================== *)

Module Generator.
Import Py Py.Notations Settings AIProviders.
Local Open Scope py_scope.

(** The file keeps its text in an order that does not parse: what stands
    from the middle of line 81 to the middle of line 107 belongs after what
    stands from there to the end.  (The last line breaks off in
    [self._extract_], and line 107 goes on with [json(response)] after its
    statement.)  In the order that completes both statements and leaves
    nothing out,
    - [generate_quiz] is lines 51-81 and then lines 107-115;
    - [generate_study_guide] is lines 160-189 and then lines 81-93;
    - [_extract_json], lines 95-107, is the last method and ends with
      [return json.loads(response)]. *)

(** [StudyMaterialGenerator._extract_json] (lines 95-107) *)
Definition _extract_json {lim : Json.Limits} (response : string)
  : result PyVal :=
  let* response :=
    if contains "```json" response then
      let* tail := index (split "```json" response) 1 in
      index (split "```" tail) 0
    else if contains "```" response then
      let* tail := index (split "```" response) 1 in
      index (split "```" tail) 0
    else Ok response in
  let response := strip response in
  Json.loads response.

(** The prompts.  A triple-quoted literal is given line by line; [q]
    writes a double quote on each side of a word. *)

Definition flashcards_system_prompt : string := lines
  [ "You are an expert educational content creator. ";
    "Generate high-quality flashcards that test key concepts and understanding.";
    "Return ONLY valid JSON format with no additional text." ].

Definition flashcards_prompt (content : string) (count : Z) : string := lines
  [ "Based on the following content, generate exactly "
      ++ str_of_int count ++ " flashcards.";
    "";
    "Content:";
    content;
    "";
    "Return a JSON object with this structure:";
    "{";
    "    " ++ q "flashcards" ++ ": [";
    "        {";
    "            " ++ q "question" ++ ": " ++ q "Question text here" ++ ",";
    "            " ++ q "answer" ++ ": " ++ q "Answer text here" ++ ",";
    "            " ++ q "difficulty" ++ ": " ++ q "easy|medium|hard" ++ ",";
    "            " ++ q "topic" ++ ": " ++ q "Main topic";
    "        }";
    "    ]";
    "}";
    "";
    "Focus on key concepts, definitions, and important relationships. Make questions clear and answers concise." ].

Definition quiz_system_prompt : string := lines
  [ "You are an expert at creating educational assessments.";
    "Generate challenging but fair multiple choice questions.";
    "Return ONLY valid JSON format with no additional text." ].

Definition quiz_prompt (content : string) (count : Z) : string := lines
  [ "Based on the following content, generate exactly "
      ++ str_of_int count ++ " multiple choice quiz questions.";
    "";
    "Content:";
    content;
    "";
    "Return a JSON object with this structure:";
    "{";
    "    " ++ q "quiz" ++ ": [";
    "        {";
    "            " ++ q "question" ++ ": " ++ q "Question text" ++ ",";
    "            " ++ q "options" ++ ": [" ++ q "Option A" ++ ", "
      ++ q "Option B" ++ ", " ++ q "Option C" ++ ", " ++ q "Option D" ++ "],";
    "            " ++ q "correct_answer" ++ ": 0,";
    "            " ++ q "explanation" ++ ": " ++ q "Why this is correct" ++ ",";
    "            " ++ q "difficulty" ++ ": " ++ q "easy|medium|hard" ++ ",";
    "            " ++ q "topic" ++ ": " ++ q "Main topic";
    "        }";
    "    ]";
    "}";
    "";
    "Make distractors plausible but clearly wrong. Include explanations for correct answers." ].

Definition summary_system_prompt : string := lines
  [ "You are an expert at creating clear, concise summaries.";
    "Extract the most important information and present it coherently.";
    "Return ONLY valid JSON format with no additional text." ].

Definition length_guide : list (string * string) :=
  [ ("short", "2-3 sentences");
    ("medium", "1 paragraph (5-7 sentences)");
    ("long", "2-3 paragraphs") ].

(** [length_guide.get(length, length_guide['medium'])] *)
Definition summary_length_hint (length : string) : result string :=
  let* default := getitem length_guide "medium" in
  Ok (get_default length_guide length default).

Definition summary_prompt (hint content : string) : string := lines
  [ "Summarize the following content in " ++ hint ++ ".";
    "";
    "Content:";
    content;
    "";
    "Return a JSON object with this structure:";
    "{";
    "    " ++ q "summary" ++ ": " ++ q "Your summary here" ++ ",";
    "    " ++ q "key_points" ++ ": [" ++ q "Point 1" ++ ", " ++ q "Point 2"
      ++ ", " ++ q "Point 3" ++ "],";
    "    " ++ q "main_topics" ++ ": [" ++ q "Topic 1" ++ ", "
      ++ q "Topic 2" ++ "],";
    "    " ++ q "word_count" ++ ": <number>";
    "}";
    "";
    "Focus on main ideas and critical information." ].

Definition study_guide_system_prompt : string := lines
  [ "You are an expert educational content organizer.";
    "Create structured study guides that help students learn effectively.";
    "Return ONLY valid JSON format with no additional text." ].

Definition study_guide_prompt (content : string) : string := lines
  [ "Create a comprehensive study guide based on this content:";
    "";
    "Content:";
    content;
    "";
    "Return a JSON object with this structure:";
    "{";
    "    " ++ q "title" ++ ": " ++ q "Study Guide Title" ++ ",";
    "    " ++ q "overview" ++ ": " ++ q "Brief overview" ++ ",";
    "    " ++ q "sections" ++ ": [";
    "        {";
    "            " ++ q "heading" ++ ": " ++ q "Section name" ++ ",";
    "            " ++ q "content" ++ ": " ++ q "Section content" ++ ",";
    "            " ++ q "key_terms" ++ ": [" ++ q "term1" ++ ", "
      ++ q "term2" ++ "]";
    "        }";
    "    ],";
    "    " ++ q "learning_objectives" ++ ": [" ++ q "Objective 1" ++ ", "
      ++ q "Objective 2" ++ "],";
    "    " ++ q "review_questions" ++ ": [" ++ q "Question 1" ++ ", "
      ++ q "Question 2" ++ "]";
    "}" ].

(** The dictionaries of the [except] clauses. *)

(** Lines 44-48, in [generate_flashcards]. *)
Definition flashcards_fallback (e : exn) (metrics : PyVal) (response : string)
  : PyVal :=
  pydict
    [ ("flashcards",
        VList [ pydict [ ("question", vstr "Error parsing response");
                         ("answer", vstr (str_of_exn e));
                         ("difficulty", vstr "error");
                         ("topic", vstr "error") ] ]);
      ("metrics", metrics);
      ("raw_response", vstr response) ].

(** Lines 85-93, in [generate_study_guide]. *)
Definition study_guide_fallback (e : exn) (metrics : PyVal)
  (response : string) : PyVal :=
  pydict
    [ ("title", vstr "Error");
      ("overview", vstr "Error parsing response");
      ("sections", VList []);
      ("learning_objectives", VList [vstr (str_of_exn e)]);
      ("review_questions", VList []);
      ("metrics", metrics);
      ("raw_response", vstr response) ].

(** Lines 111-115, in [generate_quiz]. *)
Definition quiz_fallback (e : exn) (metrics : PyVal) (response : string)
  : PyVal :=
  pydict
    [ ("quiz",
        VList [ pydict [ ("question", vstr "Error parsing response");
                         ("options", VList []);
                         ("correct_answer", VInt 0);
                         ("explanation", vstr (str_of_exn e));
                         ("difficulty", vstr "error");
                         ("topic", vstr "error") ] ]);
      ("metrics", metrics);
      ("raw_response", vstr response) ].

(** Lines 151-158, in [generate_summary]. *)
Definition summary_fallback (e : exn) (metrics : PyVal) (response : string)
  : PyVal :=
  pydict
    [ ("summary", vstr "Error parsing response");
      ("key_points", VList [vstr (str_of_exn e)]);
      ("main_topics", VList [vstr "error"]);
      ("word_count", VInt 0);
      ("metrics", metrics);
      ("raw_response", vstr response) ].

(** A [StudyMaterialGenerator] holds its provider and nothing else, so its
    methods run in the state of that provider. *)
Section Methods.
Context {cfg : Config} {rt : Runtime} {lim : Json.Limits}.

(** [StudyMaterialGenerator.generate_flashcards] (lines 11-49) *)
Definition generate_flashcards (content : string) (count : Z)
  : M State PyVal :=
  let system_prompt := flashcards_system_prompt in
  let prompt := flashcards_prompt content count in
  reply <- generate prompt (Some system_prompt) ;;
  let response := fst reply in
  let metrics := snd reply in
  mtry
    (* Try to extract JSON from response *)
    (result <- lift (_extract_json response) ;;
     result <- lift (setitem result "metrics" metrics) ;;
     ret result)
    is_JSONDecodeError
    (* Fallback: create a structured response *)
    (fun e => ret (flashcards_fallback e metrics response)).

(** [StudyMaterialGenerator.generate_quiz] (lines 51-81 and 107-115) *)
Definition generate_quiz (content : string) (count : Z) : M State PyVal :=
  let system_prompt := quiz_system_prompt in
  let prompt := quiz_prompt content count in
  reply <- generate prompt (Some system_prompt) ;;
  let response := fst reply in
  let metrics := snd reply in
  mtry
    (result <- lift (_extract_json response) ;;
     result <- lift (setitem result "metrics" metrics) ;;
     ret result)
    is_JSONDecodeError
    (fun e => ret (quiz_fallback e metrics response)).

(** [StudyMaterialGenerator.generate_summary] (lines 117-158) *)
Definition generate_summary (content : string) (length : string)
  : M State PyVal :=
  let system_prompt := summary_system_prompt in
  hint <- lift (summary_length_hint length) ;;
  let prompt := summary_prompt hint content in
  reply <- generate prompt (Some system_prompt) ;;
  let response := fst reply in
  let metrics := snd reply in
  mtry
    (result <- lift (_extract_json response) ;;
     result <- lift (setitem result "metrics" metrics) ;;
     ret result)
    is_JSONDecodeError
    (fun e => ret (summary_fallback e metrics response)).

(** [StudyMaterialGenerator.generate_study_guide] (lines 160-189 and
    81-93) *)
Definition generate_study_guide (content : string) : M State PyVal :=
  let system_prompt := study_guide_system_prompt in
  let prompt := study_guide_prompt content in
  reply <- generate prompt (Some system_prompt) ;;
  let response := fst reply in
  let metrics := snd reply in
  mtry
    (result <- lift (_extract_json response) ;;
     result <- lift (setitem result "metrics" metrics) ;;
     ret result)
    is_JSONDecodeError
    (fun e => ret (study_guide_fallback e metrics response)).

End Methods.

End Generator.

(* ================================================================== *)
(** * [core/document_parser.py]                                         *)
(* ================================================================== *)

Module DocumentParser.
Import Py Py.Notations.
Local Open Scope py_scope.

(** [sum(len(word) for word in words)] *)
Definition total_length (words : list string) : Z :=
  List.fold_left (fun acc word => acc + len word) words 0.

(** [bool(s)] for a string. *)
Definition nonempty (s : string) : bool :=
  match s with EmptyString => false | _ => true end.

(** [DocumentParser.get_content_stats] *)
Definition get_content_stats (content : string) : result PyVal :=
  let words := split_ws content in
  let sentences := split "." content in
  let character_count := len content in
  let word_count := Z.of_nat (List.length words) in
  let sentence_count :=
    Z.of_nat (List.length
                (List.filter (fun s => nonempty (strip s)) sentences)) in
  let* avg_word_length :=
    match words with
    | _ :: _ =>
        let* mean :=
          int_truediv (total_length words) (Z.of_nat (List.length words)) in
        Ok (VFloat mean)
    | [] => Ok (VInt 0)
    end in
  Ok (pydict [ ("character_count", VInt character_count);
               ("word_count", VInt word_count);
               ("sentence_count", VInt sentence_count);
               ("avg_word_length", avg_word_length) ]).

End DocumentParser.

(* ================================================================== *)
(** * The statements of the specification                               *)
(* ================================================================== *)

Module Spec.
Import Py Settings AIProviders.

(** ** The price table *)

(** The entry of a (provider, model) pair in the price table, when it has
    one. *)
Definition price_table_entry (provider model : string)
  : option (list (string * float)) :=
  match getitem PRICING provider with
  | Raise _ => None
  | Ok models =>
      match getitem models model with
      | Raise _ => None
      | Ok pricing => Some pricing
      end
  end.

(** [input_tokens/1e6 * input_price + output_tokens/1e6 * output_price] *)
Definition cost_formula (input_tokens output_tokens : Z)
  (input_price output_price : float) : float :=
  fadd (fmul (nearest_quotient input_tokens 1000000) input_price)
       (fmul (nearest_quotient output_tokens 1000000) output_price).

(** The token counts whose millionth part is within the range of a float. *)
Definition count_limit : Z := (2 ^ 1024 - 2 ^ 970) * 1000000.

(** ** Fence stripping *)

(** The text before the first occurrence of [fence], or all of it. *)
Definition up_to (fence s : string) : string :=
  match partition fence s with
  | Some (before, _) => before
  | None => s
  end.

(** The content of the first block that [opening] opens: what stands
    between the first [opening] and the first closing fence after it (or the
    end of the text, when the block is not closed). *)
Definition first_block (opening s : string) : option string :=
  match partition opening s with
  | Some (_, after) => Some (up_to "```" after)
  | None => None
  end.

(** The candidate text: the first block tagged as JSON; else the first
    block; else the text. *)
Definition candidate (s : string) : string :=
  match first_block "```json" s with
  | Some inside => inside
  | None =>
      match first_block "```" s with
      | Some inside => inside
      | None => s
      end
  end.

(** The same, where the block tagged as JSON is what [split] finds: it ends
    where the tag [```json] next occurs, if that is before the first closing
    fence is complete. *)
Definition candidate_by_split (s : string) : string :=
  match partition "```json" s with
  | Some (_, after) => up_to "```" (up_to "```json" after)
  | None =>
      match first_block "```" s with
      | Some inside => inside
      | None => s
      end
  end.

(** The input of the extraction test: [t] between a fence tagged as JSON
    and a closing fence, each on a line of its own. *)
Definition fenced (t : string) : string :=
  "```json" ++ nl ++ t ++ nl ++ "```".

(** ** Summary lengths *)

Definition length_hint (length : string) : string :=
  if String.eqb length "short" then "2-3 sentences"
  else if String.eqb length "long" then "2-3 paragraphs"
  else "1 paragraph (5-7 sentences)".


(** ** Provider errors *)

(** The name a provider's errors carry. *)
Definition error_label (c : ProviderClass) : string :=
  match c with
  | OpenAIProviderClass => "OpenAI"
  | GroqProviderClass => "Groq"
  | AIProviderClass => ""
  end.

(** ** Python strings *)

(** [sys.maxsize]: no string is longer. *)
Definition sys_maxsize : Z := 2 ^ 63 - 1.

End Spec.

(* ================================================================== *)
(** * Worlds to run the program in                                      *)
(* ================================================================== *)

Module Scenario.
Import Py Settings AIProviders.

(** The world counts the calls made so far.  The clock shows that count in
    seconds, and the service answers every call with [text]. *)
Definition answering (text : string) : Runtime := {|
  World := nat;
  time_time := fun w => (nearest_quotient (Z.of_nat w) 1, w);
  chat_completions_create := fun _ _ w =>
    (Ok {| usage := {| prompt_tokens := 120;
                       completion_tokens := 80;
                       total_tokens := 200 |};
           choices := [ {| message_content := text;
                           finish_reason := "stop" |} ] |},
     S w)
|}.

(** The service fails every call with [e]. *)
Definition failing (e : exn) : Runtime := {|
  World := nat;
  time_time := fun w => (nearest_quotient (Z.of_nat w) 1, w);
  chat_completions_create := fun _ _ w => (Raise e, S w)
|}.

(** A provider as [get_provider] builds it with the default settings. *)
Definition provider (name : string) : AIProvider :=
  match @get_provider default_config name None with
  | Ok p => p
  | Raise _ => AIProvider_init name ""
  end.

Definition start (rt : Runtime) (w : @World rt) (name : string)
  : @State rt :=
  {| self := provider name; world := w |}.

End Scenario.


(* ================================================================== *)
(** * The rest of [config/settings.py] and [core/ai_providers.py]       *)
(* ================================================================== *)

Module Startup.
Import Py Settings AIProviders.

(** [not s] for a string. *)
Definition is_empty (s : string) : bool :=
  match s with EmptyString => true | _ => false end.

Section WithConfig.
Context {cfg : Config}.

(** [validate_config] *)
Definition validate_config : result bool :=
  let errors : list string := [] in
  let errors :=
    if is_empty OPENAI_API_KEY
    then (errors ++ ["OPENAI_API_KEY is not set"])%list
    else errors in
  let errors :=
    if is_empty GROQ_API_KEY
    then (errors ++ ["GROQ_API_KEY is not set"])%list
    else errors in
  match errors with
  | _ :: _ =>
      Raise (ValueError ("Configuration errors: " ++ String.concat ", " errors))
  | [] => Ok true
  end.

(** [get_all_providers]: each class with its default model. *)
Definition get_all_providers : list (string * AIProvider) :=
  [ ("openai", OpenAIProvider_init OPENAI_MODEL);
    ("groq", GroqProvider_init GROQ_MODEL) ].

End WithConfig.

End Startup.

(* ================================================================== *)
(** * The rest of [core/document_parser.py]                             *)
(* ================================================================== *)

Module Documents.
Import Py.

(** ** Files *)

(** What reading a file may raise, beside the exceptions of [Py.exn]. *)
Inductive exc : Type :=
| FileNotFoundError (msg : string)
| UnicodeDecodeError (msg : string)
| Other (e : exn).

(** [str(e)] *)
Definition str_of_exc (e : exc) : string :=
  match e with
  | FileNotFoundError msg | UnicodeDecodeError msg => msg
  | Other e' => str_of_exn e'
  end.

Inductive outcome (A : Type) : Type :=
| Returns (a : A)
| Raises (e : exc).
Arguments Returns {A} a.
Arguments Raises {A} e.

Inductive Encoding : Type := utf_8 | latin_1.

(** The file system as the parser finds it, through the libraries it
    calls; nothing in the parser writes to it.
    - [path_str p] is [str(Path(p))], [path_suffix p] is [Path(p).suffix]
      and [path_exists p] is [Path(p).exists()];
    - [read_text p enc] is [open(p, 'r', encoding=enc)] followed by
      [read()];
    - [pdf_pages p] is [open(p, 'rb')] and [PyPDF2.PdfReader]: the pages,
      each with what its [extract_text()] gives;
    - [docx_paragraphs p] is [Document(p).paragraphs]: the text of each. *)
Class FileSystem : Type := {
  path_str : string -> string;
  path_suffix : string -> string;
  path_exists : string -> bool;
  read_text : string -> Encoding -> outcome string;
  pdf_pages : string -> outcome (list (outcome string));
  docx_paragraphs : string -> outcome (list string)
}.

(** [except Exception as e: raise Exception(prefix + str(e))] *)
Definition wrap {A} (prefix : string) (r : outcome A) : outcome A :=
  match r with
  | Returns a => Returns a
  | Raises e => Raises (Other (Exception (prefix ++ str_of_exc e)))
  end.

Section Parser.
Context {fs : FileSystem}.

(** The loop of [parse_pdf]: [text += page.extract_text() + "\n"] for each
    page in turn; the first page that fails ends it. *)
Fixpoint extract_pages (pages : list (outcome string)) (text : string)
  : outcome string :=
  match pages with
  | [] => Returns text
  | Returns page_text :: pages' => extract_pages pages' (text ++ page_text ++ nl)
  | Raises e :: _ => Raises e
  end.

(** [DocumentParser.parse_pdf] *)
Definition parse_pdf (file_path : string) : outcome string :=
  let text := EmptyString in
  wrap "Error parsing PDF: "
    match pdf_pages file_path with
    | Raises e => Raises e
    | Returns pages =>
        match extract_pages pages text with
        | Raises e => Raises e
        | Returns text => Returns (strip text)
        end
    end.

(** [DocumentParser.parse_txt] *)
Definition parse_txt (file_path : string) : outcome string :=
  match read_text file_path utf_8 with
  | Returns text => Returns (strip text)
  | Raises (UnicodeDecodeError _) =>
      (* Try with different encoding *)
      match read_text file_path latin_1 with
      | Returns text => Returns (strip text)
      | Raises e => Raises e
      end
  | Raises e => Raises e
  end.

(** [DocumentParser.parse_docx] *)
Definition parse_docx (file_path : string) : outcome string :=
  wrap "Error parsing DOCX: "
    match docx_paragraphs file_path with
    | Raises e => Raises e
    | Returns paragraphs =>
        let text :=
          List.filter (fun paragraph => DocumentParser.nonempty (strip paragraph))
                      paragraphs in
        Returns (String.concat nl text)
    end.

(** [DocumentParser.parse_file] *)
Definition parse_file (file_path : string) : outcome (string * string) :=
  if negb (path_exists file_path) then
    Raises (FileNotFoundError ("File not found: " ++ path_str file_path))
  else
    let extension := lower (path_suffix file_path) in
    if String.eqb extension ".pdf" then
      match parse_pdf file_path with
      | Returns content => Returns (content, "pdf")
      | Raises e => Raises e
      end
    else if String.eqb extension ".txt" then
      match parse_txt file_path with
      | Returns content => Returns (content, "txt")
      | Raises e => Raises e
      end
    else if String.eqb extension ".docx" then
      match parse_docx file_path with
      | Returns content => Returns (content, "docx")
      | Raises e => Raises e
      end
    else
      Raises (Other (ValueError ("Unsupported file type: " ++ extension))).

(** Reading the pages of a PDF file fails with [e]: opening the file or
    the reader raises it, or the first page whose text cannot be extracted
    does. *)
Definition pdf_failure (file_path : string) (e : exc) : Prop :=
  pdf_pages file_path = Raises e \/
  exists before after,
    pdf_pages file_path
    = Returns (List.map Returns before ++ Raises e :: after)%list.

End Parser.

(** [DocumentParser.validate_content] *)
Definition validate_content (content : string) (min_length : Z) : bool :=
  if Startup.is_empty content || (len (strip content) <? min_length)
  then false
  else true.

(** ** A file system to run the parser in *)

(** A text file, a text file that is not UTF-8, a PDF file of two pages, a
    DOCX file with a blank paragraph, a CSV file and a PDF file cut short;
    [lost.pdf] is not there. *)
Definition sample_files : FileSystem := {|
  path_str := fun p => p;
  path_suffix := fun p =>
    if String.eqb p "notes.TXT" then ".TXT"
    else if String.eqb p "old.txt" then ".txt"
    else if String.eqb p "paper.pdf" then ".pdf"
    else if String.eqb p "essay.docx" then ".docx"
    else if String.eqb p "data.csv" then ".csv"
    else if String.eqb p "lost.pdf" then ".pdf"
    else if String.eqb p "torn.pdf" then ".pdf"
    else "";
  path_exists := fun p =>
    String.eqb p "notes.TXT" || String.eqb p "old.txt"
    || String.eqb p "paper.pdf" || String.eqb p "essay.docx"
    || String.eqb p "data.csv" || String.eqb p "torn.pdf";
  read_text := fun p enc =>
    if String.eqb p "notes.TXT" then Returns ("  Cells divide." ++ nl)
    else if String.eqb p "old.txt" then
      match enc with
      | utf_8 =>
          Raises (UnicodeDecodeError
                    "'utf-8' codec can't decode byte 0xe9 in position 3: invalid continuation byte")
      | latin_1 => Returns ("Caf" ++ String (ascii_of_nat 233) " au lait ")
      end
    else Raises (FileNotFoundError
                   ("[Errno 2] No such file or directory: " ++ sq p));
  pdf_pages := fun p =>
    if String.eqb p "paper.pdf"
    then Returns [Returns " Page one."; Returns "Page two. "]
    else if String.eqb p "torn.pdf"
    then Raises (Other (Exception "EOF marker not found"))
    else Raises (FileNotFoundError
                   ("[Errno 2] No such file or directory: " ++ sq p));
  docx_paragraphs := fun p =>
    if String.eqb p "essay.docx"
    then Returns ["First paragraph."; "   "; "Second paragraph."]
    else Raises (Other (Exception ("Package not found at " ++ sq p)))
|}.

End Documents.

(* ================================================================== *)
(** * Notions the further properties are stated with                    *)
(* ================================================================== *)

Module Statements.
Import Py Settings AIProviders Generator.

(** What identifies a provider: its class, name, model and client. *)
Definition same_identity (p p' : AIProvider) : Prop :=
  class p' = class p /\ provider_name p' = provider_name p /\
  model p' = model p /\ client p' = client p.

(** A text of white space only. *)
Fixpoint blank (s : string) : bool :=
  match s with
  | EmptyString => true
  | String c s' => isspace c && blank s'
  end.

(** A text in which the character [c] does not occur. *)
Fixpoint lacks (c : ascii) (s : string) : bool :=
  match s with
  | EmptyString => true
  | String b s' => negb (Ascii.eqb c b) && lacks c s'
  end.

(** A separator without white space. *)
Definition no_space_in (sep : string) : Prop :=
  Forall (fun c => isspace c = false) (list_ascii_of_string sep).

(** The four operations of the generator, each with its argument. *)
Inductive Material : Type :=
| Flashcards (count : Z)
| Quiz (count : Z)
| Summary (length : string)
| StudyGuide.

(** The prompt and the system prompt an operation sends. *)
Definition prompt_of (m : Material) (content : string) : string :=
  match m with
  | Flashcards count => flashcards_prompt content count
  | Quiz count => quiz_prompt content count
  | Summary length => summary_prompt (Spec.length_hint length) content
  | StudyGuide => study_guide_prompt content
  end.

Definition system_prompt_of (m : Material) : string :=
  match m with
  | Flashcards _ => flashcards_system_prompt
  | Quiz _ => quiz_system_prompt
  | Summary _ => summary_system_prompt
  | StudyGuide => study_guide_system_prompt
  end.

(** The dictionary the operation's [except] clause builds. *)
Definition fallback_of (m : Material) (e : exn) (metrics : PyVal)
  (response : string) : PyVal :=
  match m with
  | Flashcards _ => flashcards_fallback e metrics response
  | Quiz _ => quiz_fallback e metrics response
  | Summary _ => summary_fallback e metrics response
  | StudyGuide => study_guide_fallback e metrics response
  end.

(** The method of the operation. *)
Definition run {cfg : Config} {rt : Runtime} {lim : Json.Limits}
  (m : Material) (content : string) : M State PyVal :=
  match m with
  | Flashcards count => generate_flashcards content count
  | Quiz count => generate_quiz content count
  | Summary length => generate_summary content length
  | StudyGuide => generate_study_guide content
  end.

(** A JSON value that is not an object. *)
Definition not_a_dict (v : PyVal) : bool :=
  match v with VDict _ => false | _ => true end.

End Statements.


(* ================================================================== *)
(** * Facts about the runtime                                           *)
(* ================================================================== *)

Module PyFacts.
Import Py.

(** ** [prefix], [drop], [partition] *)

Lemma startswith_drop (p s : string) :
  startswith s p = true -> s = p ++ drop (String.length p) s.
Proof.
  revert s; induction p as [|a p IH]; intros s H.
  - reflexivity.
  - destruct s as [|b s]; simpl in H; [discriminate|].
    apply andb_prop in H as [E H]. apply Ascii.eqb_eq in E as ->.
    simpl. f_equal. now apply IH.
Qed.

Lemma startswith_app (p s : string) : startswith (p ++ s) p = true.
Proof.
  induction p as [|a p IH]; simpl; [reflexivity|].
  now rewrite Ascii.eqb_refl.
Qed.

Lemma append_length (a b : string) :
  String.length (a ++ b) = (String.length a + String.length b)%nat.
Proof. induction a; simpl; auto. Qed.

Lemma append_assoc (a b c : string) : (a ++ b) ++ c = a ++ b ++ c.
Proof. induction a; simpl; congruence. Qed.

Lemma append_empty_r (a : string) : a ++ "" = a.
Proof. induction a; simpl; congruence. Qed.

(** [partition] cuts the text in three. *)
Lemma partition_some (sep s a b : string) :
  partition sep s = Some (a, b) -> s = a ++ sep ++ b.
Proof.
  revert a b; induction s as [|c s IH]; intros a b; cbn [partition].
  - destruct (startswith "" sep) eqn:E; [|discriminate].
    intros [= <- <-]. now apply startswith_drop in E.
  - destruct (startswith (String c s) sep) eqn:E.
    + intros [= <- <-]. now apply startswith_drop in E.
    + destruct (partition sep s) as [[a' b']|]; [|discriminate].
      intros [= <- <-]. simpl. f_equal. now apply IH.
Qed.

(** The occurrence it cuts at is the leftmost. *)
Lemma partition_leftmost (sep s a b a' b' : string) :
  partition sep s = Some (a, b) -> s = a' ++ sep ++ b' ->
  (String.length a <= String.length a')%nat.
Proof.
  revert a b a'; induction s as [|c s IH]; intros a b a'; cbn [partition].
  - destruct (startswith "" sep); [|discriminate].
    intros [= <- <-] _. simpl. lia.
  - destruct (startswith (String c s) sep) eqn:E.
    + intros [= <- <-] _. simpl. lia.
    + destruct (partition sep s) as [[x y]|] eqn:P; [|discriminate].
      intros [= <- <-] H. destruct a' as [|c' a'].
      * simpl in H. rewrite H, startswith_app in E. discriminate.
      * simpl in H. injection H as _ H. simpl.
        apply le_n_S. now apply (IH x y a').
Qed.

(** With no occurrence there is nothing to cut. *)
Lemma partition_none (sep s a b : string) :
  partition sep s = None -> s <> a ++ sep ++ b.
Proof.
  revert a; induction s as [|c s IH]; intros a; cbn [partition].
  - destruct (startswith "" sep) eqn:E; [discriminate|].
    intros _ H. destruct a; simpl in H.
    + rewrite H, startswith_app in E. discriminate.
    + discriminate.
  - destruct (startswith (String c s) sep) eqn:E; [discriminate|].
    destruct (partition sep s) as [[x y]|] eqn:P; [discriminate|].
    intros _ H. destruct a as [|c' a]; simpl in H.
    + rewrite H, startswith_app in E. discriminate.
    + injection H as _ H. now apply (IH a).
Qed.

Lemma partition_shorter (c : ascii) (sep s a b : string) :
  partition (String c sep) s = Some (a, b) ->
  (String.length b < String.length s)%nat.
Proof.
  intros H. apply partition_some in H. subst s.
  rewrite append_length. simpl. rewrite append_length. lia.
Qed.

(** ** [split] *)

Lemma split_fuel_enough (c : ascii) (sep : string) (n m : nat) (s : string) :
  (String.length s <= n)%nat -> (String.length s <= m)%nat ->
  split_fuel n (String c sep) s = split_fuel m (String c sep) s.
Proof.
  revert m s; induction n as [|n IH]; intros m s Hn Hm.
  - destruct s; [|simpl in Hn; lia]. destruct m; reflexivity.
  - destruct m as [|m].
    + destruct s; [|simpl in Hm; lia]. reflexivity.
    + simpl. destruct (partition (String c sep) s) as [[a b]|] eqn:P;
        [|reflexivity].
      apply partition_shorter in P. f_equal. apply IH; lia.
Qed.

(** [split] cuts at the leftmost occurrence and splits the rest. *)
Lemma split_unfold (c : ascii) (sep s : string) :
  split (String c sep) s =
  match partition (String c sep) s with
  | None => [s]
  | Some (a, b) => a :: split (String c sep) b
  end.
Proof.
  unfold split. destruct s as [|d s].
  - reflexivity.
  - cbn [String.length split_fuel].
    destruct (partition (String c sep) (String d s)) as [[a b]|] eqn:P;
      [|reflexivity].
    apply partition_shorter in P. simpl in P. f_equal.
    apply split_fuel_enough; lia.
Qed.

(** The first piece of a split is the text up to the first occurrence. *)
Lemma split_first (c : ascii) (sep s : string) :
  index (split (String c sep) s) 0 =
  Ok (match partition (String c sep) s with
      | Some (a, _) => a
      | None => s
      end).
Proof.
  rewrite split_unfold.
  destruct (partition (String c sep) s) as [[a b]|]; reflexivity.
Qed.

(** The second piece, when there is an occurrence. *)
Lemma split_second (c : ascii) (sep s a b : string) :
  partition (String c sep) s = Some (a, b) ->
  index (split (String c sep) s) 1 =
  Ok (match partition (String c sep) b with
      | Some (a', _) => a'
      | None => b
      end).
Proof.
  intros P. rewrite split_unfold, P. cbn [index nth_error].
  apply (split_first c sep b).
Qed.

End PyFacts.

(* ================================================================== *)
(** * Facts about the decoder                                           *)
(* ================================================================== *)

Module JsonFacts.
Import Py Json.

Local Arguments Nat.eqb : simpl never.
Local Arguments Nat.leb : simpl never.

(** ** What scanning leaves is shorter *)

Lemma skip_ws_le (s : string) :
  (String.length (skip_ws s) <= String.length s)%nat.
Proof.
  induction s as [|c s IH]; simpl; [lia|].
  destruct (is_ws c); simpl; lia.
Qed.

Lemma drop_length (n : nat) (s : string) :
  String.length (drop n s) = (String.length s - n)%nat.
Proof.
  revert s; induction n as [|n IH]; intros s; simpl; [lia|].
  destruct s; simpl; auto.
Qed.

Lemma startswith_length (s p : string) :
  startswith s p = true -> (String.length p <= String.length s)%nat.
Proof.
  revert s; induction p as [|a p IH]; intros s H; simpl; [lia|].
  destruct s as [|b s]; simpl in *; [discriminate|].
  apply andb_prop in H as [_ H]. apply IH in H. lia.
Qed.

Lemma take_digits_le (s : string) (ds : list ascii) (rest : string) :
  take_digits s = (ds, rest) -> (String.length rest <= String.length s)%nat.
Proof.
  revert ds rest; induction s as [|c s IH]; intros ds rest; simpl.
  - intros [= <- <-]. simpl. lia.
  - destruct (is_digit c).
    + destruct (take_digits s) as [ds' rest'] eqn:E.
      intros [= <- <-]. specialize (IH _ _ eq_refl). lia.
    + intros [= <- <-]. simpl. lia.
Qed.

Lemma match_integer_lt (s : string) (neg : bool) (ds : list ascii)
  (rest : string) :
  match_integer s = Some (neg, ds, rest) ->
  (String.length rest < String.length s)%nat.
Proof.
  unfold match_integer.
  destruct s as [|c s'].
  - discriminate.
  - destruct (code c =? 45)%nat.
    + destruct s' as [|c' s2]; [discriminate|].
      destruct (code c' =? 48)%nat.
      * intros [= _ <- <-]. simpl. lia.
      * destruct (is_digit c'); [|discriminate].
        destruct (take_digits s2) as [ds' rest'] eqn:E.
        intros [= _ <- <-]. apply take_digits_le in E. simpl. lia.
    + destruct (code c =? 48)%nat.
      * intros [= _ <- <-]. simpl. lia.
      * destruct (is_digit c); [|discriminate].
        destruct (take_digits s') as [ds' rest'] eqn:E.
        intros [= _ <- <-]. apply take_digits_le in E. simpl. lia.
Qed.

Lemma match_frac_le (s : string) (ds : list ascii) (rest : string) :
  match_frac s = Some (ds, rest) ->
  (String.length rest <= String.length s)%nat.
Proof.
  unfold match_frac. destruct s as [|c s1]; [discriminate|].
  destruct (code c =? 46)%nat; [|discriminate].
  destruct (take_digits s1) as [[|d ds'] rest'] eqn:E; [discriminate|].
  intros [= <- <-]. apply take_digits_le in E. simpl. lia.
Qed.

Lemma match_exp_le (s : string) (e : Z) (rest : string) :
  match_exp s = Some (e, rest) ->
  (String.length rest <= String.length s)%nat.
Proof.
  unfold match_exp. destruct s as [|c s1]; [discriminate|].
  destruct ((code c =? 101) || (code c =? 69))%nat; [|discriminate].
  destruct s1 as [|c' s'].
  - simpl. discriminate.
  - destruct (code c' =? 45)%nat;
      [|destruct (code c' =? 43)%nat].
    + destruct (take_digits s') as [[|d ds'] rest'] eqn:E; [discriminate|].
      intros [= _ <-]. apply take_digits_le in E. simpl. lia.
    + destruct (take_digits s') as [[|d ds'] rest'] eqn:E; [discriminate|].
      intros [= _ <-]. apply take_digits_le in E. simpl. lia.
    + destruct (take_digits (String c' s')) as [[|d ds'] rest'] eqn:E;
        [discriminate|].
      intros [= _ <-]. apply take_digits_le in E. simpl in *. lia.
Qed.

Section Scanner.
Context {lim : Limits}.

Lemma match_number_lt (s : string) (v : PyVal) (rest : string) :
  match_number s = Some (inr (v, rest)) ->
  (String.length rest < String.length s)%nat.
Proof.
  unfold match_number.
  destruct (match_integer s) as [[[neg ds] s1]|] eqn:I; [|discriminate].
  apply match_integer_lt in I.
  destruct (match_frac s1) as [[fds s2]|] eqn:F.
  - apply match_frac_le in F.
    destruct (match_exp s2) as [[e s3]|] eqn:X.
    + apply match_exp_le in X. intros [= _ <-]. lia.
    + intros [= _ <-]. lia.
  - destruct (match_exp s1) as [[e s3]|] eqn:X.
    + apply match_exp_le in X. intros [= _ <-]. lia.
    + destruct (too_many_digits _); [discriminate|].
      intros [= _ <-]. lia.
Qed.

Lemma scan_atom_lt (s : string) (v : PyVal) (rest : string) :
  scan_atom s = inr (v, rest) ->
  (String.length rest < String.length s)%nat.
Proof.
  unfold scan_atom.
  destruct (startswith s "null") eqn:E1.
  { apply startswith_length in E1. simpl in E1. intros H.
    assert (R : rest = drop 4 s) by congruence.
    rewrite R, drop_length. lia. }
  destruct (startswith s "true") eqn:E2.
  { apply startswith_length in E2. simpl in E2. intros H.
    assert (R : rest = drop 4 s) by congruence.
    rewrite R, drop_length. lia. }
  destruct (startswith s "false") eqn:E3.
  { apply startswith_length in E3. simpl in E3. intros H.
    assert (R : rest = drop 5 s) by congruence.
    rewrite R, drop_length. lia. }
  destruct (match_number s) as [[e|[v' rest']]|] eqn:N; [discriminate| |].
  { intros [= _ <-]. now apply match_number_lt in N. }
  destruct (startswith s "NaN") eqn:E4.
  { apply startswith_length in E4. simpl in E4. intros H.
    assert (R : rest = drop 3 s) by congruence.
    rewrite R, drop_length. lia. }
  destruct (startswith s "Infinity") eqn:E5.
  { apply startswith_length in E5. simpl in E5. intros H.
    assert (R : rest = drop 8 s) by congruence.
    rewrite R, drop_length. lia. }
  destruct (startswith s "-Infinity") eqn:E6.
  { apply startswith_length in E6. simpl in E6. intros H.
    assert (R : rest = drop 9 s) by congruence.
    rewrite R, drop_length. lia. }
  discriminate.
Qed.

Lemma scanstring_lt (start : nat) (s : string) (acc u : unicode)
  (rest : string) :
  scanstring start s acc = inr (u, rest) ->
  (String.length rest < String.length s)%nat.
Proof.
  remember (String.length s) as k eqn:K.
  assert (L : (String.length s <= k)%nat) by lia. clear K.
  revert s acc L. induction k as [|k IH]; intros s acc L.
  - destruct s; [discriminate|simpl in L; lia].
  - destruct s as [|c s1]; [discriminate|]. cbn [scanstring].
    simpl in L.
    assert (Rec : forall s' acc',
               (String.length s' <= k)%nat ->
               scanstring start s' acc' = inr (u, rest) ->
               (String.length rest < S k)%nat).
    { intros s' acc' L' H. apply IH in H; lia. }
    unfold fail_at.
    repeat match goal with
           | |- context [match ?x with _ => _ end] =>
               lazymatch x with
               | scanstring _ _ _ => fail
               | _ => destruct x eqn:?
               end
           end;
      try discriminate;
      try (intros [= _ <-]; simpl; lia);
      try (intros H; apply Rec in H; [simpl; lia|subst; simpl in *; lia]).
Qed.

Lemma skip_ws_cons (s : string) (c : ascii) (s' : string) :
  skip_ws s = String c s' -> (S (String.length s') <= String.length s)%nat.
Proof.
  intros H. pose proof (skip_ws_le s) as L. rewrite H in L. exact L.
Qed.

(** What a scan leaves, when it succeeds, is shorter than what it took. *)
Lemma scan_shorter (n : nat) :
  (forall d s v rest,
     scan_once n d s = inr (v, rest) ->
     (String.length rest < String.length s)%nat) /\
  (forall d s acc v rest,
     array_items n d s acc = inr (v, rest) ->
     (String.length rest < String.length s)%nat) /\
  (forall d s acc v rest,
     object_items n d s acc = inr (v, rest) ->
     (String.length rest < String.length s)%nat).
Proof.
  induction n as [|n (IHs & IHa & IHo)].
  - repeat split; intros; discriminate.
  - repeat split.
    + intros d s v rest. cbn [scan_once].
      destruct s as [|c s1]; [discriminate|].
      destruct (code c =? 34)%nat.
      { destruct (scanstring _ s1 []) as [e|[u r]] eqn:E; [discriminate|].
        intros [= _ <-]. apply scanstring_lt in E. simpl. lia. }
      destruct (code c =? 123)%nat.
      { destruct d as [|d]; [discriminate|].
        destruct (skip_ws s1) as [|c' s2] eqn:W; [discriminate|].
        apply skip_ws_cons in W.
        destruct (code c' =? 125)%nat.
        - intros [= _ <-]. simpl. lia.
        - destruct (code c' =? 34)%nat; [|discriminate].
          intros H. apply IHo in H. simpl. lia. }
      destruct (code c =? 91)%nat.
      { destruct d as [|d]; [discriminate|].
        destruct (skip_ws s1) as [|c' s2] eqn:W.
        - intros H. apply IHa in H. simpl in H. lia.
        - pose proof (skip_ws_cons _ _ _ W) as L.
          destruct (code c' =? 93)%nat.
          + intros [= _ <-]. simpl. lia.
          + intros H. apply IHa in H. simpl in *. lia. }
      intros H. now apply scan_atom_lt in H.
    + intros d s acc v rest. cbn [array_items].
      destruct (scan_once n d s) as [e|[v0 r0]] eqn:E; [discriminate|].
      apply IHs in E.
      destruct (skip_ws r0) as [|c s1] eqn:W; [discriminate|].
      apply skip_ws_cons in W.
      destruct (code c =? 93)%nat.
      * intros [= _ <-]. lia.
      * destruct (code c =? 44)%nat; [|discriminate].
        intros H. apply IHa in H. pose proof (skip_ws_le s1). lia.
    + intros d s acc v rest. cbn [object_items].
      destruct (scanstring _ s []) as [e|[key r0]] eqn:K; [discriminate|].
      apply scanstring_lt in K.
      destruct (skip_ws r0) as [|c s1] eqn:W; [discriminate|].
      apply skip_ws_cons in W.
      destruct (code c =? 58)%nat; [|discriminate].
      destruct (scan_once n d (skip_ws s1)) as [e|[v0 r2]] eqn:E;
        [discriminate|].
      apply IHs in E. pose proof (skip_ws_le s1) as L1.
      destruct (skip_ws r2) as [|c2 s2] eqn:W2; [discriminate|].
      apply skip_ws_cons in W2.
      destruct (code c2 =? 125)%nat.
      * intros [= _ <-]. lia.
      * destruct (code c2 =? 44)%nat; [|discriminate].
        destruct (skip_ws s2) as [|c3 s3] eqn:W3; [discriminate|].
        apply skip_ws_cons in W3.
        destruct (code c3 =? 34)%nat; [|discriminate].
        intros H. apply IHo in H. lia.
Qed.

(** ** Fuel *)

(** Above twice the length of the text (and one more for the two loops)
    the fuel does not matter. *)
Lemma scan_fuel (n : nat) :
  (forall m d s,
     (2 * String.length s < n)%nat -> (2 * String.length s < m)%nat ->
     scan_once n d s = scan_once m d s) /\
  (forall m d s acc,
     (2 * String.length s + 1 < n)%nat -> (2 * String.length s + 1 < m)%nat ->
     array_items n d s acc = array_items m d s acc) /\
  (forall m d s acc,
     (2 * String.length s + 1 < n)%nat -> (2 * String.length s + 1 < m)%nat ->
     object_items n d s acc = object_items m d s acc).
Proof.
  induction n as [|n (IHs & IHa & IHo)].
  - repeat split; intros; lia.
  - repeat split.
    + intros [|m] d s Hn Hm; [lia|]. cbn [scan_once].
      destruct s as [|c s1]; [reflexivity|]. simpl in Hn, Hm.
      destruct (code c =? 34)%nat; [reflexivity|].
      destruct (code c =? 123)%nat.
      { destruct d as [|d]; [reflexivity|].
        destruct (skip_ws s1) as [|c' s2] eqn:W; [reflexivity|].
        apply skip_ws_cons in W.
        destruct (code c' =? 125)%nat; [reflexivity|].
        destruct (code c' =? 34)%nat; [|reflexivity].
        apply IHo; lia. }
      destruct (code c =? 91)%nat; [|reflexivity].
      destruct d as [|d]; [reflexivity|].
      destruct (skip_ws s1) as [|c' s2] eqn:W.
      * apply IHa; simpl; lia.
      * apply skip_ws_cons in W.
        destruct (code c' =? 93)%nat; [reflexivity|].
        apply IHa; simpl; lia.
    + intros [|m] d s acc Hn Hm; [lia|]. cbn [array_items].
      rewrite (IHs m d s) by lia.
      destruct (scan_once m d s) as [e|[v0 r0]] eqn:E; [reflexivity|].
      apply (proj1 (scan_shorter m)) in E.
      destruct (skip_ws r0) as [|c s1] eqn:W; [reflexivity|].
      apply skip_ws_cons in W.
      destruct (code c =? 93)%nat; [reflexivity|].
      destruct (code c =? 44)%nat; [|reflexivity].
      pose proof (skip_ws_le s1). apply IHa; lia.
    + intros [|m] d s acc Hn Hm; [lia|]. cbn [object_items].
      destruct (scanstring _ s []) as [e|[key r0]] eqn:K; [reflexivity|].
      apply scanstring_lt in K.
      destruct (skip_ws r0) as [|c s1] eqn:W; [reflexivity|].
      apply skip_ws_cons in W.
      destruct (code c =? 58)%nat; [|reflexivity].
      pose proof (skip_ws_le s1) as L1.
      rewrite (IHs m d (skip_ws s1)) by lia.
      destruct (scan_once m d (skip_ws s1)) as [e|[v0 r2]] eqn:E;
        [reflexivity|].
      apply (proj1 (scan_shorter m)) in E.
      destruct (skip_ws r2) as [|c2 s2] eqn:W2; [reflexivity|].
      apply skip_ws_cons in W2.
      destruct (code c2 =? 125)%nat; [reflexivity|].
      destruct (code c2 =? 44)%nat; [|reflexivity].
      destruct (skip_ws s2) as [|c3 s3] eqn:W3; [reflexivity|].
      apply skip_ws_cons in W3.
      destruct (code c3 =? 34)%nat; [|reflexivity].
      apply IHo; lia.
Qed.

(** The fuel [loads] gives is enough: more changes nothing. *)
Lemma scan_once_fuel (n d : nat) (doc : string) :
  (2 * String.length doc < n)%nat ->
  scan_once n d (skip_ws doc)
  = scan_once (S (2 * String.length doc)) d (skip_ws doc).
Proof.
  intros H. pose proof (skip_ws_le doc).
  apply (proj1 (scan_fuel n)); lia.
Qed.

(** ** What the scanner raises *)

Lemma scan_atom_raised (s : string) (e : exn) :
  scan_atom s = inl (Raised e) -> from_a_limit e.
Proof.
  unfold scan_atom, fail_at.
  destruct (startswith s "null"); [discriminate|].
  destruct (startswith s "true"); [discriminate|].
  destruct (startswith s "false"); [discriminate|].
  destruct (match_number s) as [[e'|r]|] eqn:N.
  - intros [= ->]. unfold match_number in N.
    destruct (match_integer s) as [[[neg ds] s1]|]; [|discriminate].
    destruct (match_frac s1) as [[fds s2]|];
      [destruct (match_exp s2) as [[x s3]|]; discriminate|].
    destruct (match_exp s1) as [[x s3]|]; [discriminate|].
    destruct (too_many_digits _) eqn:T; [|discriminate].
    injection N as <-. right. right. eexists. split; [exact T|reflexivity].
  - discriminate.
  - destruct (startswith s "NaN"); [discriminate|].
    destruct (startswith s "Infinity"); [discriminate|].
    destruct (startswith s "-Infinity"); discriminate.
Qed.

Lemma scanstring_raised (start : nat) (s : string) (acc : unicode)
  (e : exn) :
  scanstring start s acc <> inl (Raised e).
Proof.
  remember (String.length s) as k eqn:K.
  assert (L : (String.length s <= k)%nat) by lia. clear K.
  revert s acc L. induction k as [|k IH]; intros s acc L.
  - destruct s; [discriminate|simpl in L; lia].
  - destruct s as [|c s1]; [discriminate|]. cbn [scanstring].
    simpl in L.
    assert (Rec : forall s' acc',
               (String.length s' <= k)%nat ->
               scanstring start s' acc' <> inl (Raised e))
      by (intros; now apply IH).
    unfold fail_at.
    repeat match goal with
           | |- context [match ?x with _ => _ end] =>
               lazymatch x with
               | scanstring _ _ _ => fail
               | _ => destruct x eqn:?
               end
           end;
      try discriminate;
      try (apply Rec; subst; simpl in *; lia).
Qed.

(** The scanner raises nothing but what the limits raise. *)
Lemma scan_raised (n : nat) :
  (forall d s e, scan_once n d s = inl (Raised e) -> from_a_limit e) /\
  (forall d s acc e,
     array_items n d s acc = inl (Raised e) -> from_a_limit e) /\
  (forall d s acc e,
     object_items n d s acc = inl (Raised e) -> from_a_limit e).
Proof.
  induction n as [|n (IHs & IHa & IHo)].
  - repeat split; intros; discriminate.
  - repeat split.
    + intros d s e. cbn [scan_once]. unfold fail_at.
      destruct s as [|c s1]; [discriminate|].
      destruct (code c =? 34)%nat.
      { destruct (scanstring _ s1 []) as [e'|[u r]] eqn:E; [|discriminate].
        intros [= ->]. now apply scanstring_raised in E. }
      destruct (code c =? 123)%nat.
      { destruct d as [|d]; [intros [= <-]; now left|].
        destruct (skip_ws s1) as [|c' s2]; [discriminate|].
        destruct (code c' =? 125)%nat; [discriminate|].
        destruct (code c' =? 34)%nat; [apply IHo|discriminate]. }
      destruct (code c =? 91)%nat; [|apply scan_atom_raised].
      destruct d as [|d]; [intros [= <-]; right; now left|].
      destruct (skip_ws s1) as [|c' s2]; [apply IHa|].
      destruct (code c' =? 93)%nat; [discriminate|apply IHa].
    + intros d s acc e. cbn [array_items]. unfold fail_at.
      destruct (scan_once n d s) as [e'|[v0 r0]] eqn:E.
      { intros [= ->]. now apply IHs in E. }
      destruct (skip_ws r0) as [|c s1]; [discriminate|].
      destruct (code c =? 93)%nat; [discriminate|].
      destruct (code c =? 44)%nat; [apply IHa|discriminate].
    + intros d s acc e. cbn [object_items]. unfold fail_at.
      destruct (scanstring _ s []) as [e'|[key r0]] eqn:K.
      { intros [= ->]. now apply scanstring_raised in K. }
      destruct (skip_ws r0) as [|c s1]; [discriminate|].
      destruct (code c =? 58)%nat; [|discriminate].
      destruct (scan_once n d (skip_ws s1)) as [e'|[v0 r2]] eqn:E.
      { intros [= ->]. now apply IHs in E. }
      destruct (skip_ws r2) as [|c2 s2]; [discriminate|].
      destruct (code c2 =? 125)%nat; [discriminate|].
      destruct (code c2 =? 44)%nat; [|discriminate].
      destruct (skip_ws s2) as [|c3 s3]; [discriminate|].
      destruct (code c3 =? 34)%nat; [apply IHo|discriminate].
Qed.

End Scanner.

End JsonFacts.

(* ================================================================== *)
(** * Facts about fences and the extraction of JSON                     *)
(* ================================================================== *)

Module FenceFacts.
Import Py PyFacts Generator Spec.

(** Comparisons of characters are kept folded; the few between two given
    characters are decided by the lemmas below. *)
Local Arguments Ascii.eqb : simpl never.

Lemma backquote_is_not_newline : Ascii.eqb "`" (ascii_of_nat 10) = false.
Proof. reflexivity. Qed.

(** ** What starts a text *)

Lemma startswith_more (s p r : string) :
  startswith s (p ++ r) = true -> startswith s p = true.
Proof.
  revert s; induction p as [|a p IH]; intros s H; [reflexivity|].
  destruct s as [|b s]; simpl in *; [discriminate|].
  apply andb_prop in H as [-> H]. now apply IH.
Qed.

Lemma startswith_longer (s t p : string) :
  startswith s p = true -> startswith (s ++ t) p = true.
Proof.
  revert s; induction p as [|a p IH]; intros s H; [reflexivity|].
  destruct s as [|b s]; simpl in *; [discriminate|].
  apply andb_prop in H as [-> H]. now apply IH.
Qed.

(** A text that starts with the tagged fence starts with a fence. *)
Lemma json_fence_is_fence (s : string) :
  startswith s "```json" = true -> startswith s "```" = true.
Proof. apply (startswith_more s "```" "json"). Qed.

Lemma partition_cons (sep : string) (c : ascii) (s : string) :
  partition sep (String c s) =
  if startswith (String c s) sep
  then Some ("", drop (String.length sep) (String c s))
  else match partition sep s with
       | Some (a, b) => Some (String c a, b)
       | None => None
       end.
Proof. reflexivity. Qed.

Lemma partition_cons_none (sep : string) (c : ascii) (s : string) :
  partition sep (String c s) = None ->
  startswith (String c s) sep = false /\ partition sep s = None.
Proof.
  rewrite partition_cons. destruct (startswith (String c s) sep);
    [discriminate|].
  destruct (partition sep s) as [[a b]|]; [discriminate|auto].
Qed.

(** Without a fence there is no tagged fence. *)
Lemma no_fence_no_json_fence (s : string) :
  partition "```" s = None -> partition "```json" s = None.
Proof.
  induction s as [|c s IH]; [reflexivity|].
  intros H. apply partition_cons_none in H as [E H].
  rewrite partition_cons.
  destruct (startswith (String c s) "```json") eqn:J.
  - apply json_fence_is_fence in J. congruence.
  - now rewrite IH.
Qed.

(** No occurrence in a text, none after any start of it. *)
Lemma partition_none_suffix (sep x y : string) :
  partition sep (x ++ y) = None -> partition sep y = None.
Proof.
  induction x as [|c x IH]; [auto|].
  intros H. simpl in H. apply partition_cons_none in H as [_ H]. auto.
Qed.

(** The text before the first occurrence holds no occurrence. *)
Lemma partition_before (c0 : ascii) (sep0 s a b : string) :
  partition (String c0 sep0) s = Some (a, b) ->
  partition (String c0 sep0) a = None.
Proof.
  set (sep := String c0 sep0).
  revert a b; induction s as [|c s IH]; intros a b.
  - cbn [partition]. destruct (startswith "" sep); [|discriminate].
    intros [= <- <-]. reflexivity.
  - rewrite partition_cons.
    destruct (startswith (String c s) sep) eqn:E.
    + intros [= <- <-]. reflexivity.
    + destruct (partition sep s) as [[x y]|] eqn:P; [|discriminate].
      intros [= <- <-]. rewrite partition_cons.
      destruct (startswith (String c x) sep) eqn:E'.
      * apply partition_some in P. subst s.
        apply (startswith_longer _ (sep ++ y)) in E'.
        simpl in E'. simpl in E. congruence.
      * now rewrite (IH x y).
Qed.

(** ** [up_to] *)

Lemma up_to_cons (sep : string) (c : ascii) (s : string) :
  up_to sep (String c s) =
  if startswith (String c s) sep then "" else String c (up_to sep s).
Proof.
  unfold up_to. rewrite partition_cons.
  destruct (startswith (String c s) sep); [reflexivity|].
  now destruct (partition sep s) as [[a b]|].
Qed.

Lemma up_to_idempotent (c0 : ascii) (sep0 s : string) :
  up_to (String c0 sep0) (up_to (String c0 sep0) s) = up_to (String c0 sep0) s.
Proof.
  unfold up_to at 2 3.
  destruct (partition (String c0 sep0) s) as [[a b]|] eqn:P.
  - unfold up_to. now rewrite (partition_before _ _ _ _ _ P).
  - unfold up_to. now rewrite P.
Qed.

(** What [up_to] keeps starts the text. *)
Lemma up_to_prefix (sep s : string) : exists rest, s = up_to sep s ++ rest.
Proof.
  unfold up_to. destruct (partition sep s) as [[a b]|] eqn:P.
  - exists (sep ++ b). now apply partition_some.
  - exists "". now rewrite append_empty_r.
Qed.

(** Where no four backquotes stand in a row, cutting at the next tag
    [```json] first does not move the closing fence. *)
Lemma up_to_fence_after_tag (s : string) :
  partition "````" s = None ->
  up_to "```" (up_to "```json" s) = up_to "```" s.
Proof.
  induction s as [|c s IH]; intros Q.
  - reflexivity.
  - apply partition_cons_none in Q as [Q4 Q].
    rewrite (up_to_cons "```json").
    destruct (startswith (String c s) "```json") eqn:J.
    + apply json_fence_is_fence in J.
      rewrite up_to_cons, J. reflexivity.
    + rewrite !(up_to_cons "```"), (IH Q).
      replace (startswith (String c (up_to "```json" s)) "```")
        with (startswith (String c s) "```"); [reflexivity|].
      destruct (startswith (String c s) "```") eqn:F.
      * (* the text starts with a fence that no backquote follows *)
        symmetry.
        destruct s as [|c1 [|c2 r]]; cbn in F;
          try (rewrite ?andb_false_r in F; discriminate).
        apply andb_prop in F as [F0 F].
        apply andb_prop in F as [F1 F]. apply andb_prop in F as [F2 _].
        apply Ascii.eqb_eq in F0, F1, F2. subst c c1 c2.
        rewrite !up_to_cons.
        destruct r as [|c3 r]; [reflexivity|].
        cbn in Q4. cbn. rewrite !Ascii.eqb_refl in *. cbn in *.
        rewrite andb_true_r in Q4. rewrite Q4. reflexivity.
      * destruct (startswith (String c (up_to "```json" s)) "```") eqn:F';
          [|reflexivity].
        destruct (up_to_prefix "```json" s) as [rest E].
        apply (startswith_longer _ rest) in F'.
        simpl in F'. rewrite <- E in F'. simpl in F. congruence.
Qed.

(** ** [strip] *)

Lemma rstrip_space_after (s : string) (c : ascii) :
  isspace c = true -> rstrip (s ++ String c "") = rstrip s.
Proof.
  intros H. induction s as [|a s IH]; simpl.
  - now rewrite H.
  - now rewrite IH.
Qed.

Lemma strip_space_after (s : string) (c : ascii) :
  isspace c = true -> strip (s ++ String c "") = strip s.
Proof.
  intros H. unfold strip. induction s as [|a s IH]; simpl.
  - now rewrite H.
  - destruct (isspace a); [exact IH|].
    apply (rstrip_space_after (String a s) c H).
Qed.

Lemma strip_space_before (s : string) (c : ascii) :
  isspace c = true -> strip (String c s) = strip s.
Proof. intros H. unfold strip. simpl. now rewrite H. Qed.

(** ** [_extract_json] *)

Section Extract.
Context {lim : Json.Limits}.

(** The text [_extract_json] hands to the decoder. *)
Lemma extract_json_candidate (s : string) :
  _extract_json s = Json.loads (strip (candidate_by_split s)).
Proof.
  unfold _extract_json, candidate_by_split, contains, first_block.
  destruct (partition "```json" s) as [[a b]|] eqn:PJ.
  - rewrite (split_second _ _ _ _ _ PJ). cbn [bind].
    rewrite split_first. reflexivity.
  - destruct (partition "```" s) as [[a b]|] eqn:PF.
    + rewrite (split_second _ _ _ _ _ PF). cbn [bind].
      rewrite split_first. cbn [bind].
      change (Json.loads (strip (up_to "```" (up_to "```" b)))
              = Json.loads (strip (up_to "```" b))).
      now rewrite up_to_idempotent.
    + reflexivity.
Qed.

(** The decoder raises [JSONDecodeError], or what the interpreter raises
    at one of its limits. *)
Lemma loads_raises (doc : string) (e : exn) :
  Json.loads doc = Raise e ->
  is_JSONDecodeError e = true \/ Json.from_a_limit e.
Proof.
  unfold Json.loads, Json.decode_error.
  destruct (Json.scan_once _ _ _) as [[msg n|e']|[v rest]] eqn:E.
  - destruct (Json.line_col _ _ _ _). intros [= <-]. now left.
  - intros [= ->]. right.
    now apply (proj1 (JsonFacts.scan_raised _)) in E.
  - destruct (Json.skip_ws rest); [discriminate|].
    destruct (Json.line_col _ _ _ _). intros [= <-]. now left.
Qed.

Lemma extract_json_raises (s : string) (e : exn) :
  _extract_json s = Raise e ->
  is_JSONDecodeError e = true \/ Json.from_a_limit e.
Proof. rewrite extract_json_candidate. apply loads_raises. Qed.

End Extract.

(** ** The fenced input of the test *)

(** A fence that reaches into a text followed by a line feed lies in the
    text. *)
Lemma fence_before_newline (u v : string) :
  startswith (u ++ nl ++ v) "```" = true -> startswith u "```" = true.
Proof.
  destruct u as [|a [|b [|c u]]]; cbn; rewrite ?backquote_is_not_newline;
    intros H.
  - discriminate.
  - destruct (Ascii.eqb "`" a); discriminate.
  - destruct (Ascii.eqb "`" a), (Ascii.eqb "`" b); discriminate.
  - destruct (Ascii.eqb "`" a), (Ascii.eqb "`" b), (Ascii.eqb "`" c);
      auto; discriminate.
Qed.

Lemma closing_fence_found (t : string) :
  partition "```" t = None ->
  partition "```" (t ++ nl ++ "```") = Some (t ++ nl, "").
Proof.
  induction t as [|c t IH]; intros H; [reflexivity|].
  apply partition_cons_none in H as [E H].
  change (String c t ++ nl ++ "```") with (String c (t ++ nl ++ "```")).
  rewrite partition_cons.
  destruct (startswith (String c (t ++ nl ++ "```")) "```") eqn:E'.
  - apply (fence_before_newline (String c t)) in E'. congruence.
  - now rewrite (IH H).
Qed.

Lemma no_tag_before_closing_fence (t : string) :
  partition "```" t = None ->
  partition "```json" (t ++ nl ++ "```") = None.
Proof.
  induction t as [|c t IH]; intros H; [reflexivity|].
  apply partition_cons_none in H as [E H].
  change (String c t ++ nl ++ "```") with (String c (t ++ nl ++ "```")).
  rewrite partition_cons.
  destruct (startswith (String c (t ++ nl ++ "```")) "```json") eqn:E'.
  - apply json_fence_is_fence in E'.
    apply (fence_before_newline (String c t)) in E'. congruence.
  - now rewrite (IH H).
Qed.

(** The candidate of a fenced text without backquote fences of its own. *)
Lemma candidate_fenced (t : string) :
  partition "```" t = None ->
  candidate_by_split (fenced t) = nl ++ t ++ nl.
Proof.
  intros H. unfold candidate_by_split, fenced.
  change ("```json" ++ nl ++ t ++ nl ++ "```")
    with ("```json" ++ (nl ++ t) ++ nl ++ "```").
  assert (N : partition "```" (nl ++ t) = None).
  { change (nl ++ t) with (String (ascii_of_nat 10) t).
    rewrite partition_cons. cbn [startswith].
    rewrite backquote_is_not_newline. now rewrite H. }
  change (partition "```json" ("```json" ++ (nl ++ t) ++ nl ++ "```"))
    with (Some ("", (nl ++ t) ++ nl ++ "```")).
  unfold up_to at 2. rewrite (no_tag_before_closing_fence _ N).
  unfold up_to. rewrite (closing_fence_found _ N).
  now rewrite append_assoc.
Qed.

Lemma candidate_plain (t : string) :
  partition "```" t = None -> candidate_by_split t = t.
Proof.
  intros H. unfold candidate_by_split, first_block.
  now rewrite (no_fence_no_json_fence _ H), H.
Qed.

End FenceFacts.

(* ================================================================== *)
(** * Facts about providers                                             *)
(* ================================================================== *)

Module ProviderFacts.
Import Py PyFacts Settings AIProviders Spec.

Local Arguments String.eqb : simpl never.

(** A failed lookup raises [KeyError]. *)
Lemma getitem_raises {V} (d : list (string * V)) (k : string) (e : exn) :
  getitem d k = Raise e -> e = KeyError k.
Proof.
  induction d as [|[k' v] d IH]; simpl.
  - now intros [= <-].
  - destruct (String.eqb k' k); [discriminate|exact IH].
Qed.

(** Every entry of the price table has both prices. *)
Lemma price_table_entry_complete (provider model : string)
  (pricing : list (string * float)) :
  price_table_entry provider model = Some pricing ->
  exists pin pout,
    getitem pricing "input" = Ok pin /\ getitem pricing "output" = Ok pout.
Proof.
  unfold price_table_entry, PRICING. cbn [getitem].
  destruct (String.eqb "openai" provider).
  - cbn [getitem].
    destruct (String.eqb "gpt-3.5-turbo" model);
      [intros [= <-]; eexists _, _; split; reflexivity|].
    destruct (String.eqb "gpt-4" model);
      [intros [= <-]; eexists _, _; split; reflexivity|].
    destruct (String.eqb "gpt-4-turbo" model);
      [intros [= <-]; eexists _, _; split; reflexivity|discriminate].
  - destruct (String.eqb "groq" provider); [|discriminate].
    cbn [getitem].
    destruct (String.eqb "llama-3.1-70b-versatile" model);
      [intros [= <-]; eexists _, _; split; reflexivity|].
    destruct (String.eqb "llama-3.1-8b-instant" model);
      [intros [= <-]; eexists _, _; split; reflexivity|].
    destruct (String.eqb "mixtral-8x7b-32768" model);
      [intros [= <-]; eexists _, _; split; reflexivity|discriminate].
Qed.

(** Within the limit the millionth part of a count is a float. *)
Lemma millionth_in_range (n : Z) :
  0 <= n < count_limit ->
  int_truediv n 1000000 = Ok (nearest_quotient n 1000000).
Proof.
  unfold count_limit, int_truediv, nearest_quotient.
  generalize (2 ^ 1024 - 2 ^ 970). intros K [H0 H1].
  change (1000000 =? 0) with false. cbv iota.
  change (Z.abs 1000000) with 1000000.
  rewrite (Z.abs_eq n H0).
  destruct (K * 1000000 <=? n) eqn:E; [|reflexivity].
  apply Z.leb_le in E. lia.
Qed.

End ProviderFacts.

(* ================================================================== *)
(** * The properties                                                    *)
(* ================================================================== *)

Import Py PyFacts Settings AIProviders Generator DocumentParser.
Import Spec Scenario FenceFacts ProviderFacts.

(** The examples run with the interpreter's default limits; a property
    that holds whatever the limits are says so, with a [lim] of its
    own. *)
#[local] Existing Instance Json.default_limits.

(** ** The model at work *)

Example split_examples :
  split "```" "a```b```c" = ["a"; "b"; "c"] /\
  split "```" "```" = [""; ""] /\
  split "." "One. Two." = ["One"; " Two"; ""] /\
  split_ws "  to be  or not " = ["to"; "be"; "or"; "not"] /\
  strip (nl ++ "  text " ++ nl) = "text" /\
  lower "OpenAI" = "openai".
Proof. repeat split; reflexivity. Qed.

Example loads_examples :
  Json.loads ("{" ++ q "flashcards" ++ ": [], " ++ q "n" ++ ": [1, -2.5e3, true, null]}")
  = Ok (VDict [ (codes "flashcards", VList []);
                (codes "n", VList [VInt 1; VFloat (decimal (-25) 2);
                                   VBool true; VNone]) ]) /\
  Json.loads "[1, 2" = Raise (JSONDecodeError "Expecting ',' delimiter" 1 6 5) /\
  Json.loads "" = Raise (JSONDecodeError "Expecting value" 1 1 0) /\
  str_of_exn (JSONDecodeError "Expecting value" 1 1 0)
  = "Expecting value: line 1 column 1 (char 0)".
Proof. repeat split; reflexivity. Qed.

Example calculate_cost_examples :
  calculate_cost (provider "groq") 1000000 0 = Ok (decimal 59 (-2)) /\
  calculate_cost (AIProvider_init "openai" "gpt-5") 1000 500 = Ok fzero /\
  calculate_cost (AIProvider_init "mistral" "gpt-4") 1000 500 = Ok fzero.
Proof. repeat split; reflexivity. Qed.

Example get_content_stats_example :
  get_content_stats "Hello world. This is it."
  = Ok (pydict [ ("character_count", VInt 24); ("word_count", VInt 5);
                 ("sentence_count", VInt 2);
                 ("avg_word_length", VFloat (decimal 4 0)) ]).
Proof. reflexivity. Qed.

(** A reply in a fence, as the prompts ask for: the payload is the object
    of the reply with the metrics added. *)
Example generate_flashcards_example :
  let reply := fenced ("{" ++ q "flashcards" ++ ": []}") in
  let rt := answering reply in
  exists metrics,
    fst (@generate_flashcards default_config rt Json.default_limits
           "Cells divide." 5 (start rt 0%nat "openai"))
    = Ok (VDict [ (codes "flashcards", VList []);
                  (codes "metrics", metrics) ]) /\
    pyget metrics "provider" = Some (vstr "openai") /\
    pyget metrics "token_usage" = Some (VInt 200).
Proof. eexists. repeat split; reflexivity. Qed.

(** ** Cost *)

(** C1, as the code has it.  For token counts that are not negative:
    when the price table has no entry for the provider and model,
    [calculate_cost] returns [0.0]; when it has one, the entry gives an input
    and an output price and, for counts below [count_limit] (about 1.8e314,
    where the millionth part of a count leaves the range of a float),
    [calculate_cost] returns
    [input_tokens/1e6 * input_price + output_tokens/1e6 * output_price]. *)
Theorem calculate_cost_spec (self : AIProvider) (input_tokens output_tokens : Z) :
  0 <= input_tokens -> 0 <= output_tokens ->
  match price_table_entry (provider_name self) (model self) with
  | None => calculate_cost self input_tokens output_tokens = Ok fzero
  | Some pricing =>
      exists input_price output_price,
        getitem pricing "input" = Ok input_price /\
        getitem pricing "output" = Ok output_price /\
        (input_tokens < count_limit -> output_tokens < count_limit ->
         calculate_cost self input_tokens output_tokens =
         Ok (cost_formula input_tokens output_tokens input_price output_price))
  end.
Proof.
  intros Hi Ho.
  destruct (price_table_entry (provider_name self) (model self))
    as [pricing|] eqn:E.
  - destruct (price_table_entry_complete _ _ _ E) as (pin & pout & Hin & Hout).
    exists pin, pout. repeat split; try assumption.
    intros Li Lo. unfold price_table_entry in E. unfold calculate_cost.
    destruct (getitem PRICING (provider_name self)) as [models|];
      [|discriminate].
    cbn [bind].
    destruct (getitem models (model self)) as [pricing'|]; [|discriminate].
    injection E as ->. cbn [bind].
    rewrite (millionth_in_range input_tokens) by lia. cbn [bind].
    rewrite Hin. cbn [bind].
    rewrite (millionth_in_range output_tokens) by lia. cbn [bind].
    rewrite Hout. reflexivity.
  - unfold price_table_entry in E. unfold calculate_cost.
    destruct (getitem PRICING (provider_name self)) as [models|e] eqn:E1.
    + cbn [bind].
      destruct (getitem models (model self)) as [pricing'|e] eqn:E2;
        [discriminate|].
      apply getitem_raises in E2 as ->. reflexivity.
    + apply getitem_raises in E1 as ->. reflexivity.
Qed.

(** The theorem at 1000 input and 500 output tokens of [gpt-4]: six cents. *)
Lemma calculate_cost_spec_witness :
  0 <= 1000 /\ 0 <= 500 /\
  calculate_cost (AIProvider_init "openai" "gpt-4") 1000 500
  = Ok (decimal 6 (-2)).
Proof.
  split; [lia|]. split; [lia|].
  pose proof (calculate_cost_spec (AIProvider_init "openai" "gpt-4") 1000 500
                ltac:(lia) ltac:(lia)) as H.
  change (price_table_entry _ _)
    with (Some [("input", decimal 3000 (-2)); ("output", decimal 6000 (-2))])
    in H.
  destruct H as (pin & pout & Hin & Hout & H).
  injection Hin as <-. injection Hout as <-.
  rewrite H by reflexivity. reflexivity.
Defined.

(** C1 as stated fails: for [gpt-4], which the table prices, and 10^320
    input tokens, [calculate_cost] raises [OverflowError] and returns
    nothing. *)
Lemma calculate_cost_overflows :
  0 <= 10 ^ 320 /\
  price_table_entry "openai" "gpt-4" <> None /\
  calculate_cost (AIProvider_init "openai" "gpt-4") (10 ^ 320) 0
  = Raise (OverflowError "integer division result too large for a float").
Proof.
  split; [now vm_compute|]. split; [discriminate|]. now vm_compute.
Qed.

(** ** Parse failures in the generator *)

(** What [generate_flashcards] does with the provider's reply. *)
Lemma generate_flashcards_reply {cfg : Config} {rt : Runtime}
  {lim : Json.Limits} (content : string) (count : Z) (st st1 : State)
  (response : string) (metrics : PyVal) :
  generate (flashcards_prompt content count) (Some flashcards_system_prompt) st
  = (Ok (response, metrics), st1) ->
  generate_flashcards content count st =
  match _extract_json response with
  | Ok result =>
      match setitem result "metrics" metrics with
      | Ok result' => (Ok result', st1)
      | Raise e => (Raise e, st1)
      end
  | Raise e =>
      if is_JSONDecodeError e
      then (Ok (flashcards_fallback e metrics response), st1)
      else (Raise e, st1)
  end.
Proof.
  intros H. unfold generate_flashcards, mbind at 1. rewrite H.
  cbn [fst snd]. unfold mtry, mbind, lift, ret.
  destruct (_extract_json response) as [result|e] eqn:E.
  - destruct (setitem result "metrics" metrics) as [result'|e] eqn:E';
      [reflexivity|].
    destruct result; simpl in E'; try discriminate;
      injection E' as <-; reflexivity.
  - reflexivity.
Qed.

(** What [generate_quiz] does with the provider's reply. *)
Lemma generate_quiz_reply {cfg : Config} {rt : Runtime}
  {lim : Json.Limits} (content : string) (count : Z) (st st1 : State)
  (response : string) (metrics : PyVal) :
  generate (quiz_prompt content count) (Some quiz_system_prompt) st
  = (Ok (response, metrics), st1) ->
  generate_quiz content count st =
  match _extract_json response with
  | Ok result =>
      match setitem result "metrics" metrics with
      | Ok result' => (Ok result', st1)
      | Raise e => (Raise e, st1)
      end
  | Raise e =>
      if is_JSONDecodeError e
      then (Ok (quiz_fallback e metrics response), st1)
      else (Raise e, st1)
  end.
Proof.
  intros H. unfold generate_quiz, mbind at 1. rewrite H.
  cbn [fst snd]. unfold mtry, mbind, lift, ret.
  destruct (_extract_json response) as [result|e] eqn:E.
  - destruct (setitem result "metrics" metrics) as [result'|e] eqn:E';
      [reflexivity|].
    destruct result; simpl in E'; try discriminate;
      injection E' as <-; reflexivity.
  - reflexivity.
Qed.

(** C2, as the code has it.  When the provider has answered and the
    decoder raises [JSONDecodeError] on the text it is handed,
    [generate_quiz] raises nothing and returns the quiz fallback, a
    dictionary of three fields: ['quiz'] holds one entry, which says
    ['Error parsing response'] and explains with the text of the error;
    ['metrics'] holds the metrics of the call; ['raw_response'] holds the
    response as it came. *)
Theorem generate_quiz_absorbs_decode_error
  {cfg : Config} {rt : Runtime} {lim : Json.Limits}
  (content : string) (count : Z) (st st1 : State)
  (response : string) (metrics : PyVal)
  (msg : string) (lineno colno pos : nat) :
  generate (quiz_prompt content count) (Some quiz_system_prompt) st
  = (Ok (response, metrics), st1) ->
  _extract_json response = Raise (JSONDecodeError msg lineno colno pos) ->
  generate_quiz content count st
  = (Ok (pydict
           [ ("quiz",
               VList
                 [ pydict
                     [ ("question", vstr "Error parsing response");
                       ("options", VList []);
                       ("correct_answer", VInt 0);
                       ("explanation",
                         vstr (str_of_exn
                                 (JSONDecodeError msg lineno colno pos)));
                       ("difficulty", vstr "error");
                       ("topic", vstr "error") ] ]);
             ("metrics", metrics);
             ("raw_response", vstr response) ]),
     st1).
Proof.
  intros G E. now rewrite (generate_quiz_reply _ _ _ _ _ _ G), E.
Qed.

(** The theorem where the provider answers [not json]. *)
Lemma generate_quiz_absorbs_decode_error_witness :
  let rt := answering "not json" in
  let st := start rt 0%nat "openai" in
  exists metrics st1,
    @generate default_config rt (quiz_prompt "Cells divide." 10)
      (Some quiz_system_prompt) st = (Ok ("not json", metrics), st1) /\
    _extract_json "not json"
    = Raise (JSONDecodeError "Expecting value" 1 1 0) /\
    @generate_quiz default_config rt Json.default_limits "Cells divide." 10 st
    = (Ok (pydict
             [ ("quiz",
                 VList
                   [ pydict
                       [ ("question", vstr "Error parsing response");
                         ("options", VList []);
                         ("correct_answer", VInt 0);
                         ("explanation",
                           vstr "Expecting value: line 1 column 1 (char 0)");
                         ("difficulty", vstr "error");
                         ("topic", vstr "error") ] ]);
               ("metrics", metrics);
               ("raw_response", vstr "not json") ]),
       st1).
Proof.
  intros rt st.
  eassert (G : @generate default_config rt (quiz_prompt "Cells divide." 10)
                 (Some quiz_system_prompt) st = (Ok ("not json", _), _))
    by reflexivity.
  eexists _, _. split; [exact G|]. split; [reflexivity|].
  exact (@generate_quiz_absorbs_decode_error default_config rt
           Json.default_limits "Cells divide." 10 st _ "not json" _
           "Expecting value" 1%nat 1%nat 0%nat G eq_refl).
Defined.

(** C2 as stated fails: the provider answers with two thousand opening
    brackets, which is not JSON.  The interpreter allows the decoder a
    thousand nested calls, and [RecursionError] is raised at the next;
    [generate_quiz] takes [JSONDecodeError] only, so it raises where the
    claim has it return the fallback. *)
Lemma generate_quiz_raises_on_deep_nesting :
  let reply := repeated 2000 "[" in
  let rt := answering reply in
  let st := start rt 0%nat "openai" in
  let e := RecursionError
             "maximum recursion depth exceeded while decoding a JSON array from a unicode string" in
  exists metrics st1,
    @generate default_config rt (quiz_prompt "Cells divide." 10)
      (Some quiz_system_prompt) st = (Ok (reply, metrics), st1) /\
    _extract_json reply = Raise e /\
    @generate_quiz default_config rt Json.default_limits "Cells divide." 10 st
    = (Raise e, st1).
Proof.
  intros reply rt st e.
  eassert (G : @generate default_config rt (quiz_prompt "Cells divide." 10)
                 (Some quiz_system_prompt) st = (Ok (reply, _), _))
    by reflexivity.
  assert (E : _extract_json reply = Raise e)
    by (vm_compute; reflexivity).
  eexists _, _. split; [exact G|]. split; [exact E|].
  rewrite (generate_quiz_reply _ _ _ _ _ _ G), E. reflexivity.
Qed.

(** C3, as the code has it.  When the provider has answered, and the
    decoder either raises [JSONDecodeError] on the text it is handed or
    returns a JSON object, [generate_flashcards] returns a payload and
    raises nothing: for the error, the fallback dictionary (one sentinel
    flashcard, the metrics and the raw response); for the object, the
    object with the metrics attached. *)
Theorem generate_flashcards_absorbs_parse_failure
  {cfg : Config} {rt : Runtime} {lim : Json.Limits}
  (content : string) (count : Z)
  (st st1 : State) (response : string) (metrics : PyVal) :
  generate (flashcards_prompt content count) (Some flashcards_system_prompt) st
  = (Ok (response, metrics), st1) ->
  (exists e, _extract_json response = Raise e /\
             is_JSONDecodeError e = true) \/
  (exists d, _extract_json response = Ok (VDict d)) ->
  exists payload,
    generate_flashcards content count st = (Ok payload, st1) /\
    (forall d, _extract_json response = Ok (VDict d) ->
       payload = VDict (dict_set d (codes "metrics") metrics)) /\
    (forall e, _extract_json response = Raise e ->
       payload = flashcards_fallback e metrics response).
Proof.
  intros G D. rewrite (generate_flashcards_reply _ _ _ _ _ _ G).
  destruct D as [(e & E & J)|(d & E)]; rewrite E.
  - rewrite J. eexists. split; [reflexivity|]. split; [discriminate|].
    now intros e' [= <-].
  - cbn [setitem]. eexists. split; [reflexivity|]. split; [|discriminate].
    now intros d' [= <-].
Qed.

(** The theorem where the provider answers [not json]. *)
Lemma generate_flashcards_absorbs_parse_failure_witness :
  let rt := answering "not json" in
  let st := start rt 0%nat "groq" in
  let e := JSONDecodeError "Expecting value" 1 1 0 in
  exists metrics st1 payload,
    @generate default_config rt (flashcards_prompt "Cells divide." 20)
      (Some flashcards_system_prompt) st = (Ok ("not json", metrics), st1) /\
    _extract_json "not json" = Raise e /\
    is_JSONDecodeError e = true /\
    @generate_flashcards default_config rt Json.default_limits
      "Cells divide." 20 st
    = (Ok payload, st1) /\
    payload = flashcards_fallback e metrics "not json".
Proof.
  intros rt st e.
  eassert (G : @generate default_config rt
                 (flashcards_prompt "Cells divide." 20)
                 (Some flashcards_system_prompt) st
               = (Ok ("not json", _), _)) by reflexivity.
  assert (E : _extract_json "not json" = Raise e)
    by reflexivity.
  destruct (@generate_flashcards_absorbs_parse_failure default_config rt
              Json.default_limits "Cells divide." 20 st _ "not json" _ G
              (or_introl (ex_intro _ e (conj E eq_refl))))
    as (payload & Run & _ & Fallback).
  eexists _, _, payload. split; [exact G|]. split; [exact E|].
  split; [reflexivity|]. split; [exact Run|]. now apply Fallback.
Defined.

(** C3 as stated fails: the provider answers [1], which is JSON and not an
    object; [generate_flashcards] raises [TypeError]. *)
Lemma generate_flashcards_raises_on_a_number :
  let rt := answering "1" in
  let st := start rt 0%nat "openai" in
  exists metrics st1,
    @generate default_config rt (flashcards_prompt "Cells divide." 20)
      (Some flashcards_system_prompt) st = (Ok ("1", metrics), st1) /\
    @generate_flashcards default_config rt Json.default_limits
      "Cells divide." 20 st
    = (Raise (TypeError "'int' object does not support item assignment"), st1).
Proof.
  intros rt st.
  eassert (G : @generate default_config rt
                 (flashcards_prompt "Cells divide." 20)
                 (Some flashcards_system_prompt) st
               = (Ok ("1", _), _)) by reflexivity.
  eexists _, _. split; [exact G|].
  now rewrite (generate_flashcards_reply _ _ _ _ _ _ G).
Qed.

(** ** Fence stripping *)

Lemma contains_false (sub s : string) :
  contains sub s = false -> partition sub s = None.
Proof. unfold contains. now destruct (partition sub s). Qed.

(** C4, as the code has it.  For every input string in which no four
    backquotes stand in a row, [_extract_json] parses, trimmed of
    surrounding white space, the content of the first block fenced with
    [```json] if the string contains that fence, else the content of the
    first fenced block if it contains a fence, else the string itself. *)
Theorem extract_json_by_fences {lim : Json.Limits} (s : string) :
  contains "````" s = false ->
  _extract_json s = Json.loads (strip (candidate s)).
Proof.
  intros Q. apply contains_false in Q.
  rewrite extract_json_candidate. do 2 f_equal.
  unfold candidate_by_split, candidate, first_block.
  destruct (partition "```json" s) as [[a b]|] eqn:P; [|reflexivity].
  apply up_to_fence_after_tag.
  apply partition_some in P. subst s.
  apply partition_none_suffix in Q. now apply partition_none_suffix in Q.
Qed.

(** The theorem on a reply with some words before and after its block. *)
Lemma extract_json_by_fences_witness :
  let s := "Here you are:" ++ nl ++ "```json" ++ nl ++ "[1, 2]" ++ nl
           ++ "```" ++ nl ++ "Good luck!" in
  contains "````" s = false /\
  candidate s = nl ++ "[1, 2]" ++ nl /\
  _extract_json s = Ok (VList [VInt 1; VInt 2]).
Proof.
  intros s. split; [reflexivity|]. split; [reflexivity|].
  rewrite (extract_json_by_fences s); reflexivity.
Defined.

(** C4 as stated fails: in [```json1````json] the first fence tagged as
    JSON is closed by the three backquotes after [1], so the block holds
    [1], which parses; [_extract_json] reads [1`] and fails. *)
Lemma extract_json_four_backquotes :
  let s := "```json1````json" in
  candidate s = "1" /\
  Json.loads (strip (candidate s)) = Ok (VInt 1) /\
  _extract_json s = Raise (JSONDecodeError "Extra data" 1 2 1).
Proof. intros s. repeat split; reflexivity. Qed.

(** C5, as the code has it.  For every text [t] without three backquotes
    in a row, extracting [t] between a [```json] fence and a closing fence
    gives what extracting [t] itself gives, which is what parsing [t]
    trimmed gives. *)
Theorem fence_stripping_invisible {lim : Json.Limits} (t : string) :
  contains "```" t = false ->
  _extract_json (fenced t) = _extract_json t /\
  _extract_json t = Json.loads (strip t).
Proof.
  intros H. apply contains_false in H.
  rewrite !extract_json_candidate, (candidate_fenced _ H), (candidate_plain _ H).
  split; [|reflexivity]. f_equal.
  change (nl ++ t ++ nl) with (String (ascii_of_nat 10) (t ++ nl)).
  rewrite strip_space_before by reflexivity.
  apply strip_space_after. reflexivity.
Qed.

(** The theorem on a small JSON object. *)
Lemma fence_stripping_invisible_witness :
  let t := "{" ++ q "a" ++ ": 1}" in
  contains "```" t = false /\
  _extract_json (fenced t) = _extract_json t /\
  _extract_json t = Ok (VDict [(codes "a", VInt 1)]).
Proof.
  intros t. split; [reflexivity|].
  destruct (fence_stripping_invisible t eq_refl) as [H1 H2].
  split; [exact H1|]. rewrite H2. reflexivity.
Defined.

(** C5 as stated fails: [t] is a JSON object whose one member, [a], is a
    string that holds the number [1] between two fences.  Extracted bare
    it gives the number [1]; extracted between fences it gives a parse
    error. *)
Lemma fenced_differs_from_bare :
  let t := "{" ++ q "a" ++ ": " ++ q "```1```" ++ "}" in
  Json.loads t = Ok (VDict [(codes "a", vstr "```1```")]) /\
  _extract_json t = Ok (VInt 1) /\
  _extract_json (fenced t)
  = Raise (JSONDecodeError "Unterminated string starting at" 1 7 6) /\
  _extract_json (fenced t) <> _extract_json t.
Proof.
  intros t. split; [reflexivity|]. split; [reflexivity|].
  split; [reflexivity|]. discriminate.
Qed.

(** ** Summary lengths *)


(** ** The provider factory *)

(** C6, as the code has it.  For every provider name whose lower-case
    form is neither ['openai'] nor ['groq'], [get_provider] raises
    [ValueError('Unknown provider: ' + name)]; it builds no client and so
    calls no service. *)
Theorem get_provider_unknown {cfg : Config} (name : string)
  (model : option string) :
  lower name <> "openai" -> lower name <> "groq" ->
  get_provider name model = Raise (ValueError ("Unknown provider: " ++ name)).
Proof.
  intros O G. unfold get_provider.
  apply String.eqb_neq in O, G. now rewrite O, G.
Qed.

(** The theorem for the name ['Anthropic']. *)
Lemma get_provider_unknown_witness :
  lower "Anthropic" <> "openai" /\ lower "Anthropic" <> "groq" /\
  @get_provider default_config "Anthropic" None
  = Raise (ValueError "Unknown provider: Anthropic").
Proof.
  split; [discriminate|]. split; [discriminate|].
  apply (@get_provider_unknown default_config "Anthropic" None); discriminate.
Defined.

(** C6 as stated fails: ['OpenAI'] is neither of the strings ['openai']
    and ['groq'], and [get_provider] returns a provider for it. *)
Lemma get_provider_accepts_capitals :
  "OpenAI" <> "openai" /\ "OpenAI" <> "groq" /\
  @get_provider default_config "OpenAI" None
  = Ok (@OpenAIProvider_init default_config "gpt-3.5-turbo").
Proof. repeat split; discriminate || reflexivity. Qed.

(** C9.  For every name whose lower-case form is ['openai'] or ['groq'],
    [get_provider] returns the provider of that name, with the model asked
    for or else the configured one. *)
Theorem get_provider_case_insensitive {cfg : Config} (name : string)
  (model : option string) :
  lower name = "openai" \/ lower name = "groq" ->
  exists p,
    get_provider name model = Ok p /\
    provider_name p = lower name /\
    p = (if String.eqb (lower name) "openai"
         then OpenAIProvider_init (or_else model OPENAI_MODEL)
         else GroqProvider_init (or_else model GROQ_MODEL)).
Proof.
  unfold get_provider. intros [H|H]; rewrite H; cbn [String.eqb];
    eexists; repeat split; reflexivity.
Qed.

(** The theorem for the names ['GROQ'] and ['OpenAI']. *)
Lemma get_provider_case_insensitive_witness :
  (lower "GROQ" = "openai" \/ lower "GROQ" = "groq") /\
  (exists p, @get_provider default_config "GROQ" (Some "mixtral-8x7b-32768")
             = Ok p /\ provider_name p = "groq" /\ class p = GroqProviderClass
             /\ model p = "mixtral-8x7b-32768").
Proof.
  split; [right; reflexivity|].
  destruct (@get_provider_case_insensitive default_config "GROQ"
              (Some "mixtral-8x7b-32768") (or_intror eq_refl))
    as (p & Run & Name & Is).
  exists p. split; [exact Run|]. split; [exact Name|].
  rewrite Is. split; reflexivity.
Defined.

(** ** Provider failures *)

(** C8.  For every prompt and optional system prompt, when the call to
    the service raises [e], [generate] of an OpenAI or Groq provider raises
    [Exception] with the message [OpenAI API error: ] or [Groq API error: ]
    followed by [str(e)]; it returns no metrics, and the provider object is
    as it was. *)
Theorem generate_wraps_provider_failure {cfg : Config} {rt : Runtime}
  (p : AIProvider) (c : Client) (prompt : string)
  (system_prompt : option string) (w w1 w2 : World) (t0 : float) (e : exn) :
  class p <> AIProviderClass ->
  client p = Some c ->
  time_time w = (t0, w1) ->
  chat_completions_create c
    {| req_model := model p;
       req_messages := build_messages prompt system_prompt;
       req_max_tokens := MAX_TOKENS;
       req_temperature := TEMPERATURE |} w1 = (Raise e, w2) ->
  generate prompt system_prompt {| self := p; world := w |}
  = (Raise (Exception (error_label (class p) ++ " API error: " ++ str_of_exn e)),
     {| self := p; world := w2 |}).
Proof.
  intros C K T F. unfold generate, mbind at 1, get_self at 1. cbn [self].
  destruct (class p) eqn:Cl; [congruence| |].
  - unfold OpenAIProvider_generate, mbind at 1, now. cbn [world self].
    rewrite T. unfold mtry, mbind at 1, get_self at 1. cbn [self].
    unfold mbind at 1, lift at 1. rewrite K.
    unfold mbind at 1, create. cbn [world self]. rewrite F.
    reflexivity.
  - unfold GroqProvider_generate, mbind at 1, now. cbn [world self].
    rewrite T. unfold mtry, mbind at 1, get_self at 1. cbn [self].
    unfold mbind at 1, lift at 1. rewrite K.
    unfold mbind at 1, create. cbn [world self]. rewrite F.
    reflexivity.
Qed.

(** The theorem in a world where the service refuses the connection. *)
Lemma generate_wraps_provider_failure_witness :
  let rt := failing (APIError "Connection error.") in
  let p := provider "groq" in
  class p <> AIProviderClass /\
  client p = Some (Groq "") /\
  @generate default_config rt "Hello" None {| self := p; world := 0%nat |}
  = (Raise (Exception "Groq API error: Connection error."),
     {| self := p; world := 1%nat |}).
Proof.
  intros rt p. split; [discriminate|]. split; [reflexivity|].
  apply (@generate_wraps_provider_failure default_config rt p (Groq "")
           "Hello" None 0%nat 0%nat 1%nat (nearest_quotient 0 1)
           (APIError "Connection error."));
    [discriminate|reflexivity|reflexivity|reflexivity].
Defined.

(** ** Content statistics *)

Lemma total_length_from (words : list string) (acc : Z) :
  List.fold_left (fun acc word => acc + len word) words acc
  = acc + total_length words.
Proof.
  unfold total_length. revert acc.
  induction words as [|w words IH]; intros acc; simpl; [lia|].
  rewrite IH, (IH (len w)). lia.
Qed.

Lemma total_length_cons (w : string) (words : list string) :
  total_length (w :: words) = len w + total_length words.
Proof. unfold total_length at 1. simpl. apply total_length_from. Qed.

Lemma total_length_nonneg (words : list string) : 0 <= total_length words.
Proof.
  induction words as [|w words IH]; [reflexivity|].
  rewrite total_length_cons. unfold len. lia.
Qed.

Lemma len_app (a b : string) : len (a ++ b) = len a + len b.
Proof. unfold len. rewrite append_length. lia. Qed.

(** The words of a text are no longer, together, than the text. *)
Lemma split_ws_from_total (cur s : string) :
  total_length (split_ws_from cur s) <= len cur + len s.
Proof.
  revert cur; induction s as [|c s IH]; intros cur.
  - destruct cur; simpl.
    + reflexivity.
    + rewrite total_length_cons. change (total_length []) with 0. lia.
  - cbn [split_ws_from]. change (len (String c s)) with (Z.of_nat (S (String.length s))).
    assert (L : len s = Z.of_nat (String.length s)) by reflexivity.
    destruct (isspace c).
    + destruct cur.
      * specialize (IH ""). change (len "") with 0 in *. lia.
      * rewrite total_length_cons. specialize (IH "").
        change (len "") with 0 in IH. lia.
    + specialize (IH (cur ++ String c "")). rewrite len_app in IH.
      change (len (String c "")) with 1 in IH. lia.
Qed.

(** C10.  For every string (a Python string has [sys.maxsize] characters
    at most), [get_content_stats] returns its dictionary of four statistics
    and raises nothing; for a string without words the average word length
    is the integer [0]. *)
Theorem get_content_stats_total (content : string) :
  len content <= sys_maxsize ->
  exists avg_word_length,
    get_content_stats content
    = Ok (pydict
            [ ("character_count", VInt (len content));
              ("word_count", VInt (Z.of_nat (List.length (split_ws content))));
              ("sentence_count",
                VInt (Z.of_nat (List.length
                  (List.filter (fun s => nonempty (strip s))
                               (split "." content)))));
              ("avg_word_length", avg_word_length) ]) /\
    (split_ws content = [] -> avg_word_length = VInt 0).
Proof.
  intros Max. unfold get_content_stats.
  pose proof (split_ws_from_total "" content) as Sum.
  change (split_ws_from "" content) with (split_ws content) in Sum.
  change (len "") with 0 in Sum.
  pose proof (total_length_nonneg (split_ws content)) as Pos.
  destruct (split_ws content) as [|w words] eqn:W.
  - eexists. split; [reflexivity|reflexivity].
  - unfold int_truediv.
    set (n := Z.of_nat (List.length (w :: words))).
    assert (N : 1 <= n) by (subst n; simpl List.length; lia).
    destruct (n =? 0) eqn:Z0; [apply Z.eqb_eq in Z0; lia|].
    rewrite (Z.abs_eq n) by lia.
    rewrite (Z.abs_eq (total_length (w :: words))) by assumption.
    assert (B : sys_maxsize < 2 ^ 1024 - 2 ^ 970) by reflexivity.
    revert B. generalize (2 ^ 1024 - 2 ^ 970). intros K B.
    destruct (K * n <=? total_length (w :: words)) eqn:Ov;
      [apply Z.leb_le in Ov; nia|].
    eexists. split; [reflexivity|discriminate].
Qed.

(** The theorem on a text of white space only. *)
Lemma get_content_stats_total_witness :
  len "  " <= sys_maxsize /\
  split_ws "  " = [] /\
  get_content_stats "  "
  = Ok (pydict [ ("character_count", VInt 2); ("word_count", VInt 0);
                 ("sentence_count", VInt 0); ("avg_word_length", VInt 0) ]).
Proof.
  split; [discriminate|]. split; [reflexivity|].
  destruct (get_content_stats_total "  ") as (avg & Run & Zero);
    [discriminate|].
  rewrite Run, (Zero eq_refl). reflexivity.
Defined.

(* ================================================================== *)
(** * Further properties                                                *)
(* ================================================================== *)

(** ** Start-up: configuration and the set of providers *)

Module StartupFacts.
Import Py Settings AIProviders Startup Scenario.

(** X1.  When both API keys are set, [validate_config] returns [True].
    When one is not, it raises [ValueError]; the message starts with
    [Configuration errors: ] and then names a key exactly when that key is
    not set. *)
Theorem validate_config_reports_unset_keys {cfg : Config} :
  (OPENAI_API_KEY <> "" /\ GROQ_API_KEY <> "" /\
   validate_config = Ok true) \/
  ((OPENAI_API_KEY = "" \/ GROQ_API_KEY = "") /\
   exists msg,
     validate_config = Raise (ValueError ("Configuration errors: " ++ msg)) /\
     (contains "OPENAI_API_KEY" msg = true <-> OPENAI_API_KEY = "") /\
     (contains "GROQ_API_KEY" msg = true <-> GROQ_API_KEY = "")).
Proof.
  unfold validate_config.
  destruct OPENAI_API_KEY as [|a o]; destruct GROQ_API_KEY as [|b g];
    cbn [is_empty app].
  - right. split; [now left|]. eexists. split; [reflexivity|].
    split; split; reflexivity.
  - right. split; [now left|]. eexists. split; [reflexivity|].
    split; split; try reflexivity; discriminate.
  - right. split; [now right|]. eexists. split; [reflexivity|].
    split; split; try reflexivity; discriminate.
  - left. repeat split; discriminate.
Qed.

(** With no key set, as in the default settings, both are named. *)
Example validate_config_without_keys :
  @validate_config default_config
  = Raise (ValueError
             "Configuration errors: OPENAI_API_KEY is not set, GROQ_API_KEY is not set").
Proof. reflexivity. Qed.

(** X2.  [get_all_providers] and [get_provider] agree: each entry of the
    dictionary is the provider [get_provider] builds for its key with no
    model given, an entry's [provider_name] is its key, and every provider
    [get_provider] builds with no model given is the entry under the
    lower-case form of the name asked for. *)
Theorem get_all_providers_agrees_with_get_provider {cfg : Config} :
  (forall name p,
     getitem get_all_providers name = Ok p ->
     get_provider name None = Ok p /\ provider_name p = name) /\
  (forall name p,
     get_provider name None = Ok p ->
     getitem get_all_providers (lower name) = Ok p).
Proof.
  split.
  - intros name p. unfold get_all_providers. cbn [getitem].
    destruct (String.eqb "openai" name) eqn:O.
    + apply String.eqb_eq in O. subst name. intros [= <-].
      split; reflexivity.
    + destruct (String.eqb "groq" name) eqn:G; [|discriminate].
      apply String.eqb_eq in G. subst name. intros [= <-].
      split; reflexivity.
  - intros name p. unfold get_provider, get_all_providers. cbn [getitem].
    destruct (String.eqb (lower name) "openai") eqn:O.
    + apply String.eqb_eq in O. rewrite O. intros [= <-]. reflexivity.
    + destruct (String.eqb (lower name) "groq") eqn:G; [|discriminate].
      apply String.eqb_eq in G. rewrite G. intros [= <-]. reflexivity.
Qed.

End StartupFacts.

(** ** Providers: cost and [generate] *)

Module ProviderMoreFacts.
Import Py Settings AIProviders Spec Scenario ProviderFacts Statements.

Local Arguments String.eqb : simpl never.

(** X3.  [calculate_cost] raises nothing but [OverflowError]: a missing
    provider, model or price is answered with [0.0], and the divisor is
    never zero. *)
Theorem calculate_cost_raises_only_overflow (self : AIProvider)
  (input_tokens output_tokens : Z) (e : exn) :
  calculate_cost self input_tokens output_tokens = Raise e ->
  e = OverflowError "integer division result too large for a float".
Proof.
  unfold calculate_cost, try_except.
  destruct (getitem PRICING (provider_name self)) as [models|e1] eqn:E1;
    cbn [bind].
  2:{ apply getitem_raises in E1 as ->. discriminate. }
  destruct (getitem models (model self)) as [pricing|e2] eqn:E2; cbn [bind].
  2:{ apply getitem_raises in E2 as ->. discriminate. }
  unfold int_truediv at 1. change (1000000 =? 0) with false. cbv iota.
  destruct (_ <=? Z.abs input_tokens); cbn [bind is_KeyError].
  { now intros [= <-]. }
  destruct (getitem pricing "input") as [pin|e3] eqn:E3; cbn [bind].
  2:{ apply getitem_raises in E3 as ->. discriminate. }
  unfold int_truediv at 1. change (1000000 =? 0) with false. cbv iota.
  destruct (_ <=? Z.abs output_tokens); cbn [bind is_KeyError].
  { now intros [= <-]. }
  destruct (getitem pricing "output") as [pout|e4] eqn:E4; cbn [bind].
  2:{ apply getitem_raises in E4 as ->. discriminate. }
  discriminate.
Qed.

(** The theorem at 10^320 input tokens of [gpt-4]. *)
Lemma calculate_cost_raises_only_overflow_witness :
  exists e,
    calculate_cost (AIProvider_init "openai" "gpt-4") (10 ^ 320) 0 = Raise e /\
    e = OverflowError "integer division result too large for a float".
Proof.
  destruct (calculate_cost (AIProvider_init "openai" "gpt-4") (10 ^ 320) 0)
    as [c|e] eqn:E; [now vm_compute in E|].
  exists e. split; [reflexivity|].
  exact (calculate_cost_raises_only_overflow _ _ _ _ E).
Defined.

(** X4.  No tokens cost nothing: for every provider and model, priced or
    not, [calculate_cost] of zero input and zero output tokens is [0.0]. *)
Theorem calculate_cost_of_no_tokens (self : AIProvider) :
  calculate_cost self 0 0 = Ok fzero.
Proof.
  unfold calculate_cost, PRICING. cbn [getitem].
  destruct (String.eqb "openai" (provider_name self)); cbn [bind getitem].
  - destruct (String.eqb "gpt-3.5-turbo" (model self)); [reflexivity|].
    destruct (String.eqb "gpt-4" (model self)); [reflexivity|].
    destruct (String.eqb "gpt-4-turbo" (model self)); reflexivity.
  - destruct (String.eqb "groq" (provider_name self)); cbn [bind getitem];
      [|reflexivity].
    destruct (String.eqb "llama-3.1-70b-versatile" (model self));
      [reflexivity|].
    destruct (String.eqb "llama-3.1-8b-instant" (model self)); [reflexivity|].
    destruct (String.eqb "mixtral-8x7b-32768" (model self)); reflexivity.
Qed.

Local Arguments calculate_cost : simpl never.
Local Arguments index : simpl never.
Local Arguments pydict : simpl never.

Section Generate.
Context {cfg : Config} {rt : Runtime}.

(** The setters of the cached metrics do not touch what the cost depends
    on. *)
Lemma calculate_cost_after_setters (p : AIProvider) (v : PyVal) (n i o : Z) :
  calculate_cost (set_token_usage n (set_response_time v p)) i o
  = calculate_cost p i o.
Proof. reflexivity. Qed.

Ltac run_generate :=
  unfold generate, OpenAIProvider_generate, GroqProvider_generate,
    mbind, mtry, get_self, now, create, on_self, modify, lift, ret, raise;
  cbn [self world snd fst].

Ltac red_state := cbv beta iota; cbn [self world snd fst is_Exception].

(** X5.  Whatever its outcome, [generate] leaves the class, the name, the
    model and the client of the provider as they were: only the cached
    response time, token usage and cost may change. *)
Theorem generate_keeps_identity (prompt : string)
  (system_prompt : option string) (st : State) :
  same_identity (self st) (self (snd (generate prompt system_prompt st))).
Proof.
  destruct st as [p w]. unfold same_identity. run_generate.
  destruct (class p) eqn:Cl; red_state; [auto| |];
    (destruct (time_time w) as [t0 w1]; red_state;
     destruct (client p) as [c|] eqn:K; red_state; [|auto];
     destruct (chat_completions_create c _ w1) as [[resp|e] w2];
       red_state; [|auto];
     destruct (time_time w2) as [t1 w3]; red_state;
     rewrite calculate_cost_after_setters;
     destruct (calculate_cost p _ _) as [c0|e]; red_state;
       [|repeat split; assumption || reflexivity];
     destruct (index (choices resp) 0) as [first|e]; red_state;
       repeat split; assumption || reflexivity).
Qed.

(** X6.  When the service answers and the cost can be computed, [generate]
    returns the text of the first choice with the metrics of the call, and
    caches on the provider the same response time, token usage and cost as
    the metrics show: the time between the two readings of the clock, the
    total of the usage, and [calculate_cost] of its prompt and completion
    tokens. *)
Theorem generate_returns_first_choice (p : AIProvider) (c : Client)
  (prompt : string) (system_prompt : option string)
  (w w1 w2 w3 : World) (t0 t1 : float) (response : ChatCompletion)
  (first : Choice) (others : list Choice) (dollars : float) :
  class p <> AIProviderClass ->
  client p = Some c ->
  time_time w = (t0, w1) ->
  chat_completions_create c
    {| req_model := model p;
       req_messages := build_messages prompt system_prompt;
       req_max_tokens := MAX_TOKENS;
       req_temperature := TEMPERATURE |} w1 = (Ok response, w2) ->
  time_time w2 = (t1, w3) ->
  choices response = first :: others ->
  calculate_cost p (prompt_tokens (usage response))
    (completion_tokens (usage response)) = Ok dollars ->
  exists metrics p',
    generate prompt system_prompt {| self := p; world := w |}
    = (Ok (message_content first, metrics), {| self := p'; world := w3 |}) /\
    response_time p' = VFloat (fsub t1 t0) /\
    token_usage p' = total_tokens (usage response) /\
    cost p' = VFloat dollars /\
    pyget metrics "provider" = Some (vstr (provider_name p)) /\
    pyget metrics "model" = Some (vstr (model p)) /\
    pyget metrics "response_time" = Some (response_time p') /\
    pyget metrics "token_usage" = Some (VInt (token_usage p')) /\
    pyget metrics "input_tokens"
    = Some (VInt (prompt_tokens (usage response))) /\
    pyget metrics "output_tokens"
    = Some (VInt (completion_tokens (usage response))) /\
    pyget metrics "cost" = Some (cost p') /\
    pyget metrics "finish_reason" = Some (vstr (finish_reason first)).
Proof.
  intros Cl K T0 Call T1 Ch Cost. run_generate.
  destruct (class p) eqn:Cl'; [congruence| |];
    (red_state; rewrite T0; red_state; rewrite K;
     red_state; rewrite Call; red_state; rewrite T1;
     red_state; rewrite calculate_cost_after_setters, Cost;
     red_state; rewrite Ch;
     change (index (first :: others) 0) with (Ok first);
     red_state;
     eexists _, _; split; [reflexivity|];
     repeat split; reflexivity).
Qed.

(** X7.  When the service answers with no choice at all, [generate] raises
    the wrapped [IndexError], and the provider keeps the response time,
    token usage and cost of the failed call. *)
Theorem generate_fails_without_choices (p : AIProvider) (c : Client)
  (prompt : string) (system_prompt : option string)
  (w w1 w2 w3 : World) (t0 t1 : float) (response : ChatCompletion)
  (dollars : float) :
  class p <> AIProviderClass ->
  client p = Some c ->
  time_time w = (t0, w1) ->
  chat_completions_create c
    {| req_model := model p;
       req_messages := build_messages prompt system_prompt;
       req_max_tokens := MAX_TOKENS;
       req_temperature := TEMPERATURE |} w1 = (Ok response, w2) ->
  time_time w2 = (t1, w3) ->
  choices response = [] ->
  calculate_cost p (prompt_tokens (usage response))
    (completion_tokens (usage response)) = Ok dollars ->
  generate prompt system_prompt {| self := p; world := w |}
  = (Raise (Exception (error_label (class p)
                         ++ " API error: list index out of range")),
     {| self := set_cost (VFloat dollars)
                  (set_token_usage (total_tokens (usage response))
                     (set_response_time (VFloat (fsub t1 t0)) p));
        world := w3 |}).
Proof.
  intros Cl K T0 Call T1 Ch Cost. run_generate.
  destruct (class p) eqn:Cl'; [congruence| |];
    (red_state; rewrite T0; red_state; rewrite K;
     red_state; rewrite Call; red_state; rewrite T1;
     red_state; rewrite calculate_cost_after_setters, Cost;
     red_state; rewrite Ch;
     change (@index Choice [] 0)
       with (@Raise Choice (IndexError "list index out of range"));
     reflexivity).
Qed.

End Generate.

(** A service that answers with no choice. *)
Lemma generate_fails_without_choices_witness :
  let rt : Runtime := {|
    World := nat;
    time_time := fun w => (nearest_quotient (Z.of_nat w) 1, w);
    chat_completions_create := fun _ _ w =>
      (Ok {| usage := {| prompt_tokens := 120; completion_tokens := 0;
                         total_tokens := 120 |};
             choices := [] |}, S w) |} in
  let p := provider "openai" in
  exists p',
    @generate default_config rt "Hello" None {| self := p; world := 0%nat |}
    = (Raise (Exception "OpenAI API error: list index out of range"),
       {| self := p'; world := 1%nat |}) /\
    token_usage p' = 120 /\ token_usage p = 0.
Proof.
  intros rt p. eexists. split.
  - eapply (@generate_fails_without_choices default_config rt p (OpenAI "")
              "Hello" None 0%nat 0%nat 1%nat 1%nat);
      try reflexivity.
    discriminate.
  - split; reflexivity.
Defined.

(** The answering service of the scenarios. *)
Lemma generate_returns_first_choice_witness :
  let rt := answering "{}" in
  let p := provider "groq" in
  exists metrics p',
    @generate default_config rt "Hello" (Some "Be brief.")
      {| self := p; world := 0%nat |}
    = (Ok ("{}", metrics), {| self := p'; world := 1%nat |}) /\
    token_usage p' = 200 /\
    pyget metrics "token_usage" = Some (VInt 200) /\
    pyget metrics "cost" = Some (cost p').
Proof.
  intros rt p.
  destruct (@generate_returns_first_choice default_config rt p (Groq "")
              "Hello" (Some "Be brief.") 0%nat 0%nat 1%nat 1%nat
              (nearest_quotient 0 1) (nearest_quotient 1 1)
              {| usage := {| prompt_tokens := 120; completion_tokens := 80;
                             total_tokens := 200 |};
                 choices := [ {| message_content := "{}";
                                 finish_reason := "stop" |} ] |}
              {| message_content := "{}"; finish_reason := "stop" |} []
              (fadd (fmul (nearest_quotient 120 1000000) (decimal 59 (-2)))
                    (fmul (nearest_quotient 80 1000000) (decimal 79 (-2)))))
    as (metrics & p' & Run & _ & Tok & _ & _ & _ & _ & MTok & _ & _ & MCost & _);
    try reflexivity; [discriminate|].
  exists metrics, p'. repeat split; try assumption.
  rewrite MTok, Tok. reflexivity.
Defined.

End ProviderMoreFacts.

(** ** The generator: replies, failures, fences *)

Module GeneratorMoreFacts.
Import Py Settings AIProviders Generator Spec Scenario Statements.
Import PyFacts FenceFacts.

(** *** Dictionaries *)

Lemma unicode_eqb_true (a b : unicode) : unicode_eqb a b = true <-> a = b.
Proof.
  unfold unicode_eqb. destruct (list_eq_dec N.eq_dec a b); split;
    congruence.
Qed.

Lemma dict_get_set_same {V} (d : list (unicode * V)) (k : unicode) (v : V) :
  dict_get (dict_set d k v) k = Some v.
Proof.
  induction d as [|[k' v'] d IH]; simpl.
  - now rewrite (proj2 (unicode_eqb_true k k) eq_refl).
  - destruct (unicode_eqb k' k) eqn:E; simpl; now rewrite E.
Qed.

Lemma dict_get_set_other {V} (d : list (unicode * V)) (k u : unicode) (v : V) :
  u <> k -> dict_get (dict_set d k v) u = dict_get d u.
Proof.
  intros N. induction d as [|[k' v'] d IH]; simpl.
  - destruct (unicode_eqb k u) eqn:E; [|reflexivity].
    apply unicode_eqb_true in E. congruence.
  - destruct (unicode_eqb k' k) eqn:E; simpl.
    + apply unicode_eqb_true in E. subst k'.
      destruct (unicode_eqb k u) eqn:E'; [|reflexivity].
      apply unicode_eqb_true in E'. congruence.
    + now rewrite IH.
Qed.

(** [d[k] = v] keeps the keys of [d] in their places. *)
Lemma dict_set_keys {V} (d : list (unicode * V)) (k : unicode) (v : V) :
  List.map fst (dict_set d k v)
  = match dict_get d k with
    | Some _ => List.map fst d
    | None => (List.map fst d ++ [k])%list
    end.
Proof.
  induction d as [|[k' v'] d IH]; simpl; [reflexivity|].
  destruct (unicode_eqb k' k) eqn:E; simpl; [reflexivity|].
  rewrite IH. now destruct (dict_get d k).
Qed.

(** *** The four operations *)

Section Operations.
Context {cfg : Config} {rt : Runtime} {lim : Json.Limits}.

Lemma summary_length_hint_value (length : string) :
  summary_length_hint length = Ok (length_hint length).
Proof.
  unfold summary_length_hint, length_hint.
  change (getitem length_guide "medium")
    with (@Ok string "1 paragraph (5-7 sentences)").
  unfold length_guide. cbn [bind get_default].
  rewrite (String.eqb_sym length "short"), (String.eqb_sym length "long").
  destruct (String.eqb "short" length) eqn:S; [reflexivity|].
  destruct (String.eqb "medium" length) eqn:M; [|reflexivity].
  apply String.eqb_eq in M. subst length. reflexivity.
Qed.

(** The steps after the provider's reply, which the operations share. *)
Ltac after_reply :=
  cbn [fst snd]; unfold mtry, mbind, lift, ret;
  let E := fresh "E" in
  destruct (_extract_json _) as [result|e] eqn:E;
  [ let E' := fresh "E" in
    destruct (setitem result "metrics" _) as [result'|e] eqn:E';
    [ reflexivity
    | destruct result; simpl in E'; try discriminate;
      injection E' as <-; reflexivity ]
  | reflexivity ].

(** Every operation asks the provider once and hands the reply to the
    same three steps. *)
Lemma run_unfold (m : Material) (content : string) (st : State) :
  run m content st =
  match generate (prompt_of m content) (Some (system_prompt_of m)) st with
  | (Raise e, st1) => (Raise e, st1)
  | (Ok (response, metrics), st1) =>
      match _extract_json response with
      | Ok result =>
          match setitem result "metrics" metrics with
          | Ok result' => (Ok result', st1)
          | Raise e => (Raise e, st1)
          end
      | Raise e =>
          if is_JSONDecodeError e
          then (Ok (fallback_of m e metrics response), st1)
          else (Raise e, st1)
      end
  end.
Proof.
  destruct m as [count|count|length|];
    unfold run, prompt_of, system_prompt_of, fallback_of.
  - unfold generate_flashcards, mbind at 1.
    destruct (generate _ _ st) as [[[response metrics]|e] st1];
      [|reflexivity].
    after_reply.
  - unfold generate_quiz, mbind at 1.
    destruct (generate _ _ st) as [[[response metrics]|e] st1];
      [|reflexivity].
    after_reply.
  - unfold generate_summary, mbind at 1, lift at 1.
    rewrite summary_length_hint_value. unfold mbind at 1.
    destruct (generate _ _ st) as [[[response metrics]|e] st1];
      [|reflexivity].
    after_reply.
  - unfold generate_study_guide, mbind at 1.
    destruct (generate _ _ st) as [[[response metrics]|e] st1];
      [|reflexivity].
    after_reply.
Qed.

(** X8.  A failure of the provider passes through each of
    [generate_flashcards], [generate_quiz], [generate_summary] and
    [generate_study_guide] as it is: the same exception, and the state the
    provider left. *)
Theorem provider_failure_propagates (m : Material) (content : string)
  (st st1 : State) (e : exn) :
  generate (prompt_of m content) (Some (system_prompt_of m)) st
  = (Raise e, st1) ->
  run m content st = (Raise e, st1).
Proof. intros G. now rewrite run_unfold, G. Qed.

(** X9.  When the reply parses to a JSON object, each operation returns
    that object with the metrics under ['metrics']: every other field of
    the reply is kept with its value, a ['metrics'] field of the reply
    itself is replaced, and the fields keep their order, ['metrics'] going
    last when it is new. *)
Theorem parsed_reply_gets_metrics (m : Material) (content : string)
  (st st1 : State) (response : string) (metrics : PyVal)
  (d : list (unicode * PyVal)) :
  generate (prompt_of m content) (Some (system_prompt_of m)) st
  = (Ok (response, metrics), st1) ->
  _extract_json response = Ok (VDict d) ->
  exists d',
    run m content st = (Ok (VDict d'), st1) /\
    dict_get d' (codes "metrics") = Some metrics /\
    (forall k, k <> codes "metrics" -> dict_get d' k = dict_get d k) /\
    List.map fst d'
    = match dict_get d (codes "metrics") with
      | Some _ => List.map fst d
      | None => (List.map fst d ++ [codes "metrics"])%list
      end.
Proof.
  intros G E. rewrite run_unfold, G, E. cbn [setitem].
  eexists. split; [reflexivity|]. split; [apply dict_get_set_same|].
  split; [intros k N; now apply dict_get_set_other|apply dict_set_keys].
Qed.

(** X10.  When the decoder raises [JSONDecodeError] on the reply, each
    operation returns the dictionary of its own [except] clause and raises
    nothing; the dictionary holds the metrics of the call under
    ['metrics'] and the reply, unchanged, under ['raw_response']. *)
Theorem unparsed_reply_gives_fallback (m : Material) (content : string)
  (st st1 : State) (response : string) (metrics : PyVal) (e : exn) :
  generate (prompt_of m content) (Some (system_prompt_of m)) st
  = (Ok (response, metrics), st1) ->
  _extract_json response = Raise e ->
  is_JSONDecodeError e = true ->
  run m content st = (Ok (fallback_of m e metrics response), st1) /\
  pyget (fallback_of m e metrics response) "metrics" = Some metrics /\
  pyget (fallback_of m e metrics response) "raw_response"
  = Some (vstr response).
Proof.
  intros G E J. rewrite run_unfold, G, E, J.
  split; [reflexivity|]. destruct m; split; reflexivity.
Qed.

(** X23.  Whatever else the decoder raises on the reply ([RecursionError]
    for nesting too deep, [ValueError] for an integer too long) comes out
    of each operation as it is: the [except] clause takes
    [JSONDecodeError] only. *)
Theorem other_decoder_errors_propagate (m : Material) (content : string)
  (st st1 : State) (response : string) (metrics : PyVal) (e : exn) :
  generate (prompt_of m content) (Some (system_prompt_of m)) st
  = (Ok (response, metrics), st1) ->
  _extract_json response = Raise e ->
  is_JSONDecodeError e = false ->
  run m content st = (Raise e, st1).
Proof. intros G E J. now rewrite run_unfold, G, E, J. Qed.

(** X11.  When the reply parses to JSON that is not an object (a number, a
    string, a list, [true], [null]), each operation raises [TypeError]:
    the [except] clause takes [JSONDecodeError] only. *)
Theorem non_object_reply_raises (m : Material) (content : string)
  (st st1 : State) (response : string) (metrics : PyVal) (v : PyVal) :
  generate (prompt_of m content) (Some (system_prompt_of m)) st
  = (Ok (response, metrics), st1) ->
  _extract_json response = Ok v ->
  not_a_dict v = true ->
  exists msg, run m content st = (Raise (TypeError msg), st1).
Proof.
  intros G E N. rewrite run_unfold, G, E.
  destruct v; try discriminate; cbn [setitem]; eexists; reflexivity.
Qed.

End Operations.

(** X8 where the service refuses the connection, for a quiz. *)
Lemma provider_failure_propagates_witness :
  let rt := failing (APIError "Connection error.") in
  let st := start rt 0%nat "openai" in
  let st1 : @State rt := {| self := provider "openai"; world := 1%nat |} in
  let e := Exception "OpenAI API error: Connection error." in
  @generate default_config rt (prompt_of (Quiz 5) "Cells divide.")
    (Some (system_prompt_of (Quiz 5))) st = (Raise e, st1) /\
  @run default_config rt Json.default_limits (Quiz 5) "Cells divide." st = (Raise e, st1).
Proof.
  intros rt st st1 e.
  assert (G : @generate default_config rt (prompt_of (Quiz 5) "Cells divide.")
                (Some (system_prompt_of (Quiz 5))) st = (Raise e, st1))
    by reflexivity.
  split; [exact G|].
  exact (@provider_failure_propagates default_config rt Json.default_limits (Quiz 5)
           "Cells divide." st st1 e G).
Defined.

(** X9 where the service answers with an object that has a ['metrics']
    field of its own, for a summary. *)
Lemma parsed_reply_gets_metrics_witness :
  let reply := "{" ++ q "metrics" ++ ": 1, " ++ q "summary" ++ ": "
               ++ q "Cells divide." ++ "}" in
  let rt := answering reply in
  let st := start rt 0%nat "groq" in
  exists metrics st1 d',
    @generate default_config rt (prompt_of (Summary "short") "Cells divide.")
      (Some (system_prompt_of (Summary "short"))) st
    = (Ok (reply, metrics), st1) /\
    @run default_config rt Json.default_limits (Summary "short") "Cells divide." st
    = (Ok (VDict d'), st1) /\
    dict_get d' (codes "metrics") = Some metrics /\
    dict_get d' (codes "summary") = Some (vstr "Cells divide.") /\
    List.map fst d' = [codes "metrics"; codes "summary"].
Proof.
  intros reply rt st.
  eassert (G : @generate default_config rt
                 (prompt_of (Summary "short") "Cells divide.")
                 (Some (system_prompt_of (Summary "short"))) st
               = (Ok (reply, _), _)) by reflexivity.
  destruct (@parsed_reply_gets_metrics default_config rt Json.default_limits (Summary "short")
              "Cells divide." st _ reply _
              [(codes "metrics", VInt 1);
               (codes "summary", vstr "Cells divide.")] G eq_refl)
    as (d' & Run & Met & Others & Keys).
  eexists _, _, d'. split; [exact G|]. split; [exact Run|].
  split; [exact Met|]. split; [|exact Keys].
  rewrite Others; [reflexivity|discriminate].
Defined.

(** X10 where the service answers with prose, for a summary. *)
Lemma unparsed_reply_gives_fallback_witness :
  let reply := "Sorry, I cannot help with that." in
  let rt := answering reply in
  let st := start rt 0%nat "groq" in
  let e := JSONDecodeError "Expecting value" 1 1 0 in
  exists metrics st1,
    @generate default_config rt (prompt_of (Summary "long") "Cells divide.")
      (Some (system_prompt_of (Summary "long"))) st
    = (Ok (reply, metrics), st1) /\
    _extract_json reply = Raise e /\
    is_JSONDecodeError e = true /\
    @run default_config rt Json.default_limits (Summary "long")
      "Cells divide." st
    = (Ok (summary_fallback e metrics reply), st1).
Proof.
  intros reply rt st e.
  eassert (G : @generate default_config rt
                 (prompt_of (Summary "long") "Cells divide.")
                 (Some (system_prompt_of (Summary "long"))) st
               = (Ok (reply, _), _)) by reflexivity.
  eexists _, _. split; [exact G|]. split; [reflexivity|].
  split; [reflexivity|].
  exact (proj1 (@unparsed_reply_gives_fallback default_config rt
                  Json.default_limits (Summary "long") "Cells divide."
                  st _ reply _ e G eq_refl eq_refl)).
Defined.

(** X23 where the service answers with an object whose one member is an
    integer of 4301 digits, for a study guide. *)
Lemma other_decoder_errors_propagate_witness :
  let reply := "{" ++ q "n" ++ ": " ++ repeated 4301 "7" ++ "}" in
  let rt := answering reply in
  let st := start rt 0%nat "openai" in
  let e := ValueError
             "Exceeds the limit (4300 digits) for integer string conversion: value has 4301 digits; use sys.set_int_max_str_digits() to increase the limit" in
  exists metrics st1,
    @generate default_config rt (prompt_of StudyGuide "Cells divide.")
      (Some (system_prompt_of StudyGuide)) st
    = (Ok (reply, metrics), st1) /\
    _extract_json reply = Raise e /\
    is_JSONDecodeError e = false /\
    @run default_config rt Json.default_limits StudyGuide "Cells divide." st
    = (Raise e, st1).
Proof.
  intros reply rt st e.
  eassert (G : @generate default_config rt
                 (prompt_of StudyGuide "Cells divide.")
                 (Some (system_prompt_of StudyGuide)) st
               = (Ok (reply, _), _)) by reflexivity.
  assert (E : _extract_json reply = Raise e) by (vm_compute; reflexivity).
  eexists _, _. split; [exact G|]. split; [exact E|].
  split; [reflexivity|].
  exact (@other_decoder_errors_propagate default_config rt
           Json.default_limits StudyGuide "Cells divide." st _ reply _ e
           G E eq_refl).
Defined.

(** X11 where the service answers with a list, for flashcards. *)
Lemma non_object_reply_raises_witness :
  let reply := "[1, 2]" in
  let rt := answering reply in
  let st := start rt 0%nat "openai" in
  exists metrics st1 msg,
    @generate default_config rt (prompt_of (Flashcards 5) "Cells divide.")
      (Some (system_prompt_of (Flashcards 5))) st
    = (Ok (reply, metrics), st1) /\
    _extract_json reply = Ok (VList [VInt 1; VInt 2]) /\
    @run default_config rt Json.default_limits (Flashcards 5) "Cells divide." st
    = (Raise (TypeError msg), st1).
Proof.
  intros reply rt st.
  eassert (G : @generate default_config rt
                 (prompt_of (Flashcards 5) "Cells divide.")
                 (Some (system_prompt_of (Flashcards 5))) st
               = (Ok (reply, _), _)) by reflexivity.
  destruct (@non_object_reply_raises default_config rt Json.default_limits (Flashcards 5)
              "Cells divide." st _ reply _ (VList [VInt 1; VInt 2])
              G eq_refl eq_refl) as [msg Run].
  eexists _, _, msg. split; [exact G|]. split; [reflexivity|exact Run].
Defined.

End GeneratorMoreFacts.

(** ** Fences: what surrounds the block *)

Module FenceMoreFacts.
Import Py Generator Spec Statements PyFacts FenceFacts.

Local Arguments Ascii.eqb : simpl never.

(** *** Cutting past a text that cannot start the separator *)

Lemma startswith_lacking (c0 : ascii) (sep0 : string) (b : ascii)
  (x y : string) :
  lacks c0 (String b x) = true ->
  startswith (String b x ++ y) (String c0 sep0) = false.
Proof.
  cbn [lacks append startswith]. intros H.
  apply andb_prop in H as [H _]. apply negb_true_iff in H. now rewrite H.
Qed.

Lemma partition_past (c0 : ascii) (sep0 x y : string) :
  lacks c0 x = true ->
  partition (String c0 sep0) (x ++ y)
  = match partition (String c0 sep0) y with
    | Some (a, b) => Some (x ++ a, b)
    | None => None
    end.
Proof.
  induction x as [|b x IH]; intros L.
  - cbn [append]. now destruct (partition _ y) as [[a b]|].
  - change (String b x ++ y) with (String b (x ++ y)).
    rewrite partition_cons.
    change (String b (x ++ y)) with (String b x ++ y).
    rewrite (startswith_lacking _ _ _ _ _ L).
    cbn [lacks] in L. apply andb_prop in L as [_ L]. rewrite (IH L).
    now destruct (partition _ y) as [[a b']|].
Qed.

Lemma up_to_past (c0 : ascii) (sep0 x y : string) :
  lacks c0 x = true ->
  up_to (String c0 sep0) (x ++ y) = x ++ up_to (String c0 sep0) y.
Proof.
  intros L. unfold up_to. rewrite (partition_past _ _ _ _ L).
  now destruct (partition _ y) as [[a b]|].
Qed.

Lemma partition_at_start (sep rest : string) :
  partition sep (sep ++ rest) = Some ("", rest).
Proof.
  destruct sep as [|c sep]; [now destruct rest|].
  change (String c sep ++ rest) with (String c (sep ++ rest)).
  rewrite partition_cons.
  change (String c (sep ++ rest)) with (String c sep ++ rest).
  rewrite startswith_app. f_equal. f_equal.
  clear. induction (String c sep) as [|a s IH]; [reflexivity|exact IH].
Qed.

(** X12.  What stands before and after the fenced block does not count:
    for a block [```json body ```] with no backquote in [body], after a
    text without backquotes and before any text that does not begin with
    one, [_extract_json] gives what parsing [body], trimmed, gives. *)
Theorem text_around_the_block_is_ignored {lim : Json.Limits}
  (before body after : string) :
  lacks "`" before = true ->
  lacks "`" body = true ->
  startswith after "`" = false ->
  _extract_json (before ++ "```json" ++ body ++ "```" ++ after)
  = Json.loads (strip body).
Proof.
  intros Lb Lc La. rewrite extract_json_candidate. do 2 f_equal.
  unfold candidate_by_split.
  rewrite (partition_past _ _ _ _ Lb), partition_at_start.
  rewrite (up_to_past _ _ body _ Lc).
  rewrite (up_to_past _ _ body _ Lc).
  assert (Z : up_to "```" (up_to "```json" ("```" ++ after)) = "").
  { destruct (startswith ("```" ++ after) "```json") eqn:J.
    - change ("```" ++ after) with (String "`" ("``" ++ after)).
      rewrite up_to_cons.
      change (String "`" ("``" ++ after)) with ("```" ++ after).
      rewrite J. reflexivity.
    - assert (E : up_to "```json" ("```" ++ after)
                  = "```" ++ up_to "```json" after).
      { destruct after as [|c after'].
        - reflexivity.
        - cbn [startswith] in La. rewrite andb_true_r in La.
          change ("```" ++ String c after')
            with (String "`" (String "`" (String "`" (String c after')))).
          change ("```" ++ String c after')
            with (String "`" (String "`" (String "`" (String c after'))))
            in J.
          cbn [startswith] in J. rewrite !Ascii.eqb_refl in J.
          cbn [andb] in J.
          rewrite !(up_to_cons "```json" "`").
          cbn [startswith]. rewrite !Ascii.eqb_refl, La. cbn [andb].
          rewrite J. reflexivity. }
      rewrite E.
      change ("```" ++ up_to "```json" after)
        with (String "`" ("``" ++ up_to "```json" after)).
      rewrite up_to_cons. cbn [startswith append].
      rewrite !Ascii.eqb_refl. reflexivity. }
  rewrite Z. apply append_empty_r.
Qed.

(** X12 on a reply with a sentence before the block and one after it. *)
Lemma text_around_the_block_is_ignored_witness :
  let before := "Here are your flashcards:" ++ nl in
  let body := nl ++ "{" ++ q "flashcards" ++ ": []}" ++ nl in
  let after := nl ++ "Let me know if you need more." in
  lacks "`" before = true /\ lacks "`" body = true /\
  startswith after "`" = false /\
  _extract_json (before ++ "```json" ++ body ++ "```" ++ after)
  = Ok (VDict [(codes "flashcards", VList [])]).
Proof.
  intros before body after.
  split; [reflexivity|]. split; [reflexivity|]. split; [reflexivity|].
  rewrite (text_around_the_block_is_ignored before body after);
    reflexivity.
Defined.

(** *** White space around the reply *)

Lemma blank_lacks (c0 : ascii) (pad : string) :
  isspace c0 = false -> blank pad = true -> lacks c0 pad = true.
Proof.
  intros N. induction pad as [|c pad IH]; [reflexivity|].
  cbn [blank lacks]. intros H. apply andb_prop in H as [S B].
  rewrite (IH B), andb_true_r. apply negb_true_iff.
  destruct (Ascii.eqb c0 c) eqn:E; [|reflexivity].
  apply Ascii.eqb_eq in E. congruence.
Qed.

Lemma startswith_blank_after (sep s pad : string) :
  no_space_in sep -> blank pad = true ->
  startswith (s ++ pad) sep = startswith s sep.
Proof.
  intros N B. revert s. induction sep as [|a sep IH]; intros s;
    [reflexivity|].
  inversion N as [|? ? Na N']; subst.
  destruct s as [|b s]; cbn [append startswith].
  - destruct pad as [|c pad]; [reflexivity|].
    cbn [blank] in B. apply andb_prop in B as [Sc _].
    destruct (Ascii.eqb a c) eqn:E; [|reflexivity].
    apply Ascii.eqb_eq in E. congruence.
  - now rewrite (IH N').
Qed.

Lemma drop_app_le (n : nat) (x y : string) :
  (n <= String.length x)%nat -> drop n (x ++ y) = drop n x ++ y.
Proof.
  revert x; induction n as [|n IH]; intros x L; [reflexivity|].
  destruct x as [|c x]; simpl in L; [lia|].
  cbn [append drop]. apply IH. lia.
Qed.

Lemma partition_blank_after (c0 : ascii) (sep0 s pad : string) :
  no_space_in (String c0 sep0) -> blank pad = true ->
  partition (String c0 sep0) (s ++ pad)
  = match partition (String c0 sep0) s with
    | Some (a, b) => Some (a, b ++ pad)
    | None => None
    end.
Proof.
  intros N B. set (sep := String c0 sep0) in *.
  induction s as [|c s IH].
  - cbn [append]. change (partition sep "") with (@None (string * string)).
    assert (L : lacks c0 pad = true).
    { apply blank_lacks; [|exact B]. now inversion N. }
    pose proof (partition_past c0 sep0 pad "" L) as P.
    rewrite append_empty_r in P. exact P.
  - change (String c s ++ pad) with (String c (s ++ pad)).
    rewrite !partition_cons.
    change (String c (s ++ pad)) with (String c s ++ pad).
    rewrite (startswith_blank_after _ _ _ N B).
    destruct (startswith (String c s) sep) eqn:E.
    + f_equal. f_equal. apply drop_app_le.
      now apply JsonFacts.startswith_length.
    + rewrite IH. now destruct (partition sep s) as [[a b]|].
Qed.

Lemma strip_blank_after (s pad : string) :
  blank pad = true -> strip (s ++ pad) = strip s.
Proof.
  revert s; induction pad as [|c pad IH]; intros s B.
  - now rewrite append_empty_r.
  - cbn [blank] in B. apply andb_prop in B as [Sc B].
    change (s ++ String c pad) with (s ++ String c "" ++ pad).
    rewrite <- append_assoc, (IH _ B). now apply strip_space_after.
Qed.

Lemma strip_blank_before (s pad : string) :
  blank pad = true -> strip (pad ++ s) = strip s.
Proof.
  induction pad as [|c pad IH]; intros B; [reflexivity|].
  cbn [blank] in B. apply andb_prop in B as [Sc B].
  cbn [append]. rewrite (strip_space_before _ _ Sc). now apply IH.
Qed.

Lemma fence_has_no_space : no_space_in "```".
Proof. repeat constructor. Qed.

Lemma json_fence_has_no_space : no_space_in "```json".
Proof. repeat constructor. Qed.

(** Trimmed, the text up to the next separator is the same with or
    without white space after the text. *)
Lemma strip_up_to_blank_after (c0 : ascii) (sep0 s pad : string) :
  no_space_in (String c0 sep0) -> blank pad = true ->
  strip (up_to (String c0 sep0) (s ++ pad)) = strip (up_to (String c0 sep0) s).
Proof.
  intros N B. unfold up_to. rewrite (partition_blank_after _ _ _ _ N B).
  destruct (partition _ s) as [[a b]|]; [reflexivity|].
  now apply strip_blank_after.
Qed.

(** X13.  White space around the reply does not count: whatever the
    reply, with fences or without, [_extract_json] gives the same with
    white space added before it and after it. *)
Theorem white_space_around_the_reply_is_ignored {lim : Json.Limits}
  (pad s pad' : string) :
  blank pad = true -> blank pad' = true ->
  _extract_json (pad ++ s ++ pad') = _extract_json s.
Proof.
  intros B B'. rewrite !extract_json_candidate. f_equal.
  assert (L : lacks "`" pad = true) by (now apply blank_lacks).
  unfold candidate_by_split, first_block.
  rewrite !(partition_past _ _ _ _ L).
  rewrite (partition_blank_after _ _ _ _ json_fence_has_no_space B').
  rewrite (partition_blank_after _ _ _ _ fence_has_no_space B').
  destruct (partition "```json" s) as [[a b]|] eqn:PJ.
  - unfold up_to at 2 4.
    rewrite (partition_blank_after _ _ _ _ json_fence_has_no_space B').
    destruct (partition "```json" b) as [[a2 b2]|]; [reflexivity|].
    now apply strip_up_to_blank_after; [apply fence_has_no_space|].
  - destruct (partition "```" s) as [[a b]|] eqn:PF.
    + now apply strip_up_to_blank_after; [apply fence_has_no_space|].
    + rewrite strip_blank_before by assumption.
      now apply strip_blank_after.
Qed.

(** X13 on a fenced reply between blank lines. *)
Lemma white_space_around_the_reply_is_ignored_witness :
  let pad := nl ++ "  " in
  let s := "```" ++ nl ++ "[1]" ++ nl ++ "```" in
  let pad' := " " ++ nl ++ nl in
  blank pad = true /\ blank pad' = true /\
  _extract_json (pad ++ s ++ pad') = _extract_json s /\
  _extract_json s = Ok (VList [VInt 1]).
Proof.
  intros pad s pad'. split; [reflexivity|]. split; [reflexivity|].
  split; [|reflexivity].
  apply (white_space_around_the_reply_is_ignored pad s pad'); reflexivity.
Defined.

(** X14.  [_extract_json] raises what the decoder raises and nothing of
    its own: [JSONDecodeError], or, at a limit of the interpreter,
    [RecursionError] for an object or an array nested too deep and
    [ValueError] for an integer of too many digits.  Its two indexings of
    what [split] returns are never out of range. *)
Theorem extract_json_raises_what_the_decoder_raises {lim : Json.Limits}
  (response : string) (e : exn) :
  _extract_json response = Raise e ->
  (exists msg lineno colno pos, e = JSONDecodeError msg lineno colno pos) \/
  e = Json.recursion_error "object" \/
  e = Json.recursion_error "array" \/
  (exists digits,
     Json.too_many_digits digits = true /\
     e = Json.int_conversion_error digits).
Proof.
  intros H. apply extract_json_raises in H as [J|L]; [left|right; exact L].
  destruct e; try discriminate. now eexists _, _, _, _.
Qed.

(** X14 on a block that holds a thousand and one opening brackets. *)
Lemma extract_json_raises_what_the_decoder_raises_witness :
  let response := "```json" ++ repeated 1001 "[" ++ "```" in
  let e := RecursionError
             "maximum recursion depth exceeded while decoding a JSON array from a unicode string" in
  _extract_json response = Raise e /\
  e = Json.recursion_error "array".
Proof.
  intros response e.
  assert (E : _extract_json response = Raise e) by (vm_compute; reflexivity).
  split; [exact E|].
  destruct (extract_json_raises_what_the_decoder_raises response e E)
    as [(msg & l & c & p & J)|[O|[A|(digits & _ & D)]]];
    [discriminate|discriminate|exact A|discriminate].
Defined.

End FenceMoreFacts.

(** ** The document parser *)

Module DocumentFacts.
Import Py DocumentParser Documents Spec Statements.
Import PyFacts FenceFacts FenceMoreFacts.

Local Arguments Ascii.eqb : simpl never.
Local Arguments String.eqb : simpl never.
Local Arguments isspace : simpl never.

(** *** White space *)

Lemma rstrip_idempotent (s : string) : rstrip (rstrip s) = rstrip s.
Proof.
  induction s as [|c s IH]; [reflexivity|].
  cbn [rstrip]. destruct (rstrip s) as [|d r] eqn:R.
  - destruct (isspace c) eqn:Sc; [reflexivity|].
    cbn [rstrip]. now rewrite Sc.
  - cbn [rstrip]. cbn [rstrip] in IH. rewrite IH. reflexivity.
Qed.

Lemma lstrip_rstrip_head (c : ascii) (t : string) :
  isspace c = false -> lstrip (rstrip (String c t)) = rstrip (String c t).
Proof.
  intros Sc. cbn [rstrip]. destruct (rstrip t); rewrite ?Sc;
    cbn [lstrip]; now rewrite Sc.
Qed.

Lemma lstrip_head (s : string) :
  lstrip s = "" \/ exists c t, lstrip s = String c t /\ isspace c = false.
Proof.
  induction s as [|c s IH]; [now left|].
  cbn [lstrip]. destruct (isspace c) eqn:Sc; [exact IH|].
  right. now exists c, s.
Qed.

(** Trimming twice is trimming once. *)
Lemma strip_idempotent (s : string) : strip (strip s) = strip s.
Proof.
  unfold strip. destruct (lstrip_head s) as [E|(c & t & E & Sc)];
    rewrite E; [reflexivity|].
  rewrite (lstrip_rstrip_head _ _ Sc). apply rstrip_idempotent.
Qed.

Lemma lstrip_blank (s : string) : lstrip s = "" <-> blank s = true.
Proof.
  induction s as [|c s IH]; [easy|].
  cbn [lstrip blank]. destruct (isspace c); [exact IH|easy].
Qed.

Lemma rstrip_blank (s : string) : rstrip s = "" <-> blank s = true.
Proof.
  induction s as [|c s IH]; [easy|].
  cbn [rstrip blank]. destruct (rstrip s) eqn:R.
  - destruct (isspace c); [|easy].
    split; intros _; [now apply IH|reflexivity].
  - split; [discriminate|]. intros B. apply andb_prop in B as [_ B].
    apply IH in B. discriminate.
Qed.

Lemma blank_lstrip (s : string) : blank (lstrip s) = blank s.
Proof.
  induction s as [|c s IH]; [reflexivity|].
  cbn [lstrip blank]. destruct (isspace c) eqn:Sc; [exact IH|].
  cbn [blank]. now rewrite Sc.
Qed.

(** Trimming leaves nothing of white space, and of white space only. *)
Lemma strip_blank (s : string) : strip s = "" <-> blank s = true.
Proof. unfold strip. now rewrite rstrip_blank, blank_lstrip. Qed.

Lemma nonempty_strip (s : string) : nonempty (strip s) = negb (blank s).
Proof.
  destruct (blank s) eqn:B.
  - apply strip_blank in B. now rewrite B.
  - destruct (strip s) eqn:E; [|reflexivity].
    apply strip_blank in E. congruence.
Qed.

(** *** Words *)

Lemma split_ws_from_nil (cur s : string) :
  split_ws_from cur s = [] <-> cur = "" /\ blank s = true.
Proof.
  revert cur; induction s as [|c s IH]; intros cur.
  - cbn [split_ws_from blank]. destruct cur; easy.
  - cbn [split_ws_from blank]. destruct (isspace c).
    + destruct cur; [|easy]. rewrite IH. easy.
    + rewrite IH. destruct cur; easy.
Qed.

Lemma split_ws_from_words (cur s : string) :
  Forall (fun w => w <> "") (split_ws_from cur s).
Proof.
  revert cur; induction s as [|c s IH]; intros cur.
  - cbn [split_ws_from]. destruct cur; repeat constructor. discriminate.
  - cbn [split_ws_from]. destruct (isspace c); [|apply IH].
    destruct cur; [apply IH|]. constructor; [discriminate|apply IH].
Qed.

Lemma count_le_total (words : list string) :
  Forall (fun w => w <> "") words ->
  Z.of_nat (List.length words) <= total_length words.
Proof.
  induction 1 as [|w words W _ IH]; [reflexivity|].
  rewrite total_length_cons. cbn [List.length].
  assert (1 <= len w) by (destruct w; [easy|unfold len; simpl; lia]).
  lia.
Qed.

(** *** Lines *)

Lemma partition_lacking (c0 : ascii) (sep0 x : string) :
  lacks c0 x = true -> partition (String c0 sep0) x = None.
Proof.
  intros L. pose proof (partition_past c0 sep0 x "" L) as P.
  now rewrite append_empty_r in P.
Qed.

(** Joining lines and splitting at the newlines gives the lines back. *)
Lemma split_join (x : string) (l : list string) :
  Forall (fun y => lacks (ascii_of_nat 10) y = true) (x :: l) ->
  split nl (String.concat nl (x :: l)) = x :: l.
Proof.
  revert x; induction l as [|y l IH]; intros x F;
    inversion F as [|? ? Lx F']; subst.
  - cbn [String.concat]. unfold nl. rewrite split_unfold.
    now rewrite (partition_lacking _ _ _ Lx).
  - change (String.concat nl (x :: y :: l))
      with (x ++ nl ++ String.concat nl (y :: l)).
    unfold nl at 1. rewrite split_unfold.
    rewrite (partition_past _ _ _ _ Lx).
    change (String (ascii_of_nat 10) "") with nl.
    rewrite partition_at_start, append_empty_r. f_equal. now apply IH.
Qed.

(** *** Files *)

Section Files.
Context {fs : FileSystem}.

(** X15.  When [parse_file] returns, the file exists and the type it
    returns with the content is the extension of the path, in lower case and
    without its dot: pdf, txt or docx. *)
Theorem parse_file_type_is_the_extension (file_path content kind : string) :
  parse_file file_path = Returns (content, kind) ->
  path_exists file_path = true /\
  lower (path_suffix file_path) = "." ++ kind /\
  In kind ["pdf"; "txt"; "docx"].
Proof.
  unfold parse_file. destruct (path_exists file_path); [|discriminate].
  cbn [negb]. intros H. split; [reflexivity|].
  destruct (String.eqb _ ".pdf") eqn:Pdf.
  { apply String.eqb_eq in Pdf. destruct (parse_pdf _); [|discriminate].
    injection H as _ <-. split; [exact Pdf|]. cbn. tauto. }
  destruct (String.eqb _ ".txt") eqn:Txt.
  { apply String.eqb_eq in Txt. destruct (parse_txt _); [|discriminate].
    injection H as _ <-. split; [exact Txt|]. cbn. tauto. }
  destruct (String.eqb _ ".docx") eqn:Docx; [|discriminate].
  apply String.eqb_eq in Docx. destruct (parse_docx _); [|discriminate].
  injection H as _ <-. split; [exact Docx|]. cbn. tauto.
Qed.

(** X16.  The content [parse_file] returns for a PDF file or a text file
    has no white space at either end: trimming it changes nothing.  (Of a
    DOCX file the paragraphs are joined as they are.) *)
Theorem pdf_and_txt_content_is_trimmed (file_path content kind : string) :
  parse_file file_path = Returns (content, kind) ->
  kind <> "docx" ->
  strip content = content.
Proof.
  unfold parse_file. destruct (path_exists file_path); [|discriminate].
  cbn [negb]. intros H K.
  destruct (String.eqb _ ".pdf").
  { unfold parse_pdf, wrap in H.
    destruct (pdf_pages file_path) as [pages|]; [|discriminate].
    destruct (extract_pages pages "") as [text|]; [|discriminate].
    injection H as <- _. apply strip_idempotent. }
  destruct (String.eqb _ ".txt").
  { unfold parse_txt in H.
    destruct (read_text file_path utf_8) as [text|[m|m|e]];
      try discriminate.
    - injection H as <- _. apply strip_idempotent.
    - destruct (read_text file_path latin_1) as [text|]; [|discriminate].
      injection H as <- _. apply strip_idempotent. }
  destruct (String.eqb _ ".docx"); [|discriminate].
  destruct (parse_docx _); [|discriminate].
  injection H as _ <-. now contradiction K.
Qed.

Lemma wrap_raises {A} (prefix : string) (r : outcome A) (e : exc) :
  wrap prefix r = Raises e <->
  exists e0, r = Raises e0 /\
             e = Other (Exception (prefix ++ str_of_exc e0)).
Proof.
  destruct r as [a|e0]; cbn [wrap].
  - split; [discriminate|]. now intros (e0 & E & _).
  - split.
    + intros [= <-]. now exists e0.
    + intros (e1 & [= <-] & ->). reflexivity.
Qed.

(** The loop over the pages fails at the first page that fails. *)
Lemma extract_pages_raises (pages : list (outcome string)) (text : string)
  (e : exc) :
  extract_pages pages text = Raises e <->
  exists before after,
    pages = (List.map Returns before ++ Raises e :: after)%list.
Proof.
  revert text; induction pages as [|[page_text|e'] pages IH]; intros text;
    cbn [extract_pages].
  - split; [discriminate|]. intros ([|b before] & after & E); discriminate.
  - rewrite IH. split.
    + intros (before & after & ->). now exists (page_text :: before), after.
    + intros ([|b before] & after & E); [discriminate|].
      injection E as _ E. now exists before, after.
  - split.
    + intros [= ->]. now exists [], pages.
    + intros ([|b before] & after & E); [|discriminate].
      now injection E as ->.
Qed.

Lemma parse_pdf_raises (file_path : string) (e : exc) :
  parse_pdf file_path = Raises e <->
  exists e0, pdf_failure file_path e0 /\
             e = Other (Exception ("Error parsing PDF: " ++ str_of_exc e0)).
Proof.
  unfold parse_pdf, pdf_failure. rewrite wrap_raises.
  split; intros (e0 & F & W); exists e0; (split; [|exact W]).
  - destruct (pdf_pages file_path) as [pages|e1];
      [|left; now injection F as ->].
    right. destruct (extract_pages pages "") as [text|e1] eqn:X;
      [discriminate|].
    injection F as ->. apply extract_pages_raises in X
      as (before & after & ->).
    now exists before, after.
  - destruct F as [F|(before & after & F)]; rewrite F; [reflexivity|].
    destruct (extract_pages _ "") as [text|e1] eqn:X.
    + assert (Y : extract_pages
                    (List.map Returns before ++ Raises e0 :: after)%list ""
                  = Raises e0)
        by (apply extract_pages_raises; now exists before, after).
      congruence.
    + f_equal. apply extract_pages_raises in X as (b1 & a1 & X).
      clear - X. revert b1 X.
      induction before as [|b before IH]; intros [|c b1] X;
        cbn [List.map app] in X; try discriminate.
      * now injection X.
      * injection X as _ X. now apply (IH b1).
Qed.

(** X17.  Of a PDF file or a DOCX file that exists, [parse_file] raises
    exactly when reading it fails (opening it, or extracting the text of a
    page), and then what it raises is a plain [Exception] whose message is
    [Error parsing PDF: ] or [Error parsing DOCX: ] followed by the text
    of the error that made the reading fail. *)
Theorem pdf_and_docx_failures_are_wrapped (file_path : string) (e : exc) :
  path_exists file_path = true ->
  (lower (path_suffix file_path) = ".pdf" ->
   (parse_file file_path = Raises e <->
    exists e0,
      pdf_failure file_path e0 /\
      e = Other (Exception ("Error parsing PDF: " ++ str_of_exc e0)))) /\
  (lower (path_suffix file_path) = ".docx" ->
   (parse_file file_path = Raises e <->
    exists e0,
      docx_paragraphs file_path = Raises e0 /\
      e = Other (Exception ("Error parsing DOCX: " ++ str_of_exc e0)))).
Proof.
  intros Ex. unfold parse_file. rewrite Ex. cbn [negb].
  split; intros Sx; rewrite Sx.
  - change (".pdf" =? ".pdf")%string with true. cbv iota.
    rewrite <- parse_pdf_raises.
    destruct (parse_pdf file_path) as [c|e']; [easy|].
    split; congruence.
  - change (".docx" =? ".pdf")%string with false.
    change (".docx" =? ".txt")%string with false.
    change (".docx" =? ".docx")%string with true. cbv iota.
    assert (D : parse_docx file_path = Raises e <->
                exists e0,
                  docx_paragraphs file_path = Raises e0 /\
                  e = Other (Exception
                               ("Error parsing DOCX: " ++ str_of_exc e0))).
    { unfold parse_docx. rewrite wrap_raises.
      split; intros (e0 & F & W); exists e0; (split; [|exact W]).
      - destruct (docx_paragraphs file_path) as [ps|e1];
          [discriminate|now injection F as ->].
      - now rewrite F. }
    rewrite <- D. destruct (parse_docx file_path) as [c|e']; [easy|].
    split; congruence.
Qed.

(** X18.  A text file that Latin-1 can decode (as it can any bytes) never
    makes [parse_file] raise [UnicodeDecodeError]: the failure of the first
    reading, as UTF-8, is caught. *)
Theorem txt_decoding_error_is_caught (file_path : string) :
  (forall msg, read_text file_path latin_1 <> Raises (UnicodeDecodeError msg)) ->
  lower (path_suffix file_path) = ".txt" ->
  forall msg, parse_file file_path <> Raises (UnicodeDecodeError msg).
Proof.
  intros L Sx msg. unfold parse_file.
  destruct (path_exists file_path); [|discriminate]. cbn [negb].
  rewrite Sx. change (".txt" =? ".pdf")%string with false.
  change (".txt" =? ".txt")%string with true. cbv iota.
  unfold parse_txt.
  destruct (read_text file_path utf_8) as [text|[m|m|e]];
    try discriminate.
  specialize (L msg).
  destruct (read_text file_path latin_1) as [text|e]; [discriminate|].
  congruence.
Qed.

(** X19.  When no paragraph of a DOCX file holds a newline and one at
    least holds more than white space, the lines of what [parse_docx]
    returns are those paragraphs that hold more than white space, in their
    order. *)
Theorem docx_lines_are_the_paragraphs_with_text (file_path : string)
  (paragraphs : list string) :
  docx_paragraphs file_path = Returns paragraphs ->
  Forall (fun p => lacks (ascii_of_nat 10) p = true) paragraphs ->
  (exists p, In p paragraphs /\ blank p = false) ->
  exists content,
    parse_docx file_path = Returns content /\
    split nl content = List.filter (fun p => negb (blank p)) paragraphs.
Proof.
  intros D F (p & I & B). unfold parse_docx. rewrite D. cbn [wrap].
  eexists. split; [reflexivity|].
  rewrite (List.filter_ext _ _ nonempty_strip).
  set (kept := List.filter _ paragraphs).
  assert (K : Forall (fun y => lacks (ascii_of_nat 10) y = true) kept).
  { apply Forall_forall. intros y Y. apply filter_In in Y as [Y _].
    revert y Y. now apply Forall_forall. }
  assert (N : In p kept) by (apply filter_In; now rewrite B).
  destruct kept as [|x l]; [contradiction|]. now apply split_join.
Qed.

End Files.

(** X15 on a text file whose extension is in capitals. *)
Lemma parse_file_type_is_the_extension_witness :
  @parse_file sample_files "notes.TXT" = Returns ("Cells divide.", "txt") /\
  @path_exists sample_files "notes.TXT" = true /\
  lower (@path_suffix sample_files "notes.TXT") = ".txt" /\
  In "txt" ["pdf"; "txt"; "docx"].
Proof.
  split; [reflexivity|].
  apply (@parse_file_type_is_the_extension sample_files
           "notes.TXT" "Cells divide." "txt").
  reflexivity.
Defined.

(** X16 on a PDF file of two pages, the first beginning and the second
    ending with a space. *)
Lemma pdf_and_txt_content_is_trimmed_witness :
  let content := "Page one." ++ nl ++ "Page two." in
  @parse_file sample_files "paper.pdf" = Returns (content, "pdf") /\
  "pdf" <> "docx" /\
  strip content = content.
Proof.
  intros content. split; [reflexivity|]. split; [discriminate|].
  apply (@pdf_and_txt_content_is_trimmed sample_files
           "paper.pdf" content "pdf"); [reflexivity|discriminate].
Defined.

(** X17 on a PDF file cut short. *)
Lemma pdf_and_docx_failures_are_wrapped_witness :
  let e0 := Other (Exception "EOF marker not found") in
  @path_exists sample_files "torn.pdf" = true /\
  lower (@path_suffix sample_files "torn.pdf") = ".pdf" /\
  @pdf_failure sample_files "torn.pdf" e0 /\
  @parse_file sample_files "torn.pdf"
  = Raises (Other (Exception "Error parsing PDF: EOF marker not found")).
Proof.
  intros e0.
  assert (F : @pdf_failure sample_files "torn.pdf" e0) by (now left).
  split; [reflexivity|]. split; [reflexivity|]. split; [exact F|].
  apply (proj1 (@pdf_and_docx_failures_are_wrapped sample_files
                  "torn.pdf" _ eq_refl) eq_refl).
  exists e0. split; [exact F|reflexivity].
Defined.

(** X18 on a text file that is not UTF-8. *)
Lemma txt_decoding_error_is_caught_witness :
  (forall msg, @read_text sample_files "old.txt" latin_1
               <> Raises (UnicodeDecodeError msg)) /\
  lower (@path_suffix sample_files "old.txt") = ".txt" /\
  (exists msg, @read_text sample_files "old.txt" utf_8
               = Raises (UnicodeDecodeError msg)) /\
  (forall msg, @parse_file sample_files "old.txt"
               <> Raises (UnicodeDecodeError msg)).
Proof.
  assert (L : forall msg, @read_text sample_files "old.txt" latin_1
                          <> Raises (UnicodeDecodeError msg))
    by (intros msg; discriminate).
  split; [exact L|]. split; [reflexivity|].
  split; [eexists; reflexivity|].
  apply (@txt_decoding_error_is_caught sample_files "old.txt" L).
  reflexivity.
Defined.

(** X19 on a DOCX file of three paragraphs, the second blank. *)
Lemma docx_lines_are_the_paragraphs_with_text_witness :
  let paragraphs := ["First paragraph."; "   "; "Second paragraph."] in
  @docx_paragraphs sample_files "essay.docx" = Returns paragraphs /\
  Forall (fun p => lacks (ascii_of_nat 10) p = true) paragraphs /\
  (exists p, In p paragraphs /\ blank p = false) /\
  exists content,
    @parse_docx sample_files "essay.docx" = Returns content /\
    split nl content = ["First paragraph."; "Second paragraph."].
Proof.
  intros paragraphs.
  assert (F : Forall (fun p => lacks (ascii_of_nat 10) p = true) paragraphs)
    by (repeat constructor).
  assert (B : exists p, In p paragraphs /\ blank p = false)
    by (exists "First paragraph."; split; [now left|reflexivity]).
  split; [reflexivity|]. split; [exact F|]. split; [exact B|].
  apply (@docx_lines_are_the_paragraphs_with_text sample_files
           "essay.docx" paragraphs eq_refl F B).
Defined.

(** *** Usable content *)

Lemma validate_content_positive (content : string) (min_length : Z) :
  0 < min_length ->
  validate_content content min_length
  = negb (len (strip content) <? min_length).
Proof.
  intros P. unfold validate_content. destruct content as [|c s].
  - cbn [Startup.is_empty orb]. change (len (strip "")) with 0.
    now destruct (Z.ltb_spec 0 min_length); [|lia].
  - cbn [Startup.is_empty orb]. now destruct (_ <? _).
Qed.

(** X20.  For a positive [min_length], white space before and after the
    content does not change what [validate_content] answers. *)
Theorem validate_content_ignores_padding (pad content pad' : string)
  (min_length : Z) :
  0 < min_length -> blank pad = true -> blank pad' = true ->
  validate_content (pad ++ content ++ pad') min_length
  = validate_content content min_length.
Proof.
  intros P B B'. rewrite !validate_content_positive by assumption.
  now rewrite (strip_blank_before _ _ B), (strip_blank_after _ _ B').
Qed.

(** X20 on a text of three letters between spaces and a newline, which
    are not counted towards the three that are asked for. *)
Lemma validate_content_ignores_padding_witness :
  0 < 3 /\ blank "  " = true /\ blank nl = true /\
  validate_content ("  " ++ "abc" ++ nl) 3 = validate_content "abc" 3 /\
  validate_content "abc" 3 = true.
Proof.
  split; [lia|]. split; [reflexivity|]. split; [reflexivity|].
  split; [|reflexivity].
  apply (validate_content_ignores_padding "  " "abc" nl 3);
    [lia|reflexivity|reflexivity].
Defined.

(** The statistics of a text of [sys.maxsize] characters at most. *)
Lemma get_content_stats_value (content : string) :
  len content <= sys_maxsize ->
  get_content_stats content
  = Ok (pydict
          [ ("character_count", VInt (len content));
            ("word_count", VInt (Z.of_nat (List.length (split_ws content))));
            ("sentence_count",
              VInt (Z.of_nat (List.length
                (List.filter (fun s => nonempty (strip s))
                             (split "." content)))));
            ("avg_word_length",
              match split_ws content with
              | [] => VInt 0
              | words =>
                  VFloat (SFdiv prec emax (exact (total_length words))
                            (exact (Z.of_nat (List.length words))))
              end) ]).
Proof.
  intros Max. unfold get_content_stats.
  pose proof (split_ws_from_total "" content) as Sum.
  change (split_ws_from "" content) with (split_ws content) in Sum.
  change (len "") with 0 in Sum.
  pose proof (total_length_nonneg (split_ws content)) as Pos.
  destruct (split_ws content) as [|w words] eqn:W; [reflexivity|].
  unfold int_truediv.
  set (n := Z.of_nat (List.length (w :: words))).
  assert (N : 1 <= n) by (subst n; simpl List.length; lia).
  destruct (n =? 0) eqn:Z0; [apply Z.eqb_eq in Z0; lia|].
  rewrite (Z.abs_eq n) by lia.
  rewrite (Z.abs_eq (total_length (w :: words))) by assumption.
  assert (B : sys_maxsize < 2 ^ 1024 - 2 ^ 970) by reflexivity.
  revert B. generalize (2 ^ 1024 - 2 ^ 970). intros K B.
  destruct (K * n <=? total_length (w :: words)) eqn:Ov;
    [apply Z.leb_le in Ov; nia|].
  reflexivity.
Qed.

(** X21.  Content that [validate_content] accepts for a positive
    [min_length] has a word: its statistics count one word at least, and
    the average word length is the quotient, a float, not the [0] of a
    text without words. *)
Theorem validated_content_has_words (content : string) (min_length : Z) :
  0 < min_length -> len content <= sys_maxsize ->
  validate_content content min_length = true ->
  exists stats word_count mean,
    get_content_stats content = Ok stats /\
    pyget stats "word_count" = Some (VInt word_count) /\
    1 <= word_count /\
    pyget stats "avg_word_length" = Some (VFloat mean).
Proof.
  intros P Max V. rewrite validate_content_positive in V by assumption.
  apply negb_true_iff, Z.ltb_ge in V.
  assert (W : split_ws content <> []).
  { intros E. apply split_ws_from_nil in E as [_ E].
    apply strip_blank in E. rewrite E in V. change (len "") with 0 in V.
    lia. }
  rewrite (get_content_stats_value _ Max).
  destruct (split_ws content) as [|w words]; [congruence|].
  eexists _, _, _. split; [reflexivity|]. split; [reflexivity|].
  split; [|reflexivity]. cbn [List.length]. lia.
Qed.

(** X21 on a text of two words. *)
Lemma validated_content_has_words_witness :
  0 < 5 /\ len "Cells divide" <= sys_maxsize /\
  validate_content "Cells divide" 5 = true /\
  exists stats word_count mean,
    get_content_stats "Cells divide" = Ok stats /\
    pyget stats "word_count" = Some (VInt word_count) /\
    1 <= word_count /\
    pyget stats "avg_word_length" = Some (VFloat mean).
Proof.
  split; [lia|]. split; [discriminate|]. split; [reflexivity|].
  apply (validated_content_has_words "Cells divide" 5);
    [lia|discriminate|reflexivity].
Defined.

(** X22.  The statistics never count more words than characters, and they
    count no word exactly when the content is white space only (or
    empty). *)
Theorem word_count_bounds (content : string) (stats : PyVal) :
  get_content_stats content = Ok stats ->
  exists word_count,
    pyget stats "word_count" = Some (VInt word_count) /\
    pyget stats "character_count" = Some (VInt (len content)) /\
    0 <= word_count <= len content /\
    (word_count = 0 <-> blank content = true).
Proof.
  unfold get_content_stats. intros H.
  pose proof (split_ws_from_total "" content) as Sum.
  pose proof (count_le_total _ (split_ws_from_words "" content)) as Cnt.
  pose proof (split_ws_from_nil "" content) as Nil.
  change (split_ws_from "" content) with (split_ws content) in *.
  change (len "") with 0 in Sum.
  exists (Z.of_nat (List.length (split_ws content))).
  assert (Z : Z.of_nat (List.length (split_ws content)) = 0
              <-> blank content = true).
  { destruct (split_ws content) as [|w ws].
    - split; [intros _; now apply Nil|reflexivity].
    - split; [cbn [List.length]; lia|].
      intros E. destruct Nil as [_ Nil].
      specialize (Nil (conj eq_refl E)). discriminate. }
  destruct (split_ws content) as [|w words].
  - injection H as <-. repeat split; try reflexivity; try lia; apply Z.
  - cbn [bind] in H.
    destruct (int_truediv _ _) as [mean|]; [|discriminate].
    injection H as <-. repeat split; try reflexivity; try lia; apply Z.
Qed.

(** X22 on a text of two words of one letter. *)
Lemma word_count_bounds_witness :
  exists stats word_count,
    get_content_stats "a b" = Ok stats /\
    pyget stats "word_count" = Some (VInt word_count) /\
    pyget stats "character_count" = Some (VInt 3) /\
    0 <= word_count <= 3 /\
    (word_count = 0 <-> blank "a b" = true).
Proof.
  eassert (G : get_content_stats "a b" = Ok _) by reflexivity.
  destruct (word_count_bounds _ _ G) as (wc & W & C & R & Z).
  eexists _, wc. split; [exact G|]. repeat split; try assumption;
    try apply R; apply Z.
Defined.

End DocumentFacts.
